(** * Weather emergency agent: workflow stages, routers and the
    suspend/resume protocol

    A shallow embedding of [Agents.py] (stages, routers, blocking
    workflow), [agent_web.py] (non-blocking verification, pending store,
    resumption) and the approval endpoint of [main.py].

    Conventions.
    - A Python [str] is a [string]; its characters are the code points
      below 256.  [strip] and [lower] follow Python on that range.
    - A Python [dict] used as a map is a [gmap string _]; the state
      [TypedDict] is a record.
    - Every call that leaves the process (HTTP, language model, file,
      SMTP, clock, environment variables, console) is answered by a
      [World]; a stage is a function of the world and the state.
    - The graph executor is library code; it carries from node to node
      the keys the state class declares, and those only.
    - An exception is a value of [exn]; code that may raise returns a
      [result]. *)

From stdpp Require Import base option list strings gmap pretty.
From Stdlib Require Import Ascii ZArith Lia.

Local Open Scope Z_scope.

(** ** Python strings *)

Module PyStr.

Definition nl : string := String "010"%char "".

(** [str.isspace] on code points below 256. *)
Definition is_space (c : ascii) : bool :=
  match c with
  | "009" | "010" | "011" | "012" | "013"
  | "028" | "029" | "030" | "031"
  | " " | "133" | "160" => true
  | _ => false
  end%char.

(** [str.lower] on one code point below 256: A-Z and the Latin-1
    capitals (all of 192..222 but the multiplication sign). *)
Definition lower_char (c : ascii) : ascii :=
  let n := N_of_ascii c in
  if ((65 <=? n) && (n <=? 90)
      || (192 <=? n) && (n <=? 222) && negb (n =? 215))%N
  then ascii_of_N (n + 32) else c.

Fixpoint lower (s : string) : string :=
  match s with
  | "" => ""
  | String c r => String (lower_char c) (lower r)
  end.

Fixpoint lstrip (s : string) : string :=
  match s with
  | "" => ""
  | String c r => if is_space c then lstrip r else s
  end.

Definition rstrip (s : string) : string :=
  String.rev (lstrip (String.rev s)).

Definition strip (s : string) : string := rstrip (lstrip s).

Fixpoint starts_with (p s : string) : bool :=
  match p, s with
  | "", _ => true
  | String a p', String b s' => if decide (a = b) then starts_with p' s' else false
  | String _ _, "" => false
  end.

(** [sub in s] *)
Fixpoint contains (sub s : string) : bool :=
  starts_with sub s ||
  match s with
  | "" => false
  | String _ r => contains sub r
  end.

(** [s in l] for a list of strings *)
Definition mem (s : string) (l : list string) : bool := bool_decide (s ∈ l).

(** What [sub in s] means. *)
Definition is_substring (sub s : string) : Prop :=
  ∃ pre post, s = pre +:+ sub +:+ post.

End PyStr.

(** ** Values, exceptions, results *)

(** A value held in the weather reading: a string, or a number.  A number
    is kept as its literal; the one arithmetic operation on numbers is
    answered by the world. *)
Inductive pyval :=
| PStr (s : string)
| PNum (literal : string).

(** [str(v)], as an f-string renders a value. *)
Definition str_pyval (v : pyval) : string :=
  match v with PStr s => s | PNum l => l end.

Inductive exn :=
| ValueError (msg : string)
| KeyError (key : string)
| IndexError (msg : string)
| TypeError (msg : string)
| OtherException (msg : string).

(** [str(e)] *)
Definition str_exn (e : exn) : string :=
  match e with
  | ValueError m | IndexError m | TypeError m | OtherException m => m
  | KeyError k => "'" +:+ k +:+ "'"
  end.

Inductive result (A : Type) :=
| Ok (a : A)
| Raise (e : exn).
Arguments Ok {A} a.
Arguments Raise {A} e.

Global Instance result_ret : MRet result := @Ok.
Global Instance result_bind : MBind result := λ A B f r,
  match r with Ok a => f a | Raise e => Raise e end.

(** A stage either returns, raises, or never returns (it waits for
    console input that does not come). *)
Inductive outcome (A : Type) :=
| Returns (a : A)
| Raises (e : exn)
| Hangs.
Arguments Returns {A} a.
Arguments Raises {A} e.
Arguments Hangs {A}.

Definition of_result {A} (r : result A) : outcome A :=
  match r with Ok a => Returns a | Raise e => Raises e end.

(** [d[k]] *)
Definition getitem {V} (d : gmap string V) (k : string) : result V :=
  match d !! k with
  | Some v => Ok v
  | None => Raise (KeyError k)
  end.

(** [d.get(k, dflt)] *)
Definition get_default {V} (d : gmap string V) (k : string) (dflt : V) : V :=
  default dflt (d !! k).

(** ** The state record *)

Inductive Message := SystemMessage (content : string).

Definition content (m : Message) : string :=
  match m with SystemMessage c => c end.

(** A state dictionary: the keys of [WeatherState], and the two keys
    the web stages write beside them, which the class does not declare.
    [human_approved = None] is Python's [None] (pending);
    [needs_approval = None] and [verification_id = None] are what
    [state.get] answers when the key is missing or holds [None]. *)
Record WeatherState := mkState {
  city : string;
  weather_data : gmap string pyval;
  disaster_type : string;
  severity : string;
  response : string;
  messages : list Message;
  alerts : list string;
  human_approved : option bool;
  needs_approval : option bool;
  verification_id : option string
}.

Definition set_weather_data (v : gmap string pyval) (st : WeatherState) :=
  mkState (city st) v (disaster_type st) (severity st) (response st)
    (messages st) (alerts st) (human_approved st) (needs_approval st)
    (verification_id st).
Definition set_disaster_type (v : string) (st : WeatherState) :=
  mkState (city st) (weather_data st) v (severity st) (response st)
    (messages st) (alerts st) (human_approved st) (needs_approval st)
    (verification_id st).
Definition set_severity (v : string) (st : WeatherState) :=
  mkState (city st) (weather_data st) (disaster_type st) v (response st)
    (messages st) (alerts st) (human_approved st) (needs_approval st)
    (verification_id st).
Definition set_response (v : string) (st : WeatherState) :=
  mkState (city st) (weather_data st) (disaster_type st) (severity st) v
    (messages st) (alerts st) (human_approved st) (needs_approval st)
    (verification_id st).
Definition set_messages (v : list Message) (st : WeatherState) :=
  mkState (city st) (weather_data st) (disaster_type st) (severity st)
    (response st) v (alerts st) (human_approved st) (needs_approval st)
    (verification_id st).
Definition set_alerts (v : list string) (st : WeatherState) :=
  mkState (city st) (weather_data st) (disaster_type st) (severity st)
    (response st) (messages st) v (human_approved st) (needs_approval st)
    (verification_id st).
Definition set_human_approved (v : option bool) (st : WeatherState) :=
  mkState (city st) (weather_data st) (disaster_type st) (severity st)
    (response st) (messages st) (alerts st) v (needs_approval st)
    (verification_id st).
Definition set_needs_approval (v : option bool) (st : WeatherState) :=
  mkState (city st) (weather_data st) (disaster_type st) (severity st)
    (response st) (messages st) (alerts st) (human_approved st) v
    (verification_id st).
Definition set_verification_id (v : option string) (st : WeatherState) :=
  mkState (city st) (weather_data st) (disaster_type st) (severity st)
    (response st) (messages st) (alerts st) (human_approved st)
    (needs_approval st) v.

(** [state["messages"] + [SystemMessage(content=c)]] written back *)
Definition log_message (c : string) (st : WeatherState) : WeatherState :=
  set_messages (messages st ++ [SystemMessage c]) st.

(** Truthiness of [state.get(k)] for a boolean-or-[None] entry. *)
Definition truthy (o : option bool) : bool := default false o.

(** ** The world outside the process *)

Inductive Prompt :=
| DisasterPrompt
| SeverityPrompt
| EmergencyPrompt
| CivilDefensePrompt
| PublicWorksPrompt.

(** The decoded body of the provider's answer: the four top-level keys
    the fetch stage reads, each possibly missing.  The body is taken to
    be an object whose entries, when present, are a list of objects
    ([weather]) and objects ([wind], [clouds], [main]), and a number to
    be within the range of a float. *)
Record ProviderData := {
  pd_weather : option (list (gmap string pyval));
  pd_wind : option (gmap string pyval);
  pd_clouds : option (gmap string pyval);
  pd_main : option (gmap string pyval)
}.

Record LogData := {
  log_timestamp : string;
  log_city : string;
  log_weather_data : gmap string pyval;
  log_disaster_type : string;
  log_severity : string;
  log_response : string
}.

Record World := {
  (** [os.getenv] *)
  getenv : string → option string;
  (** [requests.get(url)], [raise_for_status()], [.json()] *)
  requests_get_json : string → result ProviderData;
  (** [round(t - 273.15, 1)] on the number with literal [t], a number
      within the range of a float *)
  kelvin_to_celsius : string → string;
  (** [(prompt | llm).invoke(variables).content] *)
  llm_invoke : Prompt → gmap string pyval → result string;
  (** appending one JSON line to the audit file *)
  log_write : LogData → result ();
  (** the SMTP session: connect, starttls, login, sendmail, quit *)
  smtp_send : option string → option string → option string →
              string → string → result ();
  (** [datetime.now().strftime("%Y-%m-%d %H:%M:%S")] *)
  now_strftime : string;
  (** [str(datetime.now())] *)
  now_str : string;
  (** [int(time.time() * 1000)] *)
  time_ms : Z;
  (** [str(msg)] of a message object *)
  message_str : Message → string
}.

(** ** Stages of [Agents.py] *)

Definition BASE_URL : string := "http://api.openweathermap.org/data/2.5/weather".

(** [f"{x}"] for the value of [os.getenv] *)
Definition str_getenv (o : option string) : string := default "None" o.

Definition NA : pyval := PStr "N/A".

(** The body of the [try] block of [get_weather_data]: the reading built
    from the provider's answer. *)
Definition build_weather_data (W : World) (data : ProviderData)
  : result (gmap string pyval) :=
  description ←
    match default [∅] (pd_weather data) with
    | [] => Raise (IndexError "list index out of range")
    | first :: _ => Ok (get_default first "description" NA)
    end;
  temperature ←
    match get_default (default ∅ (pd_main data)) "temp" (PNum "273.15") with
    | PNum t => Ok (PNum (kelvin_to_celsius W t))
    | PStr _ =>
        Raise (TypeError "unsupported operand type(s) for -: 'str' and 'float'")
    end;
  Ok (<["weather" := description]>
     (<["wind_speed" := get_default (default ∅ (pd_wind data)) "speed" NA]>
     (<["cloud_cover" := get_default (default ∅ (pd_clouds data)) "all" NA]>
     (<["sea_level" := get_default (default ∅ (pd_main data)) "sea_level" NA]>
     (<["temperature" := temperature]>
     (<["humidity" := get_default (default ∅ (pd_main data)) "humidity" NA]>
     (<["pressure" := get_default (default ∅ (pd_main data)) "pressure" NA]>
      ∅))))))).

Definition error_data : gmap string pyval :=
  <["weather" := NA]>
  (<["wind_speed" := NA]>
  (<["cloud_cover" := NA]>
  (<["sea_level" := NA]>
  (<["temperature" := NA]>
  (<["humidity" := NA]>
  (<["pressure" := NA]> ∅)))))).

Definition request_url (W : World) (st : WeatherState) : string :=
  BASE_URL +:+ "?appid=" +:+ str_getenv (getenv W "API_KEY")
           +:+ "&q=" +:+ city st.

(** Everything inside the [try] of [get_weather_data]. *)
Definition fetch_weather (W : World) (st : WeatherState)
  : result (gmap string pyval) :=
  data ← requests_get_json W (request_url W st);
  build_weather_data W data.

Definition get_weather_data (W : World) (st : WeatherState) : WeatherState :=
  match fetch_weather W st with
  | Ok wd =>
      log_message ("Weather data fetched successfully for " +:+ city st)
        (set_weather_data wd st)
  | Raise e =>
      log_message ("Failed to fetch weather data for " +:+ city st +:+ ": "
                   +:+ str_exn e)
        (set_weather_data error_data st)
  end.

Definition analyze_disaster_type (W : World) (st : WeatherState) : WeatherState :=
  match llm_invoke W DisasterPrompt (weather_data st) with
  | Ok disaster =>
      log_message ("Disaster type identified: " +:+ disaster)
        (set_disaster_type disaster st)
  | Raise e =>
      log_message ("Failed to analyze disaster type: " +:+ str_exn e)
        (set_disaster_type "Analysis Failed" st)
  end.

Definition assess_severity (W : World) (st : WeatherState) : WeatherState :=
  match llm_invoke W SeverityPrompt
          (<["disaster_type" := PStr (disaster_type st)]> (weather_data st)) with
  | Ok sev =>
      log_message ("Severity assessed as: " +:+ sev) (set_severity sev st)
  | Raise e =>
      log_message ("Failed to assess severity: " +:+ str_exn e)
        (set_severity "Assessment Failed" st)
  end.

(** The variables the three plan generators pass to their prompt. *)
Definition plan_variables (st : WeatherState) : gmap string pyval :=
  <["disaster_type" := PStr (disaster_type st)]>
  (<["severity" := PStr (severity st)]>
  (<["city" := PStr (city st)]> ∅)).

Definition emergency_response (W : World) (st : WeatherState) : WeatherState :=
  match llm_invoke W EmergencyPrompt (plan_variables st) with
  | Ok plan =>
      log_message "Emergency response plan generated" (set_response plan st)
  | Raise e =>
      log_message ("Failed to generate emergency response: " +:+ str_exn e)
        (set_response "Failed to generate response plan" st)
  end.

Definition civil_defense_response (W : World) (st : WeatherState) : WeatherState :=
  match llm_invoke W CivilDefensePrompt (plan_variables st) with
  | Ok plan =>
      log_message "Civil defense response plan generated" (set_response plan st)
  | Raise e =>
      log_message ("Failed to generate civil defense response: " +:+ str_exn e)
        (set_response "Failed to generate response plan" st)
  end.

Definition public_works_response (W : World) (st : WeatherState) : WeatherState :=
  match llm_invoke W PublicWorksPrompt (plan_variables st) with
  | Ok plan =>
      log_message "Public works response plan generated" (set_response plan st)
  | Raise e =>
      log_message ("Failed to generate public works response: " +:+ str_exn e)
        (set_response "Failed to generate response plan" st)
  end.

Definition log_data (W : World) (st : WeatherState) : LogData :=
  {| log_timestamp := now_strftime W;
     log_city := city st;
     log_weather_data := weather_data st;
     log_disaster_type := disaster_type st;
     log_severity := severity st;
     log_response := response st |}.

Definition data_logging (W : World) (st : WeatherState) : WeatherState :=
  match log_write W (log_data W st) with
  | Ok _ => log_message "Data logged successfully" st
  | Raise e => log_message ("Failed to log data: " +:+ str_exn e) st
  end.

(** The input loop of [get_human_verification]: each element of
    [inputs] is what one call of [input()] gives (a line, or an
    exception, which the loop swallows).  [None]: the lines run out
    before a [y] or an [n] came, and the loop never ends. *)
Fixpoint read_approval (inputs : list (result string))
  : option (bool * list (result string)) :=
  match inputs with
  | [] => None
  | Ok line :: rest =>
      let user_input := PyStr.strip (PyStr.lower line) in
      if PyStr.mem user_input ["y"; "n"]
      then Some (bool_decide (user_input = "y"), rest)
      else read_approval rest
  | Raise _ :: rest => read_approval rest
  end.

Definition approval_word (approved : bool) : string :=
  if approved then "Approved" else "Rejected".

(** The stage takes the console lines still unread and gives back those
    it left.  The banner it prints reads three keys of the reading. *)
Definition get_human_verification (W : World) (inputs : list (result string))
    (st : WeatherState) : outcome (WeatherState * list (result string)) :=
  let sev := PyStr.lower (PyStr.strip (severity st)) in
  if PyStr.mem sev ["low"; "medium"] then
    match (_ ← getitem (weather_data st) "weather";
           _ ← getitem (weather_data st) "temperature";
           getitem (weather_data st) "wind_speed") with
    | Raise e => Raises e
    | Ok _ =>
        match read_approval inputs with
        | None => Hangs
        | Some (approved, rest) =>
            Returns
              (log_message ("Human verification: " +:+ approval_word approved)
                 (set_human_approved (Some approved) st),
               rest)
        end
    end
  else
    Returns
      (log_message ("Auto-approved " +:+ sev +:+ " severity alert")
         (set_human_approved (Some true) st),
       inputs).

Definition format_weather_email (W : World) (st : WeatherState) : result string :=
  let wd := weather_data st in
  weather ← getitem wd "weather";
  temperature ← getitem wd "temperature";
  wind_speed ← getitem wd "wind_speed";
  humidity ← getitem wd "humidity";
  pressure ← getitem wd "pressure";
  cloud_cover ← getitem wd "cloud_cover";
  let email_content :=
    PyStr.nl +:+
    "Weather Alert for " +:+ city st +:+ PyStr.nl +:+
    PyStr.nl +:+
    "Disaster Type: " +:+ disaster_type st +:+ PyStr.nl +:+
    "Severity Level: " +:+ severity st +:+ PyStr.nl +:+
    PyStr.nl +:+
    "Current Weather Conditions:" +:+ PyStr.nl +:+
    "- Weather Description: " +:+ str_pyval weather +:+ PyStr.nl +:+
    "- Temperature: " +:+ str_pyval temperature +:+ "C" +:+ PyStr.nl +:+
    "- Wind Speed: " +:+ str_pyval wind_speed +:+ " m/s" +:+ PyStr.nl +:+
    "- Humidity: " +:+ str_pyval humidity +:+ "%" +:+ PyStr.nl +:+
    "- Pressure: " +:+ str_pyval pressure +:+ " hPa" +:+ PyStr.nl +:+
    "- Cloud Cover: " +:+ str_pyval cloud_cover +:+ "%" +:+ PyStr.nl +:+
    PyStr.nl +:+
    "Response Plan:" +:+ PyStr.nl +:+
    response st +:+ PyStr.nl +:+
    PyStr.nl +:+
    "This is an automated weather alert generated at "
      +:+ now_strftime W +:+ PyStr.nl in
  Ok (if PyStr.mem (PyStr.lower (severity st)) ["low"; "medium"]
      then email_content +:+ PyStr.nl +:+
           "Note: This low/medium severity alert has been verified by a human operator."
      else email_content).

Definition email_subject (st : WeatherState) : string :=
  "Weather Alert: " +:+ severity st +:+ " severity weather event in " +:+ city st.

(** The report is formatted before the [try]; only the SMTP session is
    inside it. *)
Definition send_email_alert (W : World) (st : WeatherState) : result WeatherState :=
  body ← format_weather_email W st;
  match smtp_send W (getenv W "SENDER_EMAIL") (getenv W "RECEIVER_EMAIL")
          (getenv W "EMAIL_PASSWORD") (email_subject st) body with
  | Ok _ =>
      Ok (set_alerts (alerts st ++ ["Email alert sent: " +:+ now_str W])
            (log_message ("Successfully sent weather alert email for " +:+ city st)
               st))
  | Raise e =>
      Ok (log_message ("Failed to send email alert: " +:+ str_exn e) st)
  end.

Definition handle_no_approval (st : WeatherState) : WeatherState :=
  log_message
    ("Alert not sent for " +:+ city st +:+ " - " +:+
     "Weather severity level '" +:+ severity st +:+ "' was deemed non-critical " +:+
     "by human operator and verification was rejected.")
    st.

(** ** Routers *)

Inductive Node :=
| n_get_weather
| n_analyze_disaster
| n_assess_severity
| n_data_logging
| n_emergency_response
| n_civil_defense_response
| n_public_works_response
| n_get_human_verification
| n_wait_for_approval
| n_send_email_alert
| n_handle_no_approval.

Global Instance Node_eq_dec : EqDecision Node.
Proof. solve_decision. Defined.

(** [route_response].  (The string literal that follows the first
    [return] in the source is never reached.) *)
Definition route_response (st : WeatherState) : Node :=
  let disaster := PyStr.lower (PyStr.strip (disaster_type st)) in
  let sev := PyStr.lower (PyStr.strip (severity st)) in
  if PyStr.mem sev ["critical"; "high"] then n_emergency_response
  else if PyStr.contains "flood" disaster || PyStr.contains "storm" disaster
       then n_public_works_response
       else n_civil_defense_response.

Definition verify_approval_router (st : WeatherState) : Node :=
  if truthy (human_approved st) then n_send_email_alert else n_handle_no_approval.

(** ** The graph and its executor *)

Inductive Edge :=
| GoTo (n : Node)
| Branch (router : WeatherState → Node)
| End.

(** A workflow: the registered nodes with their functions, the edge
    leaving each node, the entry point.  [Env] is what the stages
    thread besides the state (console lines, or the pending store). *)
Record Graph (Env : Type) := {
  node_fn : Node → option (World → Env → WeatherState → outcome (WeatherState * Env));
  edge : Node → Edge;
  entry_point : Node
}.
Arguments node_fn {Env} g n.
Arguments edge {Env} g n.
Arguments entry_point {Env} g.

Inductive run_outcome (Env : Type) :=
| Finished (st : WeatherState) (env : Env) (visited : list Node)
| Crashed (e : exn) (env : Env) (visited : list Node)
| Stalled (visited : list Node)
| OutOfSteps.
Arguments Finished {Env} st env visited.
Arguments Crashed {Env} e env visited.
Arguments Stalled {Env} visited.
Arguments OutOfSteps {Env}.

Definition next_node (e : Edge) (st : WeatherState) : option Node :=
  match e with
  | GoTo m => Some m
  | Branch router => Some (router st)
  | End => None
  end.

(** What [StateGraph(WeatherState)] carries of a dictionary: the keys
    the class declares.  Both workflows are built on that class, and it
    declares neither [needs_approval] nor [verification_id]: what a
    stage, or the initial state, holds under them is not kept. *)
Definition declared (st : WeatherState) : WeatherState :=
  set_needs_approval None (set_verification_id None st).

(** The executor.  It belongs to the graph library, not to the
    repository.  One node at a time: run the node's function on the
    state, write what it returns under the declared keys, follow the
    edge leaving the node, the router of a conditional edge reading the
    state so written.  [visited] records the nodes run so far. *)
Fixpoint walk {Env} (g : Graph Env) (W : World) (steps : nat) (n : Node)
    (env : Env) (st : WeatherState) (visited : list Node) : run_outcome Env :=
  match steps with
  | O => OutOfSteps
  | S steps' =>
      match node_fn g n with
      | None => Crashed (ValueError "unknown node") env visited
      | Some f =>
          match f W env st with
          | Returns (returned, env') =>
              let st' := declared returned in
              match next_node (edge g n) st' with
              | None => Finished st' env' (visited ++ [n])
              | Some m => walk g W steps' m env' st' (visited ++ [n])
              end
          | Raises e => Crashed e env (visited ++ [n])
          | Hangs => Stalled (visited ++ [n])
          end
      end
  end.

(** The executor's default bound on the number of steps. *)
Definition recursion_limit : nat := 25.

Definition invoke {Env} (g : Graph Env) (W : World) (env : Env)
    (initial_state : WeatherState) : run_outcome Env :=
  walk g W recursion_limit (entry_point g) env (declared initial_state) [].

(** A stage that neither raises nor touches the environment. *)
Definition plain {Env} (f : World → WeatherState → WeatherState)
  : World → Env → WeatherState → outcome (WeatherState * Env) :=
  λ W env st, Returns (f W st, env).

(** A stage that may raise and does not touch the environment. *)
Definition fallible {Env} (f : World → WeatherState → result WeatherState)
  : World → Env → WeatherState → outcome (WeatherState * Env) :=
  λ W env st, of_result (st' ← f W st; Ok (st', env)).

(** ** The blocking workflow of [Agents.py] *)

Module Agents.

Definition Console := list (result string).

Definition workflow : Graph Console := {|
  node_fn n :=
    match n with
    | n_get_weather => Some (plain get_weather_data)
    | n_analyze_disaster => Some (plain analyze_disaster_type)
    | n_assess_severity => Some (plain assess_severity)
    | n_data_logging => Some (plain data_logging)
    | n_emergency_response => Some (plain emergency_response)
    | n_civil_defense_response => Some (plain civil_defense_response)
    | n_public_works_response => Some (plain public_works_response)
    | n_get_human_verification => Some get_human_verification
    | n_send_email_alert => Some (fallible send_email_alert)
    | n_handle_no_approval => Some (plain (λ _, handle_no_approval))
    | n_wait_for_approval => None
    end;
  edge n :=
    match n with
    | n_get_weather => GoTo n_analyze_disaster
    | n_analyze_disaster => GoTo n_assess_severity
    | n_assess_severity => GoTo n_data_logging
    | n_data_logging => Branch route_response
    | n_civil_defense_response => GoTo n_get_human_verification
    | n_public_works_response => GoTo n_get_human_verification
    | n_get_human_verification => Branch verify_approval_router
    | n_emergency_response => GoTo n_send_email_alert
    | n_send_email_alert => End
    | n_handle_no_approval => End
    | n_wait_for_approval => End
    end;
  entry_point := n_get_weather
|}.

(** The initial state of [run_weather_emergency_system].  (Its
    [social_media_reports] entry, an empty list no stage reads or
    writes, is not carried.) *)
Definition initial_state (c : string) : WeatherState := {|
  city := c;
  weather_data := ∅;
  disaster_type := "";
  severity := "";
  response := "";
  messages := [];
  alerts := [];
  human_approved := Some false;
  needs_approval := None;
  verification_id := None
|}.

(** [app.invoke(initial_state)] *)
Definition app_invoke (W : World) (inputs : Console) (c : string)
  : run_outcome Console :=
  invoke workflow W inputs (initial_state c).

(** The function returns the final state, or [None] when the run
    raised (the exception is printed, not re-raised); the outer
    [None] is a run that never returns. *)
Definition run_weather_emergency_system (W : World) (inputs : Console)
    (c : string) : option (option WeatherState) :=
  match app_invoke W inputs c with
  | Finished st _ _ => Some (Some st)
  | Crashed _ _ _ | OutOfSteps => Some None
  | Stalled _ => None
  end.

End Agents.

(** ** The suspend/resume workflow of [agent_web.py] *)

Module AgentWeb.

(** [_pending_verifications] *)
Abbreviation Store := (gmap string WeatherState).

Definition wait_for_approval (st : WeatherState) : WeatherState := st.

Definition verify_approval_router_web (st : WeatherState) : Node :=
  if truthy (needs_approval st) && bool_decide (human_approved st = None)
  then n_wait_for_approval
  else if truthy (human_approved st) then n_send_email_alert
       else n_handle_no_approval.

Definition mint_verification_id (W : World) (st : WeatherState) : string :=
  city st +:+ "_" +:+ pretty (time_ms W).

Definition get_human_verification_web (W : World) (pending : Store)
    (st : WeatherState) : WeatherState * Store :=
  let sev := PyStr.lower (PyStr.strip (severity st)) in
  if PyStr.mem sev ["low"; "medium"] then
    let verification_id := mint_verification_id W st in
    let pending' := <[verification_id := st]> pending in
    (log_message "Human verification required for low/medium severity alert"
       (set_needs_approval (Some true)
          (set_verification_id (Some verification_id)
             (set_human_approved None st))),
     pending')
  else
    (log_message ("Auto-approved " +:+ sev +:+ " severity alert")
       (set_needs_approval (Some false)
          (set_human_approved (Some true) st)),
     pending).

Definition continue_with_approval (W : World) (pending : Store)
    (verification_id : string) (approved : bool)
  : result WeatherState * Store :=
  match pending !! verification_id with
  | None =>
      (Raise (ValueError ("Verification ID " +:+ verification_id +:+ " not found")),
       pending)
  | Some snapshot =>
      let state :=
        set_needs_approval (Some false)
          (set_human_approved (Some approved) snapshot) in
      match (if approved then send_email_alert W state
             else Ok (handle_no_approval state)) with
      | Ok final_state => (Ok final_state, delete verification_id pending)
      | Raise e => (Raise e, pending)
      end
  end.

Definition workflow : Graph Store := {|
  node_fn n :=
    match n with
    | n_get_weather => Some (plain get_weather_data)
    | n_analyze_disaster => Some (plain analyze_disaster_type)
    | n_assess_severity => Some (plain assess_severity)
    | n_data_logging => Some (plain data_logging)
    | n_emergency_response => Some (plain emergency_response)
    | n_civil_defense_response => Some (plain civil_defense_response)
    | n_public_works_response => Some (plain public_works_response)
    | n_get_human_verification =>
        Some (λ W pending st, Returns (get_human_verification_web W pending st))
    | n_wait_for_approval => Some (plain (λ _, wait_for_approval))
    | n_send_email_alert => Some (fallible send_email_alert)
    | n_handle_no_approval => Some (plain (λ _, handle_no_approval))
    end;
  edge n :=
    match n with
    | n_get_weather => GoTo n_analyze_disaster
    | n_analyze_disaster => GoTo n_assess_severity
    | n_assess_severity => GoTo n_data_logging
    | n_data_logging => Branch route_response
    | n_civil_defense_response => GoTo n_get_human_verification
    | n_public_works_response => GoTo n_get_human_verification
    | n_get_human_verification => Branch verify_approval_router_web
    | n_wait_for_approval => End
    | n_emergency_response => GoTo n_send_email_alert
    | n_send_email_alert => End
    | n_handle_no_approval => End
    end;
  entry_point := n_get_weather
|}.

Definition initial_state (c : string) : WeatherState := {|
  city := c;
  weather_data := ∅;
  disaster_type := "";
  severity := "";
  response := "";
  messages := [];
  alerts := [];
  human_approved := Some false;
  needs_approval := Some false;
  verification_id := None
|}.

Definition app_invoke (W : World) (pending : Store) (c : string)
  : run_outcome Store :=
  invoke workflow W pending (initial_state c).

(** How a run ended, as [run_agent_web] reports it through
    [needs_approval]. *)
Inductive RunStatus := Suspended | Completed.

Record WebResult := {
  r_city : string;
  r_weather_data : gmap string pyval;
  r_disaster_type : string;
  r_severity : string;
  r_response : string;
  r_needs_approval : bool;
  r_verification_id : option string;
  r_messages : list string;
  r_alerts : list string;
  r_email_sent : option bool
}.

Definition run_status (r : WebResult) : RunStatus :=
  if r_needs_approval r then Suspended else Completed.

(** The dictionary returned when the run raised. *)
Definition error_result (c : string) (e : exn) : WebResult := {|
  r_city := c;
  r_weather_data := ∅;
  r_disaster_type := "Analysis Error";
  r_severity := "Unknown";
  r_response := "Error occurred during analysis: " +:+ str_exn e;
  r_needs_approval := false;
  r_verification_id := None;
  r_messages := [];
  r_alerts := [];
  r_email_sent := None
|}.

(** [run_agent_web], the import of [Agents] having succeeded.  [None]
    is a run that never returns. *)
Definition run_agent_web (W : World) (pending : Store) (c : string)
  : option (WebResult * Store) :=
  match app_invoke W pending c with
  | Finished result pending' _ =>
      let msgs := message_str W <$> messages result in
      if truthy (needs_approval result) then
        Some ({| r_city := city result;
                 r_weather_data := weather_data result;
                 r_disaster_type := disaster_type result;
                 r_severity := severity result;
                 r_response := response result;
                 r_needs_approval := true;
                 r_verification_id := verification_id result;
                 r_messages := msgs;
                 r_alerts := alerts result;
                 r_email_sent := None |}, pending')
      else
        Some ({| r_city := city result;
                 r_weather_data := weather_data result;
                 r_disaster_type := disaster_type result;
                 r_severity := severity result;
                 r_response := response result;
                 r_needs_approval := false;
                 r_verification_id := None;
                 r_messages := msgs;
                 r_alerts := alerts result;
                 r_email_sent := Some (PyStr.mem "send_email_alert" msgs) |},
              pending')
  | Crashed e pending' _ => Some (error_result c e, pending')
  | OutOfSteps =>
      Some (error_result c (OtherException "Recursion limit reached"), pending)
  | Stalled _ => None
  end.

End AgentWeb.

(** ** The approval endpoint of [main.py] *)

Module Main.

Record ApprovalResponse := {
  status_code : Z;
  success : bool;
  message : string;
  email_sent : option bool;
  resp_city : option string
}.

(** [handle_approval]; [web_agent_available] is the module flag
    [WEB_AGENT_AVAILABLE].  (The pictograph that opens three of the
    messages is not carried.) *)
Definition handle_approval (web_agent_available : bool) (W : World)
    (pending : AgentWeb.Store) (verification_id : string) (approved : bool)
  : ApprovalResponse * AgentWeb.Store :=
  if negb web_agent_available then
    ({| status_code := 501; success := false;
        message := "Web agent not available. Approval handling requires agent_web module.";
        email_sent := None; resp_city := None |}, pending)
  else
    match AgentWeb.continue_with_approval W pending verification_id approved with
    | (Ok result, pending') =>
        let sent :=
          PyStr.mem "send_email_alert" (message_str W <$> messages result) in
        ({| status_code := 200; success := true;
            message :=
              if approved && sent then "Email alert sent successfully!"
              else if approved
                   then "Approval granted, but email sending encountered an issue."
                   else "Approval rejected. Email alert not sent.";
            email_sent := Some sent;
            resp_city := Some (city result) |}, pending')
    | (Raise (ValueError m), pending') =>
        ({| status_code := 404; success := false;
            message := "Verification ID not found: " +:+ m;
            email_sent := None; resp_city := None |}, pending')
    | (Raise e, pending') =>
        ({| status_code := 500; success := false;
            message := "Error processing approval: " +:+ str_exn e;
            email_sent := None; resp_city := None |}, pending')
    end.

End Main.

(** ** The scheduled check of [Agents.py] *)

Module Monitor.

(** One run made by the check: the city it passed and what
    [run_weather_emergency_system] returned for it. *)
Definition Run : Type := string * option WeatherState.

(** [run_weather_emergency_system(city)], with the console lines the
    run left unread; [None] is a run that never returns. *)
Definition run_and_rest (W : World) (inputs : Agents.Console) (c : string)
  : option (option WeatherState * Agents.Console) :=
  match Agents.app_invoke W inputs c with
  | Finished st rest _ => Some (Some st, rest)
  | Crashed _ rest _ => Some (None, rest)
  | OutOfSteps => Some (None, inputs)
  | Stalled _ => None
  end.

(** The loop [for city in cities], [cities] being the line read: it
    takes the characters of the line one by one. *)
Fixpoint check_cities (W : World) (cities : string) (inputs : Agents.Console)
  : option (list Run * Agents.Console) :=
  match cities with
  | "" => Some ([], inputs)
  | String ch later =>
      let c := String ch "" in
      match run_and_rest W inputs c with
      | None => None
      | Some (returned, rest) =>
          match check_cities W later rest with
          | None => None
          | Some (runs, unread) => Some ((c, returned) :: runs, unread)
          end
      end
  end.

(** [scheduled_check]: one line is read for the cities (outside any
    [try]), then the loop runs.  It gives the runs made, in order. *)
Definition scheduled_check (W : World) (inputs : Agents.Console)
  : outcome (list Run * Agents.Console) :=
  match inputs with
  | [] => Hangs
  | Raise e :: _ => Raises e
  | Ok cities :: rest =>
      match check_cities W cities rest with
      | Some done => Returns done
      | None => Hangs
      end
  end.

End Monitor.

(** ** The wrapper of [agent.py] *)

Module Agent.

Record AgentResult := {
  a_city : string;
  a_weather_data : gmap string pyval;
  a_disaster_type : string;
  a_severity : string;
  a_response : string;
  a_messages : list string;
  a_alerts : list string
}.

(** The dictionary built from the final state of a run. *)
Definition of_state (W : World) (result : WeatherState) : AgentResult := {|
  a_city := city result;
  a_weather_data := weather_data result;
  a_disaster_type := disaster_type result;
  a_severity := severity result;
  a_response := response result;
  a_messages := message_str W <$> messages result;
  a_alerts := alerts result
|}.

(** The dictionary of the [except] branch. *)
Definition error_result (c : string) (e : exn) : AgentResult := {|
  a_city := c;
  a_weather_data :=
    <["weather" := PStr "Error"]>
    (<["temperature" := NA]>
    (<["wind_speed" := NA]>
    (<["humidity" := NA]>
    (<["pressure" := NA]> ∅))));
  a_disaster_type := "Analysis Error";
  a_severity := "Unknown";
  a_response := "Error occurred during analysis: " +:+ str_exn e;
  a_messages := [];
  a_alerts := []
|}.

Definition _placeholder_agent (c : string) : AgentResult := {|
  a_city := c;
  a_weather_data :=
    <["weather" := PStr "Clear sky"]>
    (<["temperature" := PNum "22.5"]>
    (<["wind_speed" := PNum "5.2"]>
    (<["humidity" := PNum "65"]>
    (<["pressure" := PNum "1013"]>
    (<["cloud_cover" := PNum "10"]> ∅)))));
  a_disaster_type := "No Immediate Threat";
  a_severity := "Low";
  a_response :=
    "Current weather conditions in " +:+ c +:+
    " are stable. No immediate emergency response required. Continue monitoring weather patterns.";
  a_messages := ["Placeholder agent executed"];
  a_alerts := []
|}.

(** [run_agent]; [agents_imported] says whether the import of
    [Agents] succeeded.  When the run returned [None], reading the
    result raises, and the [except] branch answers.  The outer [None]
    is a run that never returns. *)
Definition run_agent (agents_imported : bool) (W : World)
    (inputs : Agents.Console) (c : string) : option AgentResult :=
  if agents_imported then
    match Agents.run_weather_emergency_system W inputs c with
    | Some (Some result) => Some (of_state W result)
    | Some None =>
        Some (error_result c
                (OtherException "'NoneType' object has no attribute 'get'"))
    | None => None
    end
  else Some (_placeholder_agent c).

End Agent.

(** ** The analysis endpoint of [main.py] *)

Module Api.

Record AnalyzeResponse := {
  ar_city : string;
  ar_weather_data : gmap string pyval;
  ar_disaster_type : string;
  ar_severity : string;
  ar_response : string;
  ar_success : bool;
  ar_message : option string;
  ar_needs_approval : option bool;
  ar_verification_id : option string
}.

(** The answer of the [except] branch of [analyze_weather]. *)
Definition failed (request_city : string) (e : exn) : AnalyzeResponse := {|
  ar_city := request_city;
  ar_weather_data := ∅;
  ar_disaster_type := "Error";
  ar_severity := "Unknown";
  ar_response := "";
  ar_success := false;
  ar_message := Some ("Error analyzing weather: " +:+ str_exn e);
  ar_needs_approval := Some false;
  ar_verification_id := None
|}.

Definition analysis_message (c : string) (needs_approval : bool) : string :=
  if needs_approval
  then "Human approval required for " +:+ c +:+ " - Low/Medium severity detected"
  else "Weather analysis completed for " +:+ c.

(** [analyze_weather].  The check of the city is inside the [try], and
    the exception it raises (rendered as the framework renders it,
    status and detail) is caught by the [except] below it like any
    other.  The outer [None] is a call that never returns. *)
Definition analyze_weather (web_agent_available agents_imported : bool)
    (W : World) (pending : AgentWeb.Store) (inputs : Agents.Console)
    (request_city : string) : option (AnalyzeResponse * AgentWeb.Store) :=
  if bool_decide (request_city = "") || bool_decide (PyStr.strip request_city = "")
  then
    Some (failed request_city (OtherException "400: City name cannot be empty"),
          pending)
  else
    let c := PyStr.strip request_city in
    if web_agent_available then
      match AgentWeb.run_agent_web W pending c with
      | None => None
      | Some (result, pending') =>
          Some ({| ar_city := c;
                   ar_weather_data := AgentWeb.r_weather_data result;
                   ar_disaster_type := AgentWeb.r_disaster_type result;
                   ar_severity := AgentWeb.r_severity result;
                   ar_response := AgentWeb.r_response result;
                   ar_success := true;
                   ar_message :=
                     Some (analysis_message c (AgentWeb.r_needs_approval result));
                   ar_needs_approval := Some (AgentWeb.r_needs_approval result);
                   ar_verification_id := AgentWeb.r_verification_id result |},
                pending')
      end
    else
      match Agent.run_agent agents_imported W inputs c with
      | None => None
      | Some result =>
          Some ({| ar_city := c;
                   ar_weather_data := Agent.a_weather_data result;
                   ar_disaster_type := Agent.a_disaster_type result;
                   ar_severity := Agent.a_severity result;
                   ar_response := Agent.a_response result;
                   ar_success := true;
                   ar_message := Some (analysis_message c false);
                   ar_needs_approval := Some false;
                   ar_verification_id := None |},
                pending)
      end.

End Api.

(** * Vocabulary of the statements *)

(** ** Stages in sequence, and what a run can end in *)

(** The state after the three classification stages, and after the
    audit log. *)
Definition classified (W : World) (st : WeatherState) : WeatherState :=
  assess_severity W (analyze_disaster_type W (get_weather_data W st)).

Definition logged (W : World) (st : WeatherState) : WeatherState :=
  data_logging W (classified W st).

Definition opening : list Node :=
  [n_get_weather; n_analyze_disaster; n_assess_severity; n_data_logging].

Definition severe_path : list Node :=
  opening ++ [n_emergency_response; n_send_email_alert].

(** The end of a run that reaches the notify node. *)
Definition notify {Env} (W : World) (env : Env) (st : WeatherState)
    (visited : list Node) : run_outcome Env :=
  match send_email_alert W st with
  | Ok st' => Finished st' env (visited ++ [n_send_email_alert])
  | Raise e => Crashed e env (visited ++ [n_send_email_alert])
  end.

(** The plan generator behind each department node. *)
Definition department (n : Node) : World → WeatherState → WeatherState :=
  match n with
  | n_emergency_response => emergency_response
  | n_public_works_response => public_works_response
  | _ => civil_defense_response
  end.

Definition final_state {Env} (o : run_outcome Env) : option WeatherState :=
  match o with Finished st _ _ => Some st | _ => None end.

(** The six keys of the reading that the report reads. *)
Definition report_keys : list string :=
  ["weather"; "temperature"; "wind_speed"; "humidity"; "pressure"; "cloud_cover"].

Definition reading_complete (wd : gmap string pyval) : Prop :=
  ∀ k, k ∈ report_keys → is_Some (wd !! k).

Definition pending_complete (pending : AgentWeb.Store) : Prop :=
  ∀ tok snapshot, pending !! tok = Some snapshot →
                  reading_complete (weather_data snapshot).

Definition auto_approved (st : WeatherState) : WeatherState :=
  log_message
    ("Auto-approved " +:+ PyStr.lower (PyStr.strip (severity st)) +:+ " severity alert")
    (set_human_approved (Some true) st).

(** The state the web verification stage returns when it asks for
    approval. *)
Definition parked_state (tok : string) (snapshot : WeatherState) : WeatherState :=
  log_message "Human verification required for low/medium severity alert"
    (set_needs_approval (Some true)
       (set_verification_id (Some tok)
          (set_human_approved None snapshot))).

(** The state a resumption hands to the closing stage. *)
Definition resumed (approved : bool) (snapshot : WeatherState) : WeatherState :=
  set_needs_approval (Some false) (set_human_approved (Some approved) snapshot).

Definition alert_record (W : World) : string := "Email alert sent: " +:+ now_str W.

(** The dispatch of the notify stage: the SMTP session on the report. *)
Definition dispatch (W : World) (st : WeatherState) (body : string) : result () :=
  smtp_send W (getenv W "SENDER_EMAIL") (getenv W "RECEIVER_EMAIL")
    (getenv W "EMAIL_PASSWORD") (email_subject st) body.

(** What the notify stage returns, given the outcome of the dispatch. *)
Definition notified (W : World) (sent : result ()) (st : WeatherState) : WeatherState :=
  match sent with
  | Ok _ =>
      set_alerts (alerts st ++ [alert_record W])
        (log_message ("Successfully sent weather alert email for " +:+ city st) st)
  | Raise e => log_message ("Failed to send email alert: " +:+ str_exn e) st
  end.

Definition not_found_error (tok : string) : exn :=
  ValueError ("Verification ID " +:+ tok +:+ " not found").

Definition not_found_response (tok : string) : Main.ApprovalResponse := {|
  Main.status_code := 404;
  Main.success := false;
  Main.message := "Verification ID not found: " +:+ str_exn (not_found_error tok);
  Main.email_sent := None;
  Main.resp_city := None
|}.

(** ** Failing stages *)

(** [fails_in W st n e]: run on [st], the external work of stage [n]
    (provider, model, audit file, mail transport) fails with [e]. *)
Inductive fails_in (W : World) (st : WeatherState) : Node → exn → Prop :=
| fetch_fails e :
    fetch_weather W st = Raise e → fails_in W st n_get_weather e
| classification_fails e :
    llm_invoke W DisasterPrompt (weather_data st) = Raise e →
    fails_in W st n_analyze_disaster e
| assessment_fails e :
    llm_invoke W SeverityPrompt
      (<["disaster_type" := PStr (disaster_type st)]> (weather_data st)) = Raise e →
    fails_in W st n_assess_severity e
| logging_fails e :
    log_write W (log_data W st) = Raise e → fails_in W st n_data_logging e
| emergency_plan_fails e :
    llm_invoke W EmergencyPrompt (plan_variables st) = Raise e →
    fails_in W st n_emergency_response e
| civil_defense_plan_fails e :
    llm_invoke W CivilDefensePrompt (plan_variables st) = Raise e →
    fails_in W st n_civil_defense_response e
| public_works_plan_fails e :
    llm_invoke W PublicWorksPrompt (plan_variables st) = Raise e →
    fails_in W st n_public_works_response e
| dispatch_fails e body :
    format_weather_email W st = Ok body →
    dispatch W st body = Raise e →
    fails_in W st n_send_email_alert e.

(** The trace entry a failing stage appends. *)
Definition failure_entry (n : Node) (st : WeatherState) (e : exn) : string :=
  match n with
  | n_get_weather =>
      "Failed to fetch weather data for " +:+ city st +:+ ": " +:+ str_exn e
  | n_analyze_disaster => "Failed to analyze disaster type: " +:+ str_exn e
  | n_assess_severity => "Failed to assess severity: " +:+ str_exn e
  | n_data_logging => "Failed to log data: " +:+ str_exn e
  | n_emergency_response => "Failed to generate emergency response: " +:+ str_exn e
  | n_civil_defense_response =>
      "Failed to generate civil defense response: " +:+ str_exn e
  | n_public_works_response =>
      "Failed to generate public works response: " +:+ str_exn e
  | _ => "Failed to send email alert: " +:+ str_exn e
  end.

(** [absorbed n e st st']: [st'] is [st] with the sentinel of stage [n]
    in the field the stage writes (the all-"N/A" reading, "Analysis
    Failed", "Assessment Failed", the plan placeholder; none for the
    audit log and the mail dispatch), the failure entry for [e] appended
    to the trace, and every other field as it was. *)
Definition absorbed (n : Node) (e : exn) (st st' : WeatherState) : Prop :=
  city st' = city st ∧
  weather_data st' =
    match n with n_get_weather => error_data | _ => weather_data st end ∧
  disaster_type st' =
    match n with n_analyze_disaster => "Analysis Failed" | _ => disaster_type st end ∧
  severity st' =
    match n with n_assess_severity => "Assessment Failed" | _ => severity st end ∧
  response st' =
    match n with
    | n_emergency_response | n_civil_defense_response | n_public_works_response =>
        "Failed to generate response plan"
    | _ => response st
    end ∧
  messages st' = messages st ++ [SystemMessage (failure_entry n st e)] ∧
  alerts st' = alerts st ∧
  human_approved st' = human_approved st ∧
  needs_approval st' = needs_approval st ∧
  verification_id st' = verification_id st.

(** [st'] has the fields of [st], the trace and the alerts apart. *)
Definition same_but_trace_and_alerts (st st' : WeatherState) : Prop :=
  city st' = city st ∧
  weather_data st' = weather_data st ∧
  disaster_type st' = disaster_type st ∧
  severity st' = severity st ∧
  response st' = response st ∧
  human_approved st' = human_approved st ∧
  needs_approval st' = needs_approval st ∧
  verification_id st' = verification_id st.

(** ** Worlds that answer alike *)

Definition restamp (ts : string) (d : LogData) : LogData := {|
  log_timestamp := ts;
  log_city := log_city d;
  log_weather_data := log_weather_data d;
  log_disaster_type := log_disaster_type d;
  log_severity := log_severity d;
  log_response := log_response d
|}.

(** Two worlds that answer alike, the clock apart: the same environment,
    provider and model answers, and audit-file and mail outcomes that do
    not depend on the time written into the record or the report. *)
Record same_answers (W1 W2 : World) : Prop := {
  same_getenv : ∀ k, getenv W1 k = getenv W2 k;
  same_fetch : ∀ url, requests_get_json W1 url = requests_get_json W2 url;
  same_celsius : ∀ t, kelvin_to_celsius W1 t = kelvin_to_celsius W2 t;
  same_llm : ∀ p vars, llm_invoke W1 p vars = llm_invoke W2 p vars;
  same_log : ∀ d ts1 ts2, log_write W1 (restamp ts1 d) = log_write W2 (restamp ts2 d);
  same_smtp : ∀ s r p subject body1 body2,
    smtp_send W1 s r p subject body1 = smtp_send W2 s r p subject body2
}.

(** Two final states, of a run in [W1] and a run in [W2], that agree on
    everything but the time inside the alert record, if any. *)
Definition agree_but_alert_time (W1 W2 : World) (st1 st2 : WeatherState) : Prop :=
  set_alerts [] st1 = set_alerts [] st2 ∧
  (alerts st1 = [] ∧ alerts st2 = [] ∨
   alerts st1 = [alert_record W1] ∧ alerts st2 = [alert_record W2]).

(** ** Worlds and states for concrete runs *)

Definition probe (sev disaster : string) : WeatherState :=
  mkState "London" ∅ disaster sev "" [] [] (Some false) None None.

(** A world that gives the same answer to every call of a kind. *)
Definition scripted (fetch : result ProviderData)
    (disaster sev plan : result string) (logged_ok sent : result ())
    (clock : string) (ms : Z) : World := {|
  getenv _ := None;
  requests_get_json _ := fetch;
  kelvin_to_celsius t := t;
  llm_invoke p _ :=
    match p with
    | DisasterPrompt => disaster
    | SeverityPrompt => sev
    | _ => plan
    end;
  log_write _ := logged_ok;
  smtp_send _ _ _ _ _ := sent;
  now_strftime := clock;
  now_str := clock;
  time_ms := ms;
  message_str := content
|}.

Definition clear_sky : ProviderData := {|
  pd_weather := Some [ {["description" := PStr "clear sky"]} ];
  pd_wind := Some {["speed" := PNum "4.1"]};
  pd_clouds := Some {["all" := PNum "0"]};
  pd_main := Some (<["temp" := PNum "293.15"]>
                  (<["humidity" := PNum "40"]>
                  {["pressure" := PNum "1013"]}))
|}.

(** Every collaborator answers; the model grades the event [sev]. *)
Definition calm_world (disaster sev : string) (clock : string) (ms : Z) : World :=
  scripted (Ok clear_sky) (Ok disaster) (Ok sev) (Ok "Stay indoors.")
    (Ok ()) (Ok ()) clock ms.

(** Every collaborator fails. *)
Definition dead_world : World :=
  scripted (Raise (OtherException "connection refused"))
    (Raise (OtherException "model unavailable"))
    (Raise (OtherException "model unavailable"))
    (Raise (OtherException "model unavailable"))
    (Raise (OtherException "disk full"))
    (Raise (OtherException "smtp down"))
    "2024-01-01 00:00:00" 1704067200000.

(** The assessment fails, everything else answers. *)
Definition unassessed_world : World :=
  scripted (Ok clear_sky) (Ok "Heatwave") (Raise (OtherException "model unavailable"))
    (Ok "Stay indoors.") (Ok ()) (Ok ()) "2024-01-01 00:00:00" 0.

(** Every collaborator answers, the event is graded "Low". *)
Definition low_world : World :=
  calm_world "Flood" "Low" "2024-01-01 00:00:00" 1704067200000.

Definition london_token : string := "London_1704067200000".

(** The state that reaches the verification stage in the London run of
    the suspend/resume workflow. *)
Definition london_snapshot : WeatherState :=
  public_works_response low_world
    (logged low_world (declared (AgentWeb.initial_state "London"))).

(** The store that run leaves behind: the entry the verification
    stage wrote when it asked for approval. *)
Definition parked : AgentWeb.Store := {[ london_token := london_snapshot ]}.

(** The state that reaches the blocking verification stage in the
    London run graded "Low". *)
Definition london_awaiting : WeatherState :=
  public_works_response low_world (logged low_world (Agents.initial_state "London")).

(** Every collaborator answered during the run; the mail server is
    down when the operator approves. *)
Definition smtp_down_world : World :=
  scripted (Ok clear_sky) (Ok "Flood") (Ok "Low") (Ok "Stay indoors.")
    (Ok ()) (Raise (OtherException "smtp down"))
    "2024-01-01 00:05:00" 1704067500000.

(** What [input()] raises on a line that is not valid text. *)
Definition garbled_line : exn :=
  OtherException "'utf-8' codec can't decode byte 0xff in position 0: invalid start byte".

(** The same critical event, an hour apart. *)
Definition midnight_world : World :=
  calm_world "Hurricane" "Critical" "2024-01-01 00:00:00" 1704067200000.
Definition one_o_clock_world : World :=
  calm_world "Hurricane" "Critical" "2024-01-01 01:00:00" 1704070800000.

(** The same critical event again, the mail server down. *)
Definition undelivered_world : World :=
  scripted (Ok clear_sky) (Ok "Hurricane") (Ok "Critical") (Ok "Stay indoors.")
    (Ok ()) (Raise (OtherException "smtp down"))
    "2024-01-01 00:00:00" 1704067200000.

(** ** Four properties as the specification words them *)

(** Suspension as the specification words it, for one run: the run parks, the
    state carries a token that was not pending before, and the snapshot
    stored under the token carries that token too. *)
Definition suspension_as_specified (W : World) (pending : AgentWeb.Store)
    (c : string) : Prop :=
  ∃ st pending' visited tok snapshot,
    AgentWeb.app_invoke W pending c = Finished st pending' visited ∧
    last visited = Some n_wait_for_approval ∧
    verification_id st = Some tok ∧
    pending !! tok = None ∧
    pending' !! tok = Some snapshot ∧
    verification_id snapshot = Some tok.

(** Resumption as the specification words it, for one world, store and token:
    an approved resumption ends with one more entry in [alerts] and the
    token gone; a rejected one ends with [alerts] as they were and the
    token gone. *)
Definition resume_records_as_specified (W : World) (pending : AgentWeb.Store)
    (tok : string) : Prop :=
  ∀ snapshot, pending !! tok = Some snapshot →
    (∃ final record,
       AgentWeb.continue_with_approval W pending tok true
         = (Ok final, delete tok pending) ∧
       alerts final = alerts snapshot ++ [record]) ∧
    (∃ final,
       AgentWeb.continue_with_approval W pending tok false
         = (Ok final, delete tok pending) ∧
       alerts final = alerts snapshot).

(** Failure handling as the specification words it, for a stage of the
    blocking workflow hit by failure [e]: the stage returns, and the entries it
    appended to the trace include one that reports [e]. *)
Definition failure_recorded (e : exn) (before : WeatherState)
    (o : outcome (WeatherState * Agents.Console)) : Prop :=
  ∃ after rest added entry,
    o = Returns (after, rest) ∧
    messages after = messages before ++ added ∧
    SystemMessage entry ∈ added ∧
    PyStr.is_substring (str_exn e) entry.

(** Repeatability as the specification words it, for two runs of the
    blocking workflow: whenever both finish, the final states agree on every
    field but the trace. *)
Definition rerun_as_specified (W1 W2 : World) (inputs : Agents.Console)
    (c : string) : Prop :=
  ∀ st1 st2 rest1 rest2 visited1 visited2,
    Agents.app_invoke W1 inputs c = Finished st1 rest1 visited1 →
    Agents.app_invoke W2 inputs c = Finished st2 rest2 visited2 →
    set_messages [] st1 = set_messages [] st2.

(** ** What a stage may write *)

(** The state with the fields that node [n] may write erased. *)
Definition blank (n : Node) (st : WeatherState) : WeatherState :=
  let st := set_messages [] st in
  match n with
  | n_get_weather => set_weather_data ∅ st
  | n_analyze_disaster => set_disaster_type "" st
  | n_assess_severity => set_severity "" st
  | n_emergency_response | n_civil_defense_response | n_public_works_response =>
      set_response "" st
  | n_get_human_verification =>
      set_human_approved None (set_needs_approval None (set_verification_id None st))
  | n_send_email_alert => set_alerts [] st
  | n_data_logging | n_handle_no_approval | n_wait_for_approval => st
  end.

(** The number of trace entries node [n] appends. *)
Definition entries (n : Node) : nat :=
  match n with n_wait_for_approval => 0 | _ => 1 end%nat.

(** ** Answers of the operator *)

(** What one console read decides: [y] approves, [n] rejects (case and
    surrounding blanks apart); anything else, a failed read included,
    decides nothing. *)
Definition decisive (read : result string) : option bool :=
  match read with
  | Ok line =>
      let answer := PyStr.strip (PyStr.lower line) in
      if decide (answer = "y") then Some true
      else if decide (answer = "n") then Some false
      else None
  | Raise _ => None
  end.

(** The state the blocking verification stage returns on an answer. *)
Definition verified (approved : bool) (st : WeatherState) : WeatherState :=
  log_message ("Human verification: " +:+ approval_word approved)
    (set_human_approved (Some approved) st).

(** The state the web verification stage returns when it approves by
    itself. *)
Definition auto_approved_web (st : WeatherState) : WeatherState :=
  log_message
    ("Auto-approved " +:+ PyStr.lower (PyStr.strip (severity st)) +:+ " severity alert")
    (set_needs_approval (Some false) (set_human_approved (Some true) st)).

(** ** Reports and the answers of the approval endpoint *)

(** The first key, in the order the report reads them, that the reading
    lacks. *)
Definition first_missing (wd : gmap string pyval) : option string :=
  List.find (λ k, negb (bool_decide (is_Some (wd !! k)))) report_keys.

(** The answer of the approval endpoint to an exception other than
    [ValueError]. *)
Definition server_error_response (e : exn) : Main.ApprovalResponse := {|
  Main.status_code := 500;
  Main.success := false;
  Main.message := "Error processing approval: " +:+ str_exn e;
  Main.email_sent := None;
  Main.resp_city := None
|}.

(** ** The keys of a reading *)

(** The seven keys of a reading. *)
Definition reading_keys : gset string :=
  {[ "weather"; "wind_speed"; "cloud_cover"; "sea_level"; "temperature";
     "humidity"; "pressure" ]}.

(** The provider's answer with none of the four keys the stage reads. *)
Definition empty_answer : ProviderData :=
  {| pd_weather := None; pd_wind := None; pd_clouds := None; pd_main := None |}.

(** ** Tokens *)

(** No underscore among the characters of [s]. *)
Fixpoint underscore_free (s : string) : Prop :=
  match s with
  | "" => True
  | String ch rest => ch ≠ "_"%char ∧ underscore_free rest
  end.

(** ** Further worlds and stores for concrete runs *)

(** The provider accepts the request and answers an empty object. *)
Definition empty_answer_world : World :=
  scripted (Ok empty_answer) (Ok "No Immediate Threat") (Ok "Low")
    (Ok "Stay indoors.") (Ok ()) (Ok ()) "2024-01-01 00:00:00" 0.

(** [low_world], its messages rendered with their field name. *)
Definition rendering_world : World := {|
  getenv := getenv low_world;
  requests_get_json := requests_get_json low_world;
  kelvin_to_celsius := kelvin_to_celsius low_world;
  llm_invoke := llm_invoke low_world;
  log_write := log_write low_world;
  smtp_send := smtp_send low_world;
  now_strftime := now_strftime low_world;
  now_str := now_str low_world;
  time_ms := time_ms low_world;
  message_str m := "content='" +:+ content m +:+ "'"
|}.

(** [low_world], five minutes later. *)
Definition later_low_world : World :=
  calm_world "Flood" "Low" "2024-01-01 00:05:00" 1704067500000.

(** A store whose one snapshot has an empty reading. *)
Definition unread_store : AgentWeb.Store := {[ "Paris_1" := probe "Low" "Flood" ]}.

(** * Properties *)

(** ** Strings *)

Lemma starts_with_spec p s :
  PyStr.starts_with p s = true ↔ ∃ post, s = p +:+ post.
Proof.
  revert s. induction p as [|a p IH]; intros s; simpl.
  - split; [intros _; by exists s | done].
  - destruct s as [|b s].
    + split; [done | intros [post Hpost]; discriminate].
    + destruct (decide (a = b)) as [->|Hne].
      * rewrite IH. split; intros [post Hpost]; exists post.
        -- by rewrite Hpost.
        -- by injection Hpost.
      * split; [done | intros [post Hpost]; injection Hpost; congruence].
Qed.

Lemma contains_spec sub s :
  PyStr.contains sub s = true ↔ PyStr.is_substring sub s.
Proof.
  unfold PyStr.is_substring.
  induction s as [|c s IH]; simpl.
  - rewrite orb_false_r, starts_with_spec. split.
    + intros [post Hpost]. by exists "", post.
    + intros ([|a pre] & post & Hpre); [by exists post | discriminate].
  - rewrite orb_true_iff, starts_with_spec, IH. split.
    + intros [[post Hpost] | (pre & post & Hs)].
      * by exists "", post.
      * exists (String c pre), post. simpl. by rewrite Hs.
    + intros ([|a pre] & post & Hs).
      * left. by exists post.
      * right. exists pre, post. simpl in Hs. by injection Hs.
Qed.

Lemma mem_true s l : PyStr.mem s l = true ↔ s ∈ l.
Proof. unfold PyStr.mem. by rewrite bool_decide_eq_true. Qed.

Lemma mem_pair s a b : PyStr.mem s [a; b] = true ↔ s = a ∨ s = b.
Proof.
  rewrite mem_true, !elem_of_cons, elem_of_nil. tauto.
Qed.

Lemma mem_pair_false s a b : PyStr.mem s [a; b] = false ↔ s ≠ a ∧ s ≠ b.
Proof.
  rewrite <- not_true_iff_false, mem_pair. tauto.
Qed.

(** ** The department router *)

(** C1. Whatever the state: a stripped, lowercased severity of
    "critical" or "high" routes to the life-safety node, whatever the
    disaster type; failing that, a stripped, lowercased disaster type
    containing "flood" or "storm" routes to the infrastructure node; in
    every other case the router answers the civil-defense node. *)
Theorem route_response_spec (st : WeatherState) :
  let sev := PyStr.lower (PyStr.strip (severity st)) in
  let disaster := PyStr.lower (PyStr.strip (disaster_type st)) in
  (sev = "critical" ∨ sev = "high" →
     route_response st = n_emergency_response) ∧
  (sev ≠ "critical" → sev ≠ "high" →
     PyStr.is_substring "flood" disaster ∨ PyStr.is_substring "storm" disaster →
     route_response st = n_public_works_response) ∧
  (sev ≠ "critical" → sev ≠ "high" →
     ¬ PyStr.is_substring "flood" disaster →
     ¬ PyStr.is_substring "storm" disaster →
     route_response st = n_civil_defense_response).
Proof.
  intros sev disaster. unfold route_response. fold sev disaster.
  split; [|split].
  - intros Hsev. apply mem_pair in Hsev. by rewrite Hsev.
  - intros H1 H2 Hdis.
    assert (PyStr.mem sev ["critical"; "high"] = false) as ->
      by (apply mem_pair_false; done).
    assert (PyStr.contains "flood" disaster || PyStr.contains "storm" disaster = true)
      as -> ; [|done].
    apply orb_true_iff. by rewrite !contains_spec.
  - intros H1 H2 Hflood Hstorm.
    assert (PyStr.mem sev ["critical"; "high"] = false) as ->
      by (apply mem_pair_false; done).
    assert (PyStr.contains "flood" disaster || PyStr.contains "storm" disaster = false)
      as -> ; [|done].
    apply orb_false_iff.
    by rewrite <- !not_true_iff_false, !contains_spec.
Qed.

Lemma route_response_spec_witness :
  route_response (probe " Critical " "Flood") = n_emergency_response ∧
  route_response (probe "Low" "Flood") = n_public_works_response ∧
  route_response (probe "low" "Severe Storm") = n_public_works_response ∧
  route_response (probe "" "Analysis Failed") = n_civil_defense_response.
Proof.
  split; [|split; [|split]].
  - apply (route_response_spec (probe " Critical " "Flood")).
    left. vm_compute. reflexivity.
  - apply (route_response_spec (probe "Low" "Flood")).
    + vm_compute. discriminate.
    + vm_compute. discriminate.
    + left. exists "", "". vm_compute. reflexivity.
  - apply (route_response_spec (probe "low" "Severe Storm")).
    + vm_compute. discriminate.
    + vm_compute. discriminate.
    + right. exists "severe ", "". vm_compute. reflexivity.
  - apply (route_response_spec (probe "" "Analysis Failed")).
    + vm_compute. discriminate.
    + vm_compute. discriminate.
    + rewrite <- contains_spec. vm_compute. discriminate.
    + rewrite <- contains_spec. vm_compute. discriminate.
Defined.

(** ** What the stages leave alone *)

Lemma reading_complete_intro (wd : gmap string pyval) :
  is_Some (wd !! "weather") → is_Some (wd !! "temperature") →
  is_Some (wd !! "wind_speed") → is_Some (wd !! "humidity") →
  is_Some (wd !! "pressure") → is_Some (wd !! "cloud_cover") →
  reading_complete wd.
Proof.
  intros ?????? k Hk. unfold report_keys in Hk.
  rewrite !elem_of_cons, elem_of_nil in Hk.
  destruct Hk as [->|[->|[->|[->|[->|[->|[]]]]]]]; assumption.
Qed.

Lemma error_data_complete : reading_complete error_data.
Proof. apply reading_complete_intro; by eexists. Qed.

Lemma build_weather_data_complete W data wd :
  build_weather_data W data = Ok wd → reading_complete wd.
Proof.
  unfold build_weather_data, mbind, result_bind.
  destruct (default [∅] (pd_weather data)) as [|first ?]; [done|].
  destruct (get_default (default ∅ (pd_main data)) "temp" (PNum "273.15"));
    [done|].
  intros [= <-]. apply reading_complete_intro; by eexists.
Qed.

Lemma get_weather_data_complete W st :
  reading_complete (weather_data (get_weather_data W st)).
Proof.
  unfold get_weather_data, fetch_weather, mbind, result_bind.
  destruct (requests_get_json W (request_url W st)) as [data|e]; simpl.
  - destruct (build_weather_data W data) as [wd|e] eqn:Hwd; simpl.
    + by eapply build_weather_data_complete.
    + apply error_data_complete.
  - apply error_data_complete.
Qed.

Lemma format_weather_email_total W st :
  reading_complete (weather_data st) → ∃ body, format_weather_email W st = Ok body.
Proof.
  intros Hwd. unfold format_weather_email, getitem, mbind, result_bind.
  destruct (Hwd "weather") as [? ->]; [set_solver|].
  destruct (Hwd "temperature") as [? ->]; [set_solver|].
  destruct (Hwd "wind_speed") as [? ->]; [set_solver|].
  destruct (Hwd "humidity") as [? ->]; [set_solver|].
  destruct (Hwd "pressure") as [? ->]; [set_solver|].
  destruct (Hwd "cloud_cover") as [? ->]; [set_solver|].
  by eexists.
Qed.

Lemma send_email_alert_total W st :
  reading_complete (weather_data st) → ∃ st', send_email_alert W st = Ok st'.
Proof.
  intros [body Hbody]%(format_weather_email_total W).
  unfold send_email_alert, mbind, result_bind. rewrite Hbody.
  destruct (smtp_send _ _ _ _ _ _); by eexists.
Qed.

(** Unfold the stages and split on every external answer. *)
Ltac stage_cases :=
  unfold logged, classified, department, data_logging, assess_severity,
    analyze_disaster_type, get_weather_data, emergency_response,
    civil_defense_response, public_works_response, handle_no_approval,
    AgentWeb.wait_for_approval;
  repeat case_match; simpl; try reflexivity.

Lemma classified_complete W st : reading_complete (weather_data (classified W st)).
Proof.
  pose proof (get_weather_data_complete W st) as H.
  unfold classified, assess_severity, analyze_disaster_type.
  repeat case_match; exact H.
Qed.

Lemma logged_complete W st : reading_complete (weather_data (logged W st)).
Proof.
  pose proof (classified_complete W st) as H.
  unfold logged, data_logging. repeat case_match; exact H.
Qed.

Lemma department_complete n W st :
  reading_complete (weather_data st) →
  reading_complete (weather_data (department n W st)).
Proof. intros H. stage_cases; exact H. Qed.

Lemma logged_severity W st : severity (logged W st) = severity (classified W st).
Proof. unfold logged, data_logging. by repeat case_match. Qed.

Lemma logged_disaster_type W st :
  disaster_type (logged W st) = disaster_type (classified W st).
Proof. unfold logged, data_logging. by repeat case_match. Qed.

Lemma logged_untouched W st :
  city (logged W st) = city st ∧
  alerts (logged W st) = alerts st ∧
  human_approved (logged W st) = human_approved st ∧
  needs_approval (logged W st) = needs_approval st ∧
  verification_id (logged W st) = verification_id st.
Proof. stage_cases; done. Qed.

Lemma department_untouched n W st :
  city (department n W st) = city st ∧
  weather_data (department n W st) = weather_data st ∧
  disaster_type (department n W st) = disaster_type st ∧
  severity (department n W st) = severity st ∧
  alerts (department n W st) = alerts st ∧
  human_approved (department n W st) = human_approved st ∧
  needs_approval (department n W st) = needs_approval st ∧
  verification_id (department n W st) = verification_id st.
Proof. stage_cases; done. Qed.

(** The notify stage writes [messages] and [alerts] only. *)
Lemma send_email_alert_untouched W st st' :
  send_email_alert W st = Ok st' →
  set_alerts [] (set_messages [] st') = set_alerts [] (set_messages [] st).
Proof.
  unfold send_email_alert, mbind, result_bind.
  destruct (format_weather_email W st); [|done].
  destruct (smtp_send _ _ _ _ _ _); by intros [= <-].
Qed.

Lemma send_email_alert_human_approved W st st' :
  send_email_alert W st = Ok st' → human_approved st' = human_approved st.
Proof.
  intros H%send_email_alert_untouched.
  by apply (f_equal human_approved) in H.
Qed.

Lemma route_emergency_iff st :
  route_response st = n_emergency_response ↔
  PyStr.lower (PyStr.strip (severity st)) = "critical" ∨
  PyStr.lower (PyStr.strip (severity st)) = "high".
Proof.
  rewrite <- mem_pair. unfold route_response.
  destruct (PyStr.mem _ ["critical"; "high"]); [done|].
  destruct (_ || _); split; done.
Qed.

(** ** What the executor carries *)

Lemma declared_fixed st :
  declared st = st ↔ needs_approval st = None ∧ verification_id st = None.
Proof.
  destruct st as [c wd dt sv rs ms al ha na vid]. simpl. split.
  - by intros [= -> ->].
  - by intros [-> ->].
Qed.

Lemma declared_idem st : declared (declared st) = declared st.
Proof. reflexivity. Qed.

(** The stages of [Agents.py] read declared keys only and pass the
    others on: it is all one whether the undeclared keys are dropped
    before or after the stage. *)
Ltac commute_declared :=
  intros;
  match goal with st : WeatherState |- _ =>
    destruct st as [c wd dt sv rs ms al ha na vid]
  end;
  unfold get_weather_data, fetch_weather, request_url, analyze_disaster_type,
    assess_severity, data_logging, log_data, emergency_response,
    civil_defense_response, public_works_response, plan_variables,
    handle_no_approval, send_email_alert, format_weather_email, email_subject,
    get_human_verification, mbind, result_bind;
  cbn [declared set_needs_approval set_verification_id set_weather_data
       set_disaster_type set_severity set_response set_messages set_alerts
       set_human_approved log_message city weather_data disaster_type severity
       response messages alerts human_approved needs_approval verification_id];
  repeat case_match; simplify_eq; reflexivity.

Lemma declared_get_weather_data W st :
  declared (get_weather_data W st) = get_weather_data W (declared st).
Proof. commute_declared. Qed.

Lemma declared_analyze_disaster_type W st :
  declared (analyze_disaster_type W st) = analyze_disaster_type W (declared st).
Proof. commute_declared. Qed.

Lemma declared_assess_severity W st :
  declared (assess_severity W st) = assess_severity W (declared st).
Proof. commute_declared. Qed.

Lemma declared_data_logging W st :
  declared (data_logging W st) = data_logging W (declared st).
Proof. commute_declared. Qed.

Lemma declared_emergency_response W st :
  declared (emergency_response W st) = emergency_response W (declared st).
Proof. commute_declared. Qed.

Lemma declared_civil_defense_response W st :
  declared (civil_defense_response W st) = civil_defense_response W (declared st).
Proof. commute_declared. Qed.

Lemma declared_public_works_response W st :
  declared (public_works_response W st) = public_works_response W (declared st).
Proof. commute_declared. Qed.

Lemma declared_handle_no_approval st :
  declared (handle_no_approval st) = handle_no_approval (declared st).
Proof. commute_declared. Qed.

Lemma declared_send_email_alert W st :
  send_email_alert W (declared st) =
    match send_email_alert W st with
    | Ok st' => Ok (declared st')
    | Raise e => Raise e
    end.
Proof. commute_declared. Qed.

Lemma declared_get_human_verification W (inputs : list (result string)) st :
  get_human_verification W inputs (declared st) =
    match get_human_verification W inputs st with
    | Returns (st', rest) => Returns (declared st', rest)
    | Raises e => Raises e
    | Hangs => Hangs
    end.
Proof. commute_declared. Qed.

Lemma declared_classified W st :
  declared (classified W st) = classified W (declared st).
Proof.
  unfold classified.
  by rewrite declared_assess_severity, declared_analyze_disaster_type,
    declared_get_weather_data.
Qed.

Lemma declared_logged W st : declared (logged W st) = logged W (declared st).
Proof. unfold logged. by rewrite declared_data_logging, declared_classified. Qed.

Lemma declared_department n W st :
  declared (department n W st) = department n W (declared st).
Proof.
  destruct n; simpl;
    first [apply declared_emergency_response | apply declared_public_works_response
          | apply declared_civil_defense_response].
Qed.

(** Move every [declared] to the state the stages started from. *)
Ltac push_declared :=
  repeat (progress
    rewrite ?declared_idem, ?declared_get_weather_data,
      ?declared_analyze_disaster_type, ?declared_assess_severity,
      ?declared_data_logging, ?declared_emergency_response,
      ?declared_civil_defense_response, ?declared_public_works_response,
      ?declared_handle_no_approval).

(** A state without the undeclared keys stays so through the stages of
    [Agents.py]. *)
Lemma send_email_alert_declared W st st' :
  send_email_alert W st = Ok st' → declared st = st → declared st' = st'.
Proof.
  intros Hsend Hst. pose proof (declared_send_email_alert W st) as H.
  rewrite Hst, Hsend in H. by injection H.
Qed.

Lemma get_human_verification_declared W (inputs rest : list (result string)) st st' :
  get_human_verification W inputs st = Returns (st', rest) →
  declared st = st → declared st' = st'.
Proof.
  intros Hstage Hst. pose proof (declared_get_human_verification W inputs st) as H.
  rewrite Hst, Hstage in H. by injection H.
Qed.

Lemma logged_declared W st : declared st = st → declared (logged W st) = logged W st.
Proof. intros Hst. by rewrite declared_logged, Hst. Qed.

Lemma department_declared n W st :
  declared st = st → declared (department n W st) = department n W st.
Proof. intros Hst. by rewrite declared_department, Hst. Qed.

(** The routers read declared keys, but for the router of the web
    workflow, which reads [needs_approval]: on a state the executor
    carries it never answers the park node. *)
Lemma route_response_declared st : route_response (declared st) = route_response st.
Proof. reflexivity. Qed.

Lemma verify_approval_router_web_declared st :
  AgentWeb.verify_approval_router_web (declared st) =
    verify_approval_router (declared st).
Proof. reflexivity. Qed.

(** Walks of any graph. *)
Section Walk.

Context {Env : Type} (g : Graph Env) (W : World).

(** The state a walk ends with holds declared keys only. *)
Lemma walk_carries steps n env st visited st' env' visited' :
  walk g W steps n env st visited = Finished st' env' visited' → declared st' = st'.
Proof.
  revert n env st visited.
  induction steps as [|steps IH]; intros n env st visited; simpl; [done|].
  destruct (node_fn g n) as [f|]; [|done].
  destruct (f W env st) as [[st1 env1]| |]; [|done..].
  destruct (next_node (edge g n) (declared st1)) as [m|].
  - apply IH.
  - by intros [= <- <- <-].
Qed.

Lemma walk_preserves {A} (p : WeatherState → A) :
  (∀ st, p (declared st) = p st) →
  (∀ n f env st st' env',
     node_fn g n = Some f → f W env st = Returns (st', env') → p st' = p st) →
  ∀ steps n env st visited st' env' visited',
    walk g W steps n env st visited = Finished st' env' visited' → p st' = p st.
Proof.
  intros Hd Hp. induction steps as [|steps IH];
    intros n env st visited st' env' visited'; simpl; [done|].
  destruct (node_fn g n) as [f|] eqn:Hf; [|done].
  destruct (f W env st) as [[st1 env1]| |] eqn:Hrun; [|done..].
  pose proof (Hp _ _ _ _ _ _ Hf Hrun) as Hstep.
  destruct (next_node (edge g n) (declared st1)) as [m|].
  - intros Hrest%IH. rewrite Hrest, Hd. exact Hstep.
  - intros [= <- <- <-]. rewrite Hd. exact Hstep.
Qed.

Lemma walk_counts (weight : Node → nat) :
  (∀ n f env st st' env',
     node_fn g n = Some f → f W env st = Returns (st', env') →
     length (messages st') = (length (messages st) + weight n)%nat) →
  ∀ steps n env st visited st' env' visited',
    walk g W steps n env st visited = Finished st' env' visited' →
    ∃ more, visited' = visited ++ more ∧
            length (messages st') = (length (messages st) + sum_list (weight <$> more))%nat.
Proof.
  intros Hw. induction steps as [|steps IH]; intros n env st visited st' env' visited';
    simpl; [done|].
  destruct (node_fn g n) as [f|] eqn:Hf; [|done].
  destruct (f W env st) as [[st1 env1]| |] eqn:Hrun; [|done..].
  pose proof (Hw _ _ _ _ _ _ Hf Hrun) as Hstep.
  destruct (next_node (edge g n) (declared st1)) as [m|].
  - intros (more & -> & Hlen)%IH. exists (n :: more).
    split; [by rewrite <- app_assoc|]. rewrite fmap_cons. simpl sum_list.
    change (messages (declared st1)) with (messages st1) in Hlen.
    rewrite Hlen, Hstep. lia.
  - intros [= <- <- <-]. exists [n]. split; [done|].
    change (messages (declared st1)) with (messages st1).
    rewrite Hstep. simpl. lia.
Qed.

(** A property that the node [first] establishes and every node keeps
    holds at the end of a walk that starts at [first]. *)
Lemma walk_establishes (P : WeatherState → Prop) (first : Node) :
  (∀ st, P st → P (declared st)) →
  (∀ n f env st st' env',
     node_fn g n = Some f → f W env st = Returns (st', env') →
     n = first ∨ P st → P st') →
  ∀ steps n env st visited st' env' visited',
    n = first ∨ P st →
    walk g W steps n env st visited = Finished st' env' visited' → P st'.
Proof.
  intros Hd HP. induction steps as [|steps IH];
    intros n env st visited st' env' visited' Hstart; simpl; [done|].
  destruct (node_fn g n) as [f|] eqn:Hf; [|done].
  destruct (f W env st) as [[st1 env1]| |] eqn:Hrun; [|done..].
  pose proof (HP _ _ _ _ _ _ Hf Hrun Hstart) as Hstep.
  destruct (next_node (edge g n) (declared st1)) as [m|].
  - apply IH. right. by apply Hd.
  - intros [= <- <- <-]. by apply Hd.
Qed.

End Walk.

(** ** Runs of the two workflows, stage by stage *)

Lemma route_response_cases st :
  route_response st = n_emergency_response ∨
  route_response st = n_public_works_response ∨
  route_response st = n_civil_defense_response.
Proof.
  unfold route_response.
  destruct (PyStr.mem _ _); [by left|].
  destruct (_ || _); [right; by left | right; by right].
Qed.

(** The end of a walk that has reached the notify node with a state
    [x] the executor carries: [Hfixed : declared x = x]. *)
Ltac end_at_notify Hfixed :=
  unfold notify, fallible, of_result, mbind, result_bind;
  match goal with
  | |- context [send_email_alert ?W ?x] =>
      let Hsend := fresh "Hsend" in
      destruct (send_email_alert W x) eqn:Hsend; [|reflexivity];
      by rewrite (send_email_alert_declared _ _ _ Hsend Hfixed)
  end.

(** The walk of either workflow up to the department node. *)
Ltac walk_to_department :=
  unfold invoke, recursion_limit;
  do 4 (cbn [walk]; cbn [node_fn edge entry_point Agents.workflow AgentWeb.workflow
                         next_node plain app]; cbv zeta);
  push_declared.

Lemma agents_run (W : World) (inputs : Agents.Console) (c : string) :
  let s := logged W (Agents.initial_state c) in
  let dept := route_response s in
  Agents.app_invoke W inputs c =
    if decide (dept = n_emergency_response) then
      notify W inputs (emergency_response W s) (opening ++ [dept])
    else
      match get_human_verification W inputs (department dept W s) with
      | Returns (s', rest) =>
          if truthy (human_approved s') then
            notify W rest s' (opening ++ [dept; n_get_human_verification])
          else
            Finished (handle_no_approval s') rest
              (opening ++ [dept; n_get_human_verification; n_handle_no_approval])
      | Raises e =>
          Crashed e inputs (opening ++ [dept; n_get_human_verification])
      | Hangs => Stalled (opening ++ [dept; n_get_human_verification])
      end.
Proof.
  intros s dept. unfold Agents.app_invoke. walk_to_department.
  change (declared (Agents.initial_state c)) with (Agents.initial_state c).
  fold (classified W (Agents.initial_state c)).
  fold (logged W (Agents.initial_state c)). fold s.
  assert (Hs : declared s = s) by (by apply logged_declared).
  assert (Hd : ∀ n, declared (department n W s) = department n W s)
    by (intros n; by apply department_declared).
  fold dept.
  destruct (route_response_cases s) as [H | [H | H]]; fold dept in H; rewrite H;
    cbn [walk]; cbn [node_fn edge Agents.workflow next_node plain department];
    cbv zeta; simpl decide; cbv iota.
  - rewrite declared_emergency_response, Hs.
    end_at_notify (Hd n_emergency_response).
  - rewrite declared_public_works_response, Hs.
    destruct (get_human_verification W inputs (public_works_response W s))
      as [[s' rest]| |] eqn:Hstage; [|reflexivity..].
    apply get_human_verification_declared in Hstage as Hs';
      [|apply (Hd n_public_works_response)].
    rewrite Hs'. unfold verify_approval_router.
    destruct (truthy (human_approved s')); cbv beta iota; cbn [next_node plain].
    + end_at_notify Hs'.
    + by rewrite declared_handle_no_approval, Hs'.
  - rewrite declared_civil_defense_response, Hs.
    destruct (get_human_verification W inputs (civil_defense_response W s))
      as [[s' rest]| |] eqn:Hstage; [|reflexivity..].
    apply get_human_verification_declared in Hstage as Hs';
      [|apply (Hd n_civil_defense_response)].
    rewrite Hs'. unfold verify_approval_router.
    destruct (truthy (human_approved s')); cbv beta iota; cbn [next_node plain].
    + end_at_notify Hs'.
    + by rewrite declared_handle_no_approval, Hs'.
Qed.

(** The run of the web workflow.  The verification stage returns its
    state with [needs_approval] and [verification_id]; the executor
    keeps neither, and the router that follows reads [human_approved]
    alone: the park node is never the next node. *)
Lemma web_run (W : World) (pending : AgentWeb.Store) (c : string) :
  let s := logged W (declared (AgentWeb.initial_state c)) in
  let dept := route_response s in
  AgentWeb.app_invoke W pending c =
    if decide (dept = n_emergency_response) then
      notify W pending (emergency_response W s) (opening ++ [dept])
    else
      let r := AgentWeb.get_human_verification_web W pending (department dept W s) in
      let s' := declared r.1 in
      let visited := opening ++ [dept; n_get_human_verification] in
      if truthy (human_approved s') then notify W r.2 s' visited
      else Finished (handle_no_approval s') r.2 (visited ++ [n_handle_no_approval]).
Proof.
  intros s dept. unfold AgentWeb.app_invoke. walk_to_department.
  fold (classified W (declared (AgentWeb.initial_state c))).
  fold (logged W (declared (AgentWeb.initial_state c))). fold s.
  assert (Hs : declared s = s) by (by apply logged_declared).
  assert (Hd : ∀ n, declared (department n W s) = department n W s)
    by (intros n; by apply department_declared).
  fold dept.
  destruct (route_response_cases s) as [H | [H | H]]; fold dept in H; rewrite H;
    cbn [walk]; cbn [node_fn edge AgentWeb.workflow next_node plain department];
    cbv zeta; simpl decide; cbv iota.
  - rewrite declared_emergency_response, Hs.
    end_at_notify (Hd n_emergency_response).
  - rewrite declared_public_works_response, Hs.
    destruct (AgentWeb.get_human_verification_web W pending (public_works_response W s))
      as [s' pending'].
    cbn [fst snd]. rewrite verify_approval_router_web_declared.
    unfold verify_approval_router.
    destruct (truthy (human_approved (declared s'))); cbv beta iota;
      cbn [next_node plain].
    + end_at_notify (declared_idem s').
    + by rewrite declared_handle_no_approval.
  - rewrite declared_civil_defense_response, Hs.
    destruct (AgentWeb.get_human_verification_web W pending (civil_defense_response W s))
      as [s' pending'].
    cbn [fst snd]. rewrite verify_approval_router_web_declared.
    unfold verify_approval_router.
    destruct (truthy (human_approved (declared s'))); cbv beta iota;
      cbn [next_node plain].
    + end_at_notify (declared_idem s').
    + by rewrite declared_handle_no_approval.
Qed.

(** ** High and critical severity *)

(** C2, as the code runs.  When the assessed severity, stripped and
    lowercased, is "critical" or "high", either workflow visits the
    life-safety generator and then the notify node and ends there; it
    never enters the human-verification stage or the park node, and
    [human_approved] still holds the [False] of the initial state when
    the run ends: nothing on this path sets it to true. *)
Theorem severe_run_leaves_approval_unset (W : World)
    (inputs : Agents.Console) (pending : AgentWeb.Store) (c : string) :
  let sev init := PyStr.lower (PyStr.strip (severity (classified W init))) in
  (sev (Agents.initial_state c) = "critical" ∨ sev (Agents.initial_state c) = "high" →
   ∃ st, Agents.app_invoke W inputs c = Finished st inputs severe_path ∧
         human_approved st = Some false) ∧
  (sev (AgentWeb.initial_state c) = "critical" ∨ sev (AgentWeb.initial_state c) = "high" →
   ∃ st, AgentWeb.app_invoke W pending c = Finished st pending severe_path ∧
         human_approved st = Some false) ∧
  (n_send_email_alert ∈ severe_path) ∧
  (n_get_human_verification ∉ severe_path) ∧
  (n_wait_for_approval ∉ severe_path).
Proof.
  intros sev.
  split; [|split; [|repeat split; compute_done]].
  all: intros Hsev; unfold sev in Hsev;
    rewrite <- logged_severity in Hsev; apply route_emergency_iff in Hsev.
  - rewrite agents_run. cbv zeta. rewrite Hsev. simpl decide. cbv iota.
    change (emergency_response W (logged W (Agents.initial_state c)))
      with (department n_emergency_response W (logged W (Agents.initial_state c))).
    set (s := department n_emergency_response W (logged W (Agents.initial_state c))).
    destruct (send_email_alert_total W s) as [st Hst].
    { apply department_complete, logged_complete. }
    unfold notify. rewrite Hst. exists st. split; [reflexivity|].
    rewrite (send_email_alert_human_approved _ _ _ Hst). unfold s.
    pose proof (department_untouched n_emergency_response W
      (logged W (Agents.initial_state c))) as (_&_&_&_&_&->&_).
    by pose proof (logged_untouched W (Agents.initial_state c)) as (_&_&->&_).
  - rewrite <- route_response_declared, declared_logged in Hsev.
    rewrite web_run. cbv zeta. rewrite Hsev. simpl decide. cbv iota.
    set (init := declared (AgentWeb.initial_state c)).
    change (emergency_response W (logged W init))
      with (department n_emergency_response W (logged W init)).
    set (s := department n_emergency_response W (logged W init)).
    destruct (send_email_alert_total W s) as [st Hst].
    { apply department_complete, logged_complete. }
    unfold notify. rewrite Hst. exists st. split; [reflexivity|].
    rewrite (send_email_alert_human_approved _ _ _ Hst). unfold s.
    pose proof (department_untouched n_emergency_response W (logged W init))
      as (_&_&_&_&_&->&_).
    by pose proof (logged_untouched W init) as (_&_&->&_).
Qed.

Lemma severe_run_leaves_approval_unset_witness :
  (∃ st, Agents.app_invoke (calm_world "Hurricane" "Critical" "t" 0) [] "London"
           = Finished st [] severe_path ∧ human_approved st = Some false) ∧
  (∃ st, AgentWeb.app_invoke (calm_world "Hurricane" "Critical" "t" 0) ∅ "London"
           = Finished st ∅ severe_path ∧ human_approved st = Some false).
Proof.
  pose proof (severe_run_leaves_approval_unset
                (calm_world "Hurricane" "Critical" "t" 0) [] ∅ "London") as (H1 & H2 & _).
  split.
  - apply H1. left. vm_compute. reflexivity.
  - apply H2. left. vm_compute. reflexivity.
Defined.

(** ** The blocking verification stage outside low and medium *)

(** C10. Whenever the stripped, lowercased severity is neither "low"
    nor "medium" (the sentinel "Assessment Failed" and the empty string
    included), the blocking verification stage returns with
    [human_approved] true and reads nothing from the console: the lines
    it was given come back untouched.  Hence a run that reaches this
    stage with such a severity (one whose assessment failed, say: the
    severity is then neither "critical" nor "high") leaves it
    auto-approved and goes on to the notify node. *)
Theorem get_human_verification_auto_approves (W : World)
    (inputs : Agents.Console) (st : WeatherState) :
  let sev := PyStr.lower (PyStr.strip (severity st)) in
  sev ≠ "low" → sev ≠ "medium" →
  get_human_verification W inputs st = Returns (auto_approved st, inputs) ∧
  human_approved (auto_approved st) = Some true ∧
  (∀ c, classified W (Agents.initial_state c) = st →
        sev ≠ "critical" → sev ≠ "high" →
        ∃ final dept,
          Agents.app_invoke W inputs c =
            Finished final inputs
              (opening ++ [dept; n_get_human_verification; n_send_email_alert]) ∧
          human_approved final = Some true).
Proof.
  intros sev Hlow Hmedium.
  assert (Hauto : ∀ st', severity st' = severity st →
            get_human_verification W inputs st' = Returns (auto_approved st', inputs)).
  { intros st' Hst'. unfold get_human_verification, auto_approved. rewrite Hst'.
    fold sev. by assert (PyStr.mem sev ["low"; "medium"] = false) as ->
      by (by apply mem_pair_false). }
  split; [by apply Hauto | split; [reflexivity|]].
  intros c Hc Hcritical Hhigh. rewrite agents_run. cbv zeta.
  set (s := logged W (Agents.initial_state c)).
  assert (Hs : severity s = severity st) by (unfold s; by rewrite logged_severity, Hc).
  pose proof (department_untouched (route_response s) W s) as (_&_&_&Hd&_).
  destruct (decide (route_response s = n_emergency_response)) as [He|He].
  { apply route_emergency_iff in He. rewrite Hs in He. fold sev in He. tauto. }
  rewrite Hauto by congruence. simpl truthy. cbv iota.
  destruct (send_email_alert_total W (auto_approved (department (route_response s) W s)))
    as [final Hfinal].
  { simpl. apply department_complete, logged_complete. }
  unfold notify. rewrite Hfinal. exists final, (route_response s).
  split; [reflexivity|].
  by rewrite (send_email_alert_human_approved _ _ _ Hfinal).
Qed.

Lemma get_human_verification_auto_approves_witness :
  get_human_verification unassessed_world [Ok "n"] (probe "Assessment Failed" "Heatwave")
    = Returns (auto_approved (probe "Assessment Failed" "Heatwave"), [Ok "n"]) ∧
  get_human_verification unassessed_world [Ok "n"] (probe "" "")
    = Returns (auto_approved (probe "" ""), [Ok "n"]) ∧
  ∃ final dept,
    Agents.app_invoke unassessed_world [Ok "n"] "London" =
      Finished final [Ok "n"]
        (opening ++ [dept; n_get_human_verification; n_send_email_alert]) ∧
    human_approved final = Some true.
Proof.
  split; [|split].
  - apply (get_human_verification_auto_approves unassessed_world [Ok "n"]
             (probe "Assessment Failed" "Heatwave")); vm_compute; discriminate.
  - apply (get_human_verification_auto_approves unassessed_world [Ok "n"]
             (probe "" "")); vm_compute; discriminate.
  - apply (get_human_verification_auto_approves unassessed_world [Ok "n"]
             (classified unassessed_world (Agents.initial_state "London")));
      [vm_compute; discriminate | vm_compute; discriminate | reflexivity
      | vm_compute; discriminate | vm_compute; discriminate].
Defined.

(** ** The trace *)

Lemma get_human_verification_trace W inputs st st' rest :
  get_human_verification W inputs st = Returns (st', rest) →
  ∃ added, messages st' = messages st ++ added ∧ (length added ≤ 1)%nat.
Proof.
  unfold get_human_verification. repeat case_match; try done;
    intros [= <- <-]; simpl; eexists; split; try reflexivity; simpl; lia.
Qed.

Lemma get_human_verification_web_trace W pending st :
  ∃ added,
    messages (AgentWeb.get_human_verification_web W pending st).1
      = messages st ++ added ∧ (length added ≤ 1)%nat.
Proof.
  unfold AgentWeb.get_human_verification_web. case_match; simpl;
    eexists; split; try reflexivity; simpl; lia.
Qed.

Lemma send_email_alert_trace W st st' :
  send_email_alert W st = Ok st' →
  ∃ added, messages st' = messages st ++ added ∧ (length added ≤ 1)%nat.
Proof.
  unfold send_email_alert, mbind, result_bind. repeat case_match; try done;
    intros [= <-]; simpl; eexists; split; try reflexivity; simpl; lia.
Qed.

Lemma plain_stage_trace (f : World → WeatherState → WeatherState) :
  f ∈ [get_weather_data; analyze_disaster_type; assess_severity; data_logging;
       emergency_response; civil_defense_response; public_works_response;
       (λ _, handle_no_approval); (λ _, AgentWeb.wait_for_approval)] →
  ∀ W st, ∃ added, messages (f W st) = messages st ++ added ∧ (length added ≤ 1)%nat.
Proof.
  rewrite !elem_of_cons, elem_of_nil.
  intros [->|[->|[->|[->|[->|[->|[->|[->|[->|[]]]]]]]]]] W st.
  all: stage_cases.
  all: try (eexists; split; [reflexivity | simpl; lia]).
  exists []. split; [by rewrite app_nil_r | simpl; lia].
Qed.

(** C6. Whatever node of either workflow runs on whatever state, the
    trace of the state it returns is the trace it received followed by
    the entries the stage added (none or one): nothing is dropped and
    nothing is moved. *)
Theorem stage_trace_only_grows :
  (∀ n f W (inputs rest : Agents.Console) st st',
     node_fn Agents.workflow n = Some f →
     f W inputs st = Returns (st', rest) →
     ∃ added, messages st' = messages st ++ added ∧ (length added ≤ 1)%nat) ∧
  (∀ n f W (pending pending' : AgentWeb.Store) st st',
     node_fn AgentWeb.workflow n = Some f →
     f W pending st = Returns (st', pending') →
     ∃ added, messages st' = messages st ++ added ∧ (length added ≤ 1)%nat).
Proof.
  split.
  - intros n f W inputs rest st st' Hf Hrun.
    destruct n; simpl in Hf; try discriminate; injection Hf as <-.
    all: try (unfold plain in Hrun; injection Hrun as <- <-;
              first [ apply plain_stage_trace
                    | apply (plain_stage_trace (λ _, handle_no_approval))
                    | apply (plain_stage_trace (λ _, AgentWeb.wait_for_approval)) ];
              set_solver).
    + by eapply get_human_verification_trace.
    + unfold fallible, of_result, mbind, result_bind in Hrun.
      destruct (send_email_alert W st) eqn:Hsend; [|done].
      injection Hrun as <- <-. by eapply send_email_alert_trace.
  - intros n f W pending pending' st st' Hf Hrun.
    destruct n; simpl in Hf; try discriminate; injection Hf as <-.
    all: try (unfold plain in Hrun; injection Hrun as <- <-;
              first [ apply plain_stage_trace
                    | apply (plain_stage_trace (λ _, handle_no_approval))
                    | apply (plain_stage_trace (λ _, AgentWeb.wait_for_approval)) ];
              set_solver).
    + injection Hrun as Hrun.
      pose proof (get_human_verification_web_trace W pending st) as H.
      by rewrite Hrun in H.
    + unfold fallible, of_result, mbind, result_bind in Hrun.
      destruct (send_email_alert W st) eqn:Hsend; [|done].
      injection Hrun as <- <-. by eapply send_email_alert_trace.
Qed.

Lemma stage_trace_only_grows_witness :
  (∃ added,
     messages (get_weather_data dead_world (probe "" "")) =
       messages (probe "" "") ++ added ∧ (length added ≤ 1)%nat) ∧
  (∃ added,
     messages (AgentWeb.wait_for_approval (auto_approved (probe "" ""))) =
       messages (auto_approved (probe "" "")) ++ added ∧ (length added ≤ 1)%nat).
Proof.
  split.
  - apply (proj1 stage_trace_only_grows n_get_weather (plain get_weather_data)
             dead_world [] [] (probe "" "")
             (get_weather_data dead_world (probe "" ""))); reflexivity.
  - apply (proj2 stage_trace_only_grows n_wait_for_approval
             (plain (λ _, AgentWeb.wait_for_approval))
             dead_world ∅ ∅ (auto_approved (probe "" ""))
             (AgentWeb.wait_for_approval (auto_approved (probe "" "")))); reflexivity.
Defined.

(** ** Resumption *)

Lemma continue_with_approval_missing W (pending : AgentWeb.Store) tok approved :
  pending !! tok = None →
  AgentWeb.continue_with_approval W pending tok approved
    = (Raise (not_found_error tok), pending).
Proof. intros H. unfold AgentWeb.continue_with_approval. by rewrite H. Qed.

Lemma continue_with_approval_consumes W (pending pending' : AgentWeb.Store)
    tok approved final :
  AgentWeb.continue_with_approval W pending tok approved = (Ok final, pending') →
  pending' = delete tok pending.
Proof.
  unfold AgentWeb.continue_with_approval.
  destruct (pending !! tok); [|done].
  by destruct (if approved then _ else _); intros [= _ <-].
Qed.

(** C5. A resumption with a token the store does not hold, because it
    was never issued or because an earlier resumption consumed it,
    raises the not-found error and leaves the store as it was; the
    approval endpoint hands the error to its caller as a 404 answer. *)
Theorem resume_unknown_token_not_found (W : World) (pending : AgentWeb.Store)
    (tok : string) (approved : bool) :
  (pending !! tok = None ∨
   ∃ W0 pending0 approved0 final,
     AgentWeb.continue_with_approval W0 pending0 tok approved0 = (Ok final, pending)) →
  AgentWeb.continue_with_approval W pending tok approved
    = (Raise (not_found_error tok), pending) ∧
  Main.handle_approval true W pending tok approved
    = (not_found_response tok, pending).
Proof.
  intros Hmissing.
  assert (pending !! tok = None) as Hnone.
  { destruct Hmissing as [H | (W0 & pending0 & approved0 & final & H)]; [done|].
    apply continue_with_approval_consumes in H as ->. apply lookup_delete_eq. }
  pose proof (continue_with_approval_missing W pending tok approved Hnone) as Hraise.
  split; [done|].
  unfold Main.handle_approval. simpl negb. cbv iota. by rewrite Hraise.
Qed.

(** The London run leaves the store [parked] behind. *)
Lemma parked_by_run :
  ∃ st visited,
    AgentWeb.app_invoke low_world ∅ "London" = Finished st parked visited.
Proof. eexists _, _. vm_compute. reflexivity. Qed.

Lemma resume_unknown_token_not_found_witness :
  (AgentWeb.continue_with_approval low_world ∅ london_token true
     = (Raise (not_found_error london_token), ∅) ∧
   Main.handle_approval true low_world ∅ london_token true
     = (not_found_response london_token, ∅)) ∧
  (AgentWeb.continue_with_approval low_world (delete london_token parked)
     london_token false
     = (Raise (not_found_error london_token), delete london_token parked) ∧
   Main.handle_approval true low_world (delete london_token parked)
     london_token false
     = (not_found_response london_token, delete london_token parked)).
Proof.
  split.
  - apply (resume_unknown_token_not_found low_world ∅ london_token true).
    left. reflexivity.
  - apply (resume_unknown_token_not_found low_world
             (delete london_token parked) london_token false).
    right. exists low_world, parked, true. eexists. vm_compute. reflexivity.
Defined.

(** With the mail server down, the approved resumption of the entry
    the London run stored completes and consumes the token, and records nothing in
    [alerts]. *)
Lemma approved_resume_without_alert :
  (∃ final,
     AgentWeb.continue_with_approval smtp_down_world parked london_token true
       = (Ok final, ∅) ∧
     alerts final = [] ∧
     last (messages final)
       = Some (SystemMessage "Failed to send email alert: smtp down")) ∧
  ¬ resume_records_as_specified smtp_down_world parked london_token.
Proof.
  split.
  - eexists. split; [vm_compute; reflexivity|]. split; vm_compute; reflexivity.
  - intros H. destruct (H london_snapshot) as [(final & record & Hrun & Halerts) _].
    { vm_compute. reflexivity. }
    vm_compute in Hrun. injection Hrun as <-.
    vm_compute in Halerts. discriminate.
Qed.

(** Whatever a run stores has a complete reading. *)
Lemma app_invoke_pending_complete W (pending : AgentWeb.Store) c :
  pending_complete pending →
  match AgentWeb.app_invoke W pending c with
  | Finished _ pending' _ | Crashed _ pending' _ => pending_complete pending'
  | _ => True
  end.
Proof.
  intros Hpending. rewrite web_run. cbv zeta.
  set (s := logged W (declared (AgentWeb.initial_state c))).
  case_decide.
  { unfold notify. by destruct (send_email_alert _ _). }
  assert (pending_complete
            (AgentWeb.get_human_verification_web W pending
               (department (route_response s) W s)).2) as Hstep.
  { unfold AgentWeb.get_human_verification_web. case_match; [|done].
    intros tok snapshot. simpl. rewrite lookup_insert.
    case_decide; [|by apply Hpending].
    intros [= <-]. apply department_complete, logged_complete. }
  destruct (truthy _); [|done].
  unfold notify. by destruct (send_email_alert _ _).
Qed.

Lemma continue_with_approval_pending_complete W (pending : AgentWeb.Store)
    tok approved :
  pending_complete pending →
  pending_complete (AgentWeb.continue_with_approval W pending tok approved).2.
Proof.
  intros Hpending. unfold AgentWeb.continue_with_approval.
  destruct (pending !! tok) as [snap|]; [|done].
  destruct (if approved then _ else _); simpl; [|done].
  intros tok' snapshot [_ Hin]%lookup_delete_Some. by eapply Hpending.
Qed.

(** C4, amended.  For a token the store holds (with a snapshot the
    verification stage of a run stored, whose reading is complete), an
    approved resumption completes and removes the token, and records an
    alert exactly when the mail dispatch succeeds: then [alerts] gains
    the record and the trace the success entry; when the dispatch fails
    [alerts] stays as it was and the trace gains the failure entry, and
    nothing else.  A rejected resumption completes with [alerts] as it
    was, the rejection entry appended to the trace, and the token
    removed.  Either way the endpoint answers success. *)
Theorem resume_consumes_token (W : World) (pending : AgentWeb.Store)
    (tok : string) (snapshot : WeatherState) :
  pending !! tok = Some snapshot →
  reading_complete (weather_data snapshot) →
  (∃ final body,
     format_weather_email W (resumed true snapshot) = Ok body ∧
     AgentWeb.continue_with_approval W pending tok true
       = (Ok final, delete tok pending) ∧
     match smtp_send W (getenv W "SENDER_EMAIL") (getenv W "RECEIVER_EMAIL")
             (getenv W "EMAIL_PASSWORD") (email_subject (resumed true snapshot))
             body with
     | Ok _ =>
         alerts final = alerts snapshot ++ [alert_record W] ∧
         messages final =
           messages snapshot ++
           [SystemMessage ("Successfully sent weather alert email for "
                           +:+ city snapshot)]
     | Raise e =>
         alerts final = alerts snapshot ∧
         messages final =
           messages snapshot ++
           [SystemMessage ("Failed to send email alert: " +:+ str_exn e)]
     end) ∧
  (AgentWeb.continue_with_approval W pending tok false
     = (Ok (handle_no_approval (resumed false snapshot)), delete tok pending) ∧
   alerts (handle_no_approval (resumed false snapshot)) = alerts snapshot ∧
   messages (handle_no_approval (resumed false snapshot)) =
     messages snapshot ++
     [SystemMessage
        ("Alert not sent for " +:+ city snapshot +:+
         " - Weather severity level '" +:+ severity snapshot +:+
         "' was deemed non-critical by human operator and verification was rejected.")]) ∧
  delete tok pending !! tok = None ∧
  (∀ approved, ∃ answer,
     Main.handle_approval true W pending tok approved
       = (answer, delete tok pending) ∧
     Main.success answer = true ∧ Main.status_code answer = 200).
Proof.
  intros Htok Hcomplete.
  destruct (format_weather_email_total W (resumed true snapshot)) as [body Hbody];
    [exact Hcomplete|].
  assert (Hrejected :
    AgentWeb.continue_with_approval W pending tok false
      = (Ok (handle_no_approval (resumed false snapshot)), delete tok pending)).
  { unfold AgentWeb.continue_with_approval. by rewrite Htok. }
  assert (Happroved : ∃ final,
    AgentWeb.continue_with_approval W pending tok true
      = (Ok final, delete tok pending) ∧
    send_email_alert W (resumed true snapshot) = Ok final).
  { destruct (send_email_alert_total W (resumed true snapshot)) as [final Hfinal];
      [exact Hcomplete|].
    exists final. split; [|done].
    unfold AgentWeb.continue_with_approval. rewrite Htok.
    fold (resumed true snapshot). by rewrite Hfinal. }
  destruct Happroved as (final & Hrun & Hsend).
  split; [|split; [|split]].
  - exists final, body. split; [done|]. split; [done|].
    unfold send_email_alert, mbind, result_bind in Hsend. rewrite Hbody in Hsend.
    destruct (smtp_send _ _ _ _ _ _); by injection Hsend as <-.
  - split; [done|]. by split.
  - apply lookup_delete_eq.
  - intros [|]; unfold Main.handle_approval; simpl negb; cbv iota.
    + rewrite Hrun. by eexists.
    + rewrite Hrejected. by eexists.
Qed.

Lemma resume_consumes_token_witness :
  (∃ final body,
     format_weather_email low_world (resumed true london_snapshot) = Ok body ∧
     AgentWeb.continue_with_approval low_world parked london_token true
       = (Ok final, delete london_token parked) ∧
     match smtp_send low_world (getenv low_world "SENDER_EMAIL")
             (getenv low_world "RECEIVER_EMAIL")
             (getenv low_world "EMAIL_PASSWORD")
             (email_subject (resumed true london_snapshot)) body with
     | Ok _ =>
         alerts final = alerts london_snapshot ++ [alert_record low_world] ∧
         messages final =
           messages london_snapshot ++
           [SystemMessage ("Successfully sent weather alert email for "
                           +:+ city london_snapshot)]
     | Raise e =>
         alerts final = alerts london_snapshot ∧
         messages final =
           messages london_snapshot ++
           [SystemMessage ("Failed to send email alert: " +:+ str_exn e)]
     end) ∧
  (∃ final body,
     format_weather_email smtp_down_world (resumed true london_snapshot) = Ok body ∧
     AgentWeb.continue_with_approval smtp_down_world parked london_token true
       = (Ok final, delete london_token parked) ∧
     match smtp_send smtp_down_world (getenv smtp_down_world "SENDER_EMAIL")
             (getenv smtp_down_world "RECEIVER_EMAIL")
             (getenv smtp_down_world "EMAIL_PASSWORD")
             (email_subject (resumed true london_snapshot)) body with
     | Ok _ =>
         alerts final = alerts london_snapshot ++ [alert_record smtp_down_world] ∧
         messages final =
           messages london_snapshot ++
           [SystemMessage ("Successfully sent weather alert email for "
                           +:+ city london_snapshot)]
     | Raise e =>
         alerts final = alerts london_snapshot ∧
         messages final =
           messages london_snapshot ++
           [SystemMessage ("Failed to send email alert: " +:+ str_exn e)]
     end).
Proof.
  split.
  - apply (resume_consumes_token low_world parked london_token london_snapshot).
    + vm_compute. reflexivity.
    + apply reading_complete_intro; eexists; vm_compute; reflexivity.
  - apply (resume_consumes_token smtp_down_world parked london_token london_snapshot).
    + vm_compute. reflexivity.
    + apply reading_complete_intro; eexists; vm_compute; reflexivity.
Defined.

(** ** Low and medium severity in the web workflow *)

Lemma low_medium_not_severe (sev : string) :
  sev = "low" ∨ sev = "medium" → ¬ (sev = "critical" ∨ sev = "high").
Proof. intros [->| ->] [?|?]; discriminate. Qed.

Lemma severity_classified_declared W st :
  severity (classified W (declared st)) = severity (classified W st).
Proof. by rewrite <- declared_classified. Qed.

Lemma web_run_low_medium (W : World) (pending : AgentWeb.Store) (c : string) :
  let sev := PyStr.lower (PyStr.strip (severity (classified W (AgentWeb.initial_state c)))) in
  let s := logged W (declared (AgentWeb.initial_state c)) in
  let dept := route_response s in
  let tok := c +:+ "_" +:+ pretty (time_ms W) in
  sev = "low" ∨ sev = "medium" →
  dept ≠ n_emergency_response ∧
  AgentWeb.get_human_verification_web W pending (department dept W s)
    = (parked_state tok (department dept W s),
       <[tok := department dept W s]> pending) ∧
  AgentWeb.app_invoke W pending c =
    Finished (handle_no_approval (declared (parked_state tok (department dept W s))))
      (<[tok := department dept W s]> pending)
      (opening ++ [dept; n_get_human_verification; n_handle_no_approval]).
Proof.
  intros sev s dept tok Hsev.
  assert (Hdept : dept ≠ n_emergency_response).
  { intros He%route_emergency_iff. unfold s in He.
    rewrite logged_severity, severity_classified_declared in He.
    by apply (low_medium_not_severe sev). }
  split; [done|].
  pose proof (department_untouched dept W s) as (Hcity&_&_&Hseverity&_).
  pose proof (logged_untouched W (declared (AgentWeb.initial_state c))) as (Hcity'&_).
  assert (Hpark :
    AgentWeb.get_human_verification_web W pending (department dept W s)
      = (parked_state tok (department dept W s),
         <[tok := department dept W s]> pending)).
  { unfold AgentWeb.get_human_verification_web, AgentWeb.mint_verification_id.
    rewrite Hseverity, Hcity.
    replace (severity s) with (severity (classified W (AgentWeb.initial_state c)))
      by (unfold s; by rewrite logged_severity, severity_classified_declared).
    replace (city s) with c by (symmetry; exact Hcity').
    fold sev tok. apply mem_pair in Hsev. by rewrite Hsev. }
  split; [done|].
  rewrite web_run. cbv zeta. fold s dept. rewrite decide_False by done.
  rewrite Hpark. reflexivity.
Qed.

(** No run suspends as the specification words it: none ends at the
    park node. *)
Lemma web_run_skips_park_node (W : World) (pending : AgentWeb.Store) (c : string)
    st pending' visited :
  AgentWeb.app_invoke W pending c = Finished st pending' visited →
  last visited ≠ Some n_wait_for_approval.
Proof.
  rewrite web_run. cbv zeta. case_decide.
  { unfold notify. destruct (send_email_alert _ _); [|done].
    intros [= _ _ <-]. simpl. discriminate. }
  destruct (truthy _).
  - unfold notify. destruct (send_email_alert _ _); [|done].
    intros [= _ _ <-]. simpl. discriminate.
  - intros [= _ _ <-]. simpl. discriminate.
Qed.

(** C3, as the code runs.  In a run of the suspend/resume workflow
    whose assessed severity, stripped and lowercased, is "low" or
    "medium", the verification stage does ask for approval: it mints
    the token (the city, an underscore, the millisecond clock reading),
    stores the state it received, which carries no token, under it, and
    returns that state with the token, [needs_approval] true and
    [human_approved] pending, a state its router would send to the park
    node.  But the workflow is built on [WeatherState], which declares
    neither [needs_approval] nor [verification_id]: the executor carries
    neither, the router reads a state without them and answers the
    rejection node.  The run ends there, completed: no token in the
    final state or in the result, no request for approval, no alert,
    and the entry left in the store.  The run does not suspend. *)
Theorem low_medium_run_misses_park_node (W : World) (pending : AgentWeb.Store)
    (c : string) :
  let sev := PyStr.lower (PyStr.strip (severity (classified W (AgentWeb.initial_state c)))) in
  let tok := c +:+ "_" +:+ pretty (time_ms W) in
  sev = "low" ∨ sev = "medium" →
  ∃ dept snapshot final result,
    (dept = n_public_works_response ∨ dept = n_civil_defense_response) ∧
    snapshot = department dept W (logged W (declared (AgentWeb.initial_state c))) ∧
    AgentWeb.get_human_verification_web W pending snapshot
      = (parked_state tok snapshot, <[tok := snapshot]> pending) ∧
    verification_id (parked_state tok snapshot) = Some tok ∧
    needs_approval (parked_state tok snapshot) = Some true ∧
    human_approved (parked_state tok snapshot) = None ∧
    AgentWeb.verify_approval_router_web (parked_state tok snapshot)
      = n_wait_for_approval ∧
    AgentWeb.verify_approval_router_web (declared (parked_state tok snapshot))
      = n_handle_no_approval ∧
    AgentWeb.app_invoke W pending c =
      Finished final (<[tok := snapshot]> pending)
        (opening ++ [dept; n_get_human_verification; n_handle_no_approval]) ∧
    verification_id final = None ∧
    needs_approval final = None ∧
    human_approved final = None ∧
    alerts final = [] ∧
    AgentWeb.run_agent_web W pending c = Some (result, <[tok := snapshot]> pending) ∧
    AgentWeb.run_status result = AgentWeb.Completed ∧
    AgentWeb.r_verification_id result = None ∧
    (<[tok := snapshot]> pending) !! tok = Some snapshot ∧
    verification_id snapshot = None ∧
    ¬ suspension_as_specified W pending c.
Proof.
  intros sev tok Hsev.
  pose proof (web_run_low_medium W pending c Hsev) as (Hdept & Hstage & Hrun).
  cbv zeta in Hdept, Hstage, Hrun. fold tok in Hstage, Hrun.
  set (s := logged W (declared (AgentWeb.initial_state c))) in *.
  set (snapshot := department (route_response s) W s) in *.
  assert (Halerts : alerts snapshot = []).
  { unfold snapshot.
    pose proof (department_untouched (route_response s) W s) as (_&_&_&_&->&_).
    unfold s.
    by pose proof (logged_untouched W (declared (AgentWeb.initial_state c)))
      as (_&->&_). }
  exists (route_response s), snapshot,
    (handle_no_approval (declared (parked_state tok snapshot))).
  eexists. split.
  { destruct (route_response_cases s) as [?|[?|?]]; tauto. }
  split; [reflexivity|]. split; [exact Hstage|].
  split; [reflexivity|]. split; [reflexivity|]. split; [reflexivity|].
  split; [reflexivity|]. split; [reflexivity|]. split; [exact Hrun|].
  split; [reflexivity|]. split; [reflexivity|]. split; [reflexivity|].
  split; [exact Halerts|].
  split.
  { unfold AgentWeb.run_agent_web. rewrite Hrun. simpl truthy. cbv iota.
    reflexivity. }
  split; [reflexivity|]. split; [reflexivity|].
  split; [apply lookup_insert_eq|].
  split.
  { unfold snapshot.
    pose proof (department_untouched (route_response s) W s) as (_&_&_&_&_&_&_&->).
    unfold s.
    by pose proof (logged_untouched W (declared (AgentWeb.initial_state c)))
      as (_&_&_&_&->). }
  intros (st & pending' & visited & ? & ? & Hinvoke & Hlast & _).
  by apply web_run_skips_park_node in Hinvoke.
Qed.

Lemma low_medium_run_misses_park_node_witness :
  ∃ dept snapshot final result,
    (dept = n_public_works_response ∨ dept = n_civil_defense_response) ∧
    snapshot = department dept low_world
                 (logged low_world (declared (AgentWeb.initial_state "London"))) ∧
    AgentWeb.get_human_verification_web low_world ∅ snapshot
      = (parked_state ("London" +:+ "_" +:+ pretty (time_ms low_world)) snapshot,
         <["London" +:+ "_" +:+ pretty (time_ms low_world) := snapshot]> ∅) ∧
    verification_id
      (parked_state ("London" +:+ "_" +:+ pretty (time_ms low_world)) snapshot)
      = Some ("London" +:+ "_" +:+ pretty (time_ms low_world)) ∧
    needs_approval
      (parked_state ("London" +:+ "_" +:+ pretty (time_ms low_world)) snapshot)
      = Some true ∧
    human_approved
      (parked_state ("London" +:+ "_" +:+ pretty (time_ms low_world)) snapshot)
      = None ∧
    AgentWeb.verify_approval_router_web
      (parked_state ("London" +:+ "_" +:+ pretty (time_ms low_world)) snapshot)
      = n_wait_for_approval ∧
    AgentWeb.verify_approval_router_web
      (declared
         (parked_state ("London" +:+ "_" +:+ pretty (time_ms low_world)) snapshot))
      = n_handle_no_approval ∧
    AgentWeb.app_invoke low_world ∅ "London" =
      Finished final
        (<["London" +:+ "_" +:+ pretty (time_ms low_world) := snapshot]> ∅)
        (opening ++ [dept; n_get_human_verification; n_handle_no_approval]) ∧
    verification_id final = None ∧
    needs_approval final = None ∧
    human_approved final = None ∧
    alerts final = [] ∧
    AgentWeb.run_agent_web low_world ∅ "London"
      = Some (result,
              <["London" +:+ "_" +:+ pretty (time_ms low_world) := snapshot]> ∅) ∧
    AgentWeb.run_status result = AgentWeb.Completed ∧
    AgentWeb.r_verification_id result = None ∧
    (<["London" +:+ "_" +:+ pretty (time_ms low_world) := snapshot]>
       (∅ : AgentWeb.Store))
      !! ("London" +:+ "_" +:+ pretty (time_ms low_world)) = Some snapshot ∧
    verification_id snapshot = None ∧
    ¬ suspension_as_specified low_world ∅ "London".
Proof.
  apply (low_medium_run_misses_park_node low_world ∅ "London").
  left. vm_compute. reflexivity.
Defined.

(** ** Runs never abort *)

Lemma get_human_verification_web_cases W (pending : AgentWeb.Store) st :
  let r := AgentWeb.get_human_verification_web W pending st in
  weather_data r.1 = weather_data st ∧
  alerts r.1 = alerts st ∧
  ((human_approved r.1 = None ∧ needs_approval r.1 = Some true) ∨
   (human_approved r.1 = Some true ∧ needs_approval r.1 = Some false ∧ r.2 = pending)).
Proof.
  unfold AgentWeb.get_human_verification_web. case_match; simpl.
  - split; [done|]. split; [done|]. by left.
  - split; [done|]. split; [done|]. by right.
Qed.

Lemma get_human_verification_cases W (inputs : Agents.Console) st :
  reading_complete (weather_data st) →
  match get_human_verification W inputs st with
  | Returns (st', _) =>
      weather_data st' = weather_data st ∧ alerts st' = alerts st
  | Raises _ => False
  | Hangs => read_approval inputs = None
  end.
Proof.
  intros Hwd. unfold get_human_verification, getitem, mbind, result_bind.
  destruct (Hwd "weather") as [? ->]; [set_solver|].
  destruct (Hwd "temperature") as [? ->]; [set_solver|].
  destruct (Hwd "wind_speed") as [? ->]; [set_solver|].
  destruct (PyStr.mem _ _); cbn beta iota; [|done].
  by destruct (read_approval inputs) as [[approved rest]|].
Qed.

Lemma notify_finishes {Env} W (env : Env) st visited :
  reading_complete (weather_data st) →
  ∃ final,
    send_email_alert W st = Ok final ∧
    notify W env st visited = Finished final env (visited ++ [n_send_email_alert]).
Proof.
  intros [final Hfinal]%(send_email_alert_total W).
  exists final. split; [done|]. unfold notify. by rewrite Hfinal.
Qed.

Lemma send_email_alert_needs_approval W st st' :
  send_email_alert W st = Ok st' → needs_approval st' = needs_approval st.
Proof.
  intros H%send_email_alert_untouched.
  by apply (f_equal needs_approval) in H.
Qed.

(** The suspend/resume run always ends, at the notify node or at the
    rejection node, and its final state asks for no approval. *)
Lemma web_run_finishes (W : World) (pending : AgentWeb.Store) (c : string) :
  ∃ final pending' rest,
    AgentWeb.app_invoke W pending c = Finished final pending' (opening ++ rest) ∧
    needs_approval final = None ∧
    (last rest = Some n_handle_no_approval ∨ last rest = Some n_send_email_alert).
Proof.
  assert (Hcarried : ∀ final pending' visited,
    AgentWeb.app_invoke W pending c = Finished final pending' visited →
    needs_approval final = None).
  { intros final pending' visited Hrun. unfold AgentWeb.app_invoke, invoke in Hrun.
    by apply walk_carries, declared_fixed in Hrun as [? _]. }
  pose proof Hcarried as Hrun. revert Hrun. rewrite web_run. cbv zeta.
  set (s := logged W (declared (AgentWeb.initial_state c))).
  assert (Hs : reading_complete (weather_data s)) by apply logged_complete.
  case_decide as Hdept.
  - destruct (notify_finishes W pending (emergency_response W s)
                (opening ++ [route_response s])) as (final & Hsend & ->).
    { by apply (department_complete n_emergency_response). }
    intros Hrun.
    exists final, pending, [route_response s; n_send_email_alert].
    rewrite <- app_assoc. split; [done|]. split; [by eapply Hrun | by right].
  - set (r := AgentWeb.get_human_verification_web W pending
                (department (route_response s) W s)).
    destruct (get_human_verification_web_cases W pending
                (department (route_response s) W s)) as (Hwd & _ & _).
    fold r in Hwd.
    destruct (truthy (human_approved (declared r.1))).
    + destruct (notify_finishes W r.2 (declared r.1)
                  (opening ++ [route_response s; n_get_human_verification]))
        as (final & Hsend & ->).
      { change (weather_data (declared r.1)) with (weather_data r.1).
        rewrite Hwd. by apply department_complete. }
      intros Hrun. eexists _, _, _. rewrite <- !app_assoc.
      split; [reflexivity|]. split; [by eapply Hrun | by right].
    + intros Hrun. eexists _, _, _. rewrite <- !app_assoc.
      split; [reflexivity|]. split; [by eapply Hrun | by left].
Qed.

(** The blocking run ends too, unless it is still waiting for the
    operator; it never raises and never runs out of steps. *)
Lemma agents_run_never_aborts (W : World) (inputs : Agents.Console) (c : string) :
  match Agents.app_invoke W inputs c with
  | Finished _ _ visited => ∃ rest, visited = opening ++ rest
  | Stalled _ => read_approval inputs = None
  | Crashed _ _ _ | OutOfSteps => False
  end.
Proof.
  rewrite agents_run. cbv zeta.
  set (s := logged W (Agents.initial_state c)).
  assert (Hs : reading_complete (weather_data s)) by apply logged_complete.
  case_decide as Hdept.
  - destruct (notify_finishes W inputs (emergency_response W s)
                (opening ++ [route_response s])) as (final & Hsend & ->).
    { by apply (department_complete n_emergency_response). }
    eexists. by rewrite <- app_assoc.
  - pose proof (get_human_verification_cases W inputs
                  (department (route_response s) W s)) as Hcases.
    destruct (get_human_verification W inputs _) as [[s' rest]| |];
      [|by apply Hcases, department_complete|by apply Hcases, department_complete].
    destruct Hcases as [Hwd _]; [by apply department_complete|].
    destruct (truthy (human_approved s')).
    + destruct (notify_finishes W rest s'
                  (opening ++ [route_response s; n_get_human_verification]))
        as (final & Hsend & ->).
      { rewrite Hwd. by apply department_complete. }
      eexists. by rewrite <- app_assoc.
    + by eexists.
Qed.

(** ** Failures inside a stage *)

(** The blocking verification stage, a console read failing under it:
    it reads again, and when the operator then answers [y] it returns
    with the approval entry as the only addition to the trace; nothing
    reports the failed read.  When no line follows the failed read the
    stage never returns and the run stays at that node. *)
Lemma console_failure_leaves_no_trace :
  get_human_verification low_world [Raise garbled_line; Ok "y"] london_awaiting
    = Returns (log_message "Human verification: Approved"
                 (set_human_approved (Some true) london_awaiting), []) ∧
  ¬ failure_recorded garbled_line london_awaiting
      (get_human_verification low_world [Raise garbled_line; Ok "y"] london_awaiting) ∧
  get_human_verification low_world [Raise garbled_line] london_awaiting = Hangs ∧
  Agents.app_invoke low_world [Raise garbled_line] "London"
    = Stalled (opening ++ [n_public_works_response; n_get_human_verification]).
Proof.
  assert (Hreturns :
    get_human_verification low_world [Raise garbled_line; Ok "y"] london_awaiting
      = Returns (log_message "Human verification: Approved"
                   (set_human_approved (Some true) london_awaiting), []))
    by (vm_compute; reflexivity).
  split; [exact Hreturns|]. split; [|split; vm_compute; reflexivity].
  intros (after & rest & added & entry & Hret & Hmsgs & Hin & Hsub).
  rewrite Hreturns in Hret. injection Hret as <- <-.
  simpl in Hmsgs. apply app_inv_head in Hmsgs. subst added.
  apply list_elem_of_singleton in Hin. injection Hin as ->.
  apply contains_spec in Hsub. vm_compute in Hsub. discriminate.
Qed.

(** A stage of a workflow whose external call fails: it returns, the
    failure absorbed. *)
Ltac absorb_failure Hf :=
  simpl in Hf; injection Hf as <-;
  unfold plain, fallible, of_result, get_weather_data, analyze_disaster_type,
    assess_severity, data_logging, emergency_response, civil_defense_response,
    public_works_response, send_email_alert, dispatch, mbind, result_bind in *;
  repeat match goal with H : _ = _ |- _ => rewrite H end;
  eexists; split; [reflexivity|];
  unfold absorbed; simpl; repeat split; reflexivity.

(** C7, amended.  Whatever stage hits a failure of its call to the
    provider, the model, the audit file or the mail transport, it
    returns: the state it returns has the stage's sentinel in the field
    the stage writes (all-"N/A" reading, "Analysis Failed", "Assessment
    Failed", the plan placeholder; none for the audit log and the mail
    dispatch), the trace it received followed by one failure entry that
    carries the text of the failure, and every other field as it was.
    The blocking verification stage treats a failed console read
    otherwise: it drops it and reads again.  Whatever fails, the run
    goes through the four opening stages and on: the suspend/resume run
    always reaches an end; the blocking run reaches an end or is still
    waiting for the operator's answer; neither raises or gives up half
    way. *)
Theorem stage_failures_are_absorbed (W : World) :
  (∀ n st e f (inputs : Agents.Console),
     node_fn Agents.workflow n = Some f →
     fails_in W st n e →
     ∃ st', f W inputs st = Returns (st', inputs) ∧ absorbed n e st st') ∧
  (∀ n st e f (pending : AgentWeb.Store),
     node_fn AgentWeb.workflow n = Some f →
     fails_in W st n e →
     ∃ st', f W pending st = Returns (st', pending) ∧ absorbed n e st st') ∧
  (∀ e (inputs : Agents.Console) st,
     PyStr.mem (PyStr.lower (PyStr.strip (severity st))) ["low"; "medium"] = true →
     get_human_verification W (Raise e :: inputs) st
       = get_human_verification W inputs st) ∧
  (∀ (pending : AgentWeb.Store) c,
     ∃ final pending' rest,
       AgentWeb.app_invoke W pending c = Finished final pending' (opening ++ rest)) ∧
  (∀ (inputs : Agents.Console) c,
     match Agents.app_invoke W inputs c with
     | Finished _ _ visited => ∃ rest, visited = opening ++ rest
     | Stalled _ => read_approval inputs = None
     | Crashed _ _ _ | OutOfSteps => False
     end).
Proof.
  split; [|split; [|split; [|split]]].
  - intros n st e f inputs Hf Hfail.
    destruct Hfail as [e H|e H|e H|e H|e H|e H|e H|e body Hbody H];
      absorb_failure Hf.
  - intros n st e f pending Hf Hfail.
    destruct Hfail as [e H|e H|e H|e H|e H|e H|e H|e body Hbody H];
      absorb_failure Hf.
  - intros e inputs st Hlow. unfold get_human_verification. by rewrite Hlow.
  - intros pending c.
    destruct (web_run_finishes W pending c) as (final & pending' & rest & H & _).
    by exists final, pending', rest.
  - apply agents_run_never_aborts.
Qed.

Lemma stage_failures_are_absorbed_witness :
  (∃ st',
     plain get_weather_data dead_world ([] : Agents.Console)
       (Agents.initial_state "London") = Returns (st', []) ∧
     weather_data st' = error_data ∧
     messages st' =
       [SystemMessage "Failed to fetch weather data for London: connection refused"] ∧
     city st' = "London" ∧ alerts st' = [] ∧ human_approved st' = Some false) ∧
  (∃ st',
     plain analyze_disaster_type dead_world (∅ : AgentWeb.Store) (probe "Low" "Flood")
       = Returns (st', ∅) ∧
     disaster_type st' = "Analysis Failed" ∧
     messages st' =
       [SystemMessage "Failed to analyze disaster type: model unavailable"] ∧
     severity st' = "Low") ∧
  (∃ st',
     fallible send_email_alert dead_world (∅ : AgentWeb.Store) london_snapshot
       = Returns (st', ∅) ∧
     messages st' =
       messages london_snapshot ++
       [SystemMessage "Failed to send email alert: smtp down"] ∧
     alerts st' = [] ∧
     response st' = response london_snapshot) ∧
  (∃ final pending' rest,
     AgentWeb.app_invoke dead_world ∅ "London" = Finished final pending' (opening ++ rest)).
Proof.
  pose proof (stage_failures_are_absorbed dead_world) as (Hblocking & Hweb & _ & Hrun & _).
  split; [|split; [|split]].
  - destruct (Hblocking n_get_weather (Agents.initial_state "London")
                (OtherException "connection refused") (plain get_weather_data) [])
      as (st' & Hstage & Hcity & Hwd & _ & _ & _ & Hmsgs & Halerts & Happroved & _).
    { reflexivity. }
    { apply fetch_fails. vm_compute. reflexivity. }
    exists st'. split; [exact Hstage|]. split; [exact Hwd|]. split; [exact Hmsgs|].
    split; [exact Hcity|]. split; [exact Halerts | exact Happroved].
  - destruct (Hweb n_analyze_disaster (probe "Low" "Flood")
                (OtherException "model unavailable") (plain analyze_disaster_type) ∅)
      as (st' & Hstage & _ & _ & Hdisaster & Hseverity & _ & Hmsgs & _).
    { reflexivity. }
    { apply classification_fails. vm_compute. reflexivity. }
    exists st'. split; [exact Hstage|]. split; [exact Hdisaster|].
    split; [exact Hmsgs | exact Hseverity].
  - destruct (Hweb n_send_email_alert london_snapshot
                (OtherException "smtp down") (fallible send_email_alert) ∅)
      as (st' & Hstage & _ & _ & _ & _ & Hresponse & Hmsgs & Halerts & _).
    { reflexivity. }
    { eapply dispatch_fails; vm_compute; reflexivity. }
    exists st'. split; [exact Hstage|]. split; [exact Hmsgs|].
    split; [exact Halerts | exact Hresponse].
  - apply Hrun.
Defined.

(** ** The notify stage *)

(** C8. Once the report is formatted, the notify stage returns whatever
    the dispatch does.  When the dispatch succeeds the state it returns
    has one more entry in [alerts], a record carrying the time, and a
    success entry at the end of the trace; when it fails the state has
    a failure entry at the end of the trace and [alerts] as it was.  In
    both cases every other field is unchanged, and the stage does not
    raise.  A run that reaches the notify node therefore ends completed
    whatever the dispatch did: the suspend/resume run reports an
    ordinary result, not the error result, and the blocking run never
    returns the error value. *)
Theorem notification_failure_stays_in_stage (W : World) (st : WeatherState)
    (body : string) :
  format_weather_email W st = Ok body →
  (dispatch W st body = Ok () →
   ∃ st',
     send_email_alert W st = Ok st' ∧
     alerts st' = alerts st ++ [alert_record W] ∧
     messages st' =
       messages st ++
       [SystemMessage ("Successfully sent weather alert email for " +:+ city st)] ∧
     same_but_trace_and_alerts st st') ∧
  (∀ e, dispatch W st body = Raise e →
   ∃ st',
     send_email_alert W st = Ok st' ∧
     alerts st' = alerts st ∧
     messages st' =
       messages st ++ [SystemMessage ("Failed to send email alert: " +:+ str_exn e)] ∧
     same_but_trace_and_alerts st st') ∧
  (∀ (pending : AgentWeb.Store) c,
     ∃ final pending' rest,
       AgentWeb.app_invoke W pending c = Finished final pending' (opening ++ rest) ∧
       (last rest = Some n_send_email_alert →
        ∃ result,
          AgentWeb.run_agent_web W pending c = Some (result, pending') ∧
          AgentWeb.run_status result = AgentWeb.Completed ∧
          AgentWeb.r_messages result = message_str W <$> messages final ∧
          AgentWeb.r_alerts result = alerts final)) ∧
  (∀ (inputs : Agents.Console) c,
     Agents.run_weather_emergency_system W inputs c ≠ Some None).
Proof.
  intros Hbody. split; [|split; [|split]].
  - intros Hsent. unfold send_email_alert, mbind, result_bind.
    rewrite Hbody. unfold dispatch in Hsent. rewrite Hsent.
    eexists. split; [reflexivity|]. split; [reflexivity|]. split; [reflexivity|].
    unfold same_but_trace_and_alerts. simpl. tauto.
  - intros e Hfailed. unfold send_email_alert, mbind, result_bind.
    rewrite Hbody. unfold dispatch in Hfailed. rewrite Hfailed.
    eexists. split; [reflexivity|]. split; [reflexivity|]. split; [reflexivity|].
    unfold same_but_trace_and_alerts. simpl. tauto.
  - intros pending c.
    destruct (web_run_finishes W pending c)
      as (final & pending' & rest & Hrun & Hneeds & _).
    exists final, pending', rest. split; [done|]. intros _.
    unfold AgentWeb.run_agent_web. rewrite Hrun, Hneeds. by eexists.
  - intros inputs c. unfold Agents.run_weather_emergency_system.
    pose proof (agents_run_never_aborts W inputs c) as H.
    by destruct (Agents.app_invoke W inputs c).
Qed.

Lemma notification_failure_stays_in_stage_witness :
  (∃ st',
     send_email_alert smtp_down_world (resumed true london_snapshot) = Ok st' ∧
     alerts st' = [] ∧
     messages st' =
       messages london_snapshot ++
       [SystemMessage "Failed to send email alert: smtp down"] ∧
     same_but_trace_and_alerts (resumed true london_snapshot) st') ∧
  (∃ st',
     send_email_alert low_world (resumed true london_snapshot) = Ok st' ∧
     alerts st' = ["Email alert sent: 2024-01-01 00:00:00"] ∧
     messages st' =
       messages london_snapshot ++
       [SystemMessage "Successfully sent weather alert email for London"] ∧
     same_but_trace_and_alerts (resumed true london_snapshot) st').
Proof.
  assert (Hbody : ∀ W, ∃ body,
    format_weather_email W (resumed true london_snapshot) = Ok body).
  { intros W. apply format_weather_email_total.
    apply reading_complete_intro; eexists; vm_compute; reflexivity. }
  split.
  - destruct (Hbody smtp_down_world) as [body Hformat].
    exact (proj1 (proj2 (notification_failure_stays_in_stage smtp_down_world
                           (resumed true london_snapshot) body Hformat))
             (OtherException "smtp down") eq_refl).
  - destruct (Hbody low_world) as [body Hformat].
    exact (proj1 (notification_failure_stays_in_stage low_world
                    (resumed true london_snapshot) body Hformat) eq_refl).
Defined.

(** ** Running twice *)

Section Rerun.

Variables W1 W2 : World.
Hypothesis Hsame : same_answers W1 W2.

Lemma get_weather_data_same st : get_weather_data W1 st = get_weather_data W2 st.
Proof.
  unfold get_weather_data, fetch_weather, request_url, build_weather_data,
    mbind, result_bind.
  rewrite (same_getenv _ _ Hsame), (same_fetch _ _ Hsame).
  destruct (requests_get_json W2 _) as [data|e]; [|done].
  destruct (default [∅] (pd_weather data)); [done|].
  destruct (get_default _ "temp" _); [done|].
  by rewrite (same_celsius _ _ Hsame).
Qed.

Lemma classified_same st : classified W1 st = classified W2 st.
Proof.
  unfold classified, assess_severity, analyze_disaster_type.
  by rewrite get_weather_data_same, !(same_llm _ _ Hsame).
Qed.

Lemma logged_same st : logged W1 st = logged W2 st.
Proof.
  unfold logged, data_logging. rewrite classified_same.
  set (s := classified W2 st).
  change (log_data W1 s) with (restamp (now_strftime W1) (log_data W2 s)).
  rewrite (same_log _ _ Hsame _ _ (now_strftime W2)).
  reflexivity.
Qed.

Lemma department_same n st : department n W1 st = department n W2 st.
Proof.
  unfold department, emergency_response, civil_defense_response,
    public_works_response.
  destruct n; by rewrite (same_llm _ _ Hsame).
Qed.

Lemma send_email_alert_same st :
  reading_complete (weather_data st) →
  ∃ sent, send_email_alert W1 st = Ok (notified W1 sent st) ∧
          send_email_alert W2 st = Ok (notified W2 sent st).
Proof.
  intros Hwd.
  destruct (format_weather_email_total W1 st Hwd) as [body1 Hbody1].
  destruct (format_weather_email_total W2 st Hwd) as [body2 Hbody2].
  unfold send_email_alert, mbind, result_bind. rewrite Hbody1, Hbody2.
  rewrite !(same_getenv _ _ Hsame), (same_smtp _ _ Hsame _ _ _ _ body1 body2).
  destruct (smtp_send W2 _ _ _ _ body2) as [[]|e].
  - by exists (Ok ()).
  - by exists (Raise e).
Qed.

Lemma notified_agree sent st :
  alerts st = [] →
  agree_but_alert_time W1 W2 (notified W1 sent st) (notified W2 sent st).
Proof.
  intros Halerts. destruct sent as [[]|e]; split; simpl; try done.
  - right. by rewrite Halerts.
  - left. by rewrite Halerts.
Qed.

Lemma notify_same {Env} (env : Env) st visited :
  reading_complete (weather_data st) → alerts st = [] →
  ∃ st1 st2,
    notify W1 env st visited = Finished st1 env (visited ++ [n_send_email_alert]) ∧
    notify W2 env st visited = Finished st2 env (visited ++ [n_send_email_alert]) ∧
    agree_but_alert_time W1 W2 st1 st2.
Proof.
  intros Hwd Halerts.
  destruct (send_email_alert_same st Hwd) as (sent & H1 & H2).
  exists (notified W1 sent st), (notified W2 sent st).
  unfold notify. rewrite H1, H2.
  split; [done|]. split; [done|]. by apply notified_agree.
Qed.

End Rerun.


Lemma get_human_verification_web_same (W1 W2 : World)
    (pending : AgentWeb.Store) st :
  let r1 := AgentWeb.get_human_verification_web W1 pending st in
  let r2 := AgentWeb.get_human_verification_web W2 pending st in
  let tok W := city st +:+ "_" +:+ pretty (time_ms W) in
  (r1 = (parked_state (tok W1) st, <[tok W1 := st]> pending) ∧
   r2 = (parked_state (tok W2) st, <[tok W2 := st]> pending)) ∨
  (r1 = r2 ∧ r1.2 = pending ∧
   human_approved r1.1 = Some true ∧ needs_approval r1.1 = Some false).
Proof.
  unfold AgentWeb.get_human_verification_web, AgentWeb.mint_verification_id.
  destruct (PyStr.mem _ _); cbv zeta; [by left | by right].
Qed.



(** ** The footprint of a stage *)

Ltac open_stage :=
  unfold plain, fallible, of_result, mbind, result_bind,
    get_weather_data, analyze_disaster_type, assess_severity, data_logging,
    emergency_response, civil_defense_response, public_works_response,
    handle_no_approval, AgentWeb.wait_for_approval, send_email_alert,
    get_human_verification, AgentWeb.get_human_verification_web in *.

Lemma send_email_alert_frame W st st' :
  send_email_alert W st = Ok st' →
  blank n_send_email_alert st' = blank n_send_email_alert st ∧
  length (messages st') = (length (messages st) + 1)%nat.
Proof.
  unfold send_email_alert, mbind, result_bind.
  destruct (format_weather_email W st); [|done].
  destruct (smtp_send _ _ _ _ _ _); intros [= <-]; simpl;
    rewrite length_app; split; (reflexivity || (simpl; lia)).
Qed.

Lemma fallible_returns {Env} (f : World → WeatherState → result WeatherState)
    W (env env' : Env) st st' :
  fallible f W env st = Returns (st', env') → f W st = Ok st' ∧ env' = env.
Proof.
  unfold fallible, of_result, mbind, result_bind.
  destruct (f W st); [|done]. by intros [= <- <-].
Qed.

Lemma blocking_stage_frame n f W (inputs rest : Agents.Console) st st' :
  node_fn Agents.workflow n = Some f →
  f W inputs st = Returns (st', rest) →
  blank n st' = blank n st ∧
  length (messages st') = (length (messages st) + entries n)%nat.
Proof.
  intros Hf Hrun. destruct n; simpl in Hf; try discriminate; injection Hf as <-.
  all: try (apply fallible_returns in Hrun as [Hrun _];
            by apply (send_email_alert_frame W)).
  all: open_stage; repeat case_match; simplify_eq; simpl;
    rewrite ?length_app; simpl; split; (reflexivity || lia).
Qed.

Lemma web_stage_frame n f W (pending pending' : AgentWeb.Store) st st' :
  node_fn AgentWeb.workflow n = Some f →
  f W pending st = Returns (st', pending') →
  blank n st' = blank n st ∧
  length (messages st') = (length (messages st) + entries n)%nat.
Proof.
  intros Hf Hrun. destruct n; simpl in Hf; try discriminate; injection Hf as <-.
  all: try (apply fallible_returns in Hrun as [Hrun _];
            by apply (send_email_alert_frame W)).
  all: open_stage; repeat case_match; simplify_eq; simpl;
    rewrite ?length_app; simpl; split; (reflexivity || lia).
Qed.

(** Name the final state of a run that evaluation shows to finish. *)
Ltac finished run final rest visited Hrun :=
  let Hfin := fresh "Hfin" in
  assert (Hfin : is_Some (final_state run)) by (vm_compute; by eexists);
  destruct run as [final rest visited| | |] eqn:Hrun;
    try (by destruct Hfin as [? [=]]); clear Hfin.

(** ** The operator's answer *)

Lemma read_approval_step read rest :
  read_approval (read :: rest) =
    match decisive read with
    | Some answer => Some (answer, rest)
    | None => read_approval rest
    end.
Proof.
  destruct read as [line|e]; [|done]. simpl. unfold PyStr.mem.
  set (answer := PyStr.strip (PyStr.lower line)).
  destruct (decide (answer = "y")) as [Hy|Hy].
  - rewrite bool_decide_eq_true_2 by (rewrite Hy; set_solver).
    by rewrite bool_decide_eq_true_2.
  - destruct (decide (answer = "n")) as [Hn|Hn].
    + rewrite bool_decide_eq_true_2 by (rewrite Hn; set_solver).
      by rewrite bool_decide_eq_false_2.
    + rewrite bool_decide_eq_false_2; [done|].
      rewrite !elem_of_cons, elem_of_nil. tauto.
Qed.

(** X6. The input loop of the blocking verification stage takes the
    first line that, lowercased and stripped, is [y] or [n]: every read
    before it (a failed read, or any other text, "yes" included) is
    dropped, the lines after it are left unread.  The loop never ends
    exactly when no line of the console is such an answer. *)
Theorem read_approval_first_answer (inputs : Agents.Console) :
  (∀ skipped read answer rest,
     inputs = skipped ++ read :: rest →
     Forall (λ r, decisive r = None) skipped →
     decisive read = Some answer →
     read_approval inputs = Some (answer, rest)) ∧
  (read_approval inputs = None ↔ Forall (λ r, decisive r = None) inputs).
Proof.
  split.
  - intros skipped read answer rest -> Hskipped Hread.
    induction Hskipped as [|r skipped Hr _ IH]; simpl app;
      rewrite read_approval_step.
    + by rewrite Hread.
    + by rewrite Hr.
  - induction inputs as [|r inputs IH]; [by split|].
    rewrite read_approval_step, Forall_cons.
    destruct (decisive r); [|rewrite IH]; split; try done.
    + by intros [? _].
    + by intros [_ ?].
Qed.

Lemma read_approval_first_answer_witness :
  read_approval [Ok "yes"; Raise garbled_line; Ok " Y "; Ok "n"]
    = Some (true, [Ok "n"]).
Proof.
  apply (proj1 (read_approval_first_answer
                  [Ok "yes"; Raise garbled_line; Ok " Y "; Ok "n"])
           [Ok "yes"; Raise garbled_line] (Ok " Y ") true [Ok "n"]).
  - reflexivity.
  - repeat constructor.
  - reflexivity.
Defined.

Lemma get_human_verification_asks W (inputs : Agents.Console) st :
  PyStr.mem (PyStr.lower (PyStr.strip (severity st))) ["low"; "medium"] = true →
  reading_complete (weather_data st) →
  get_human_verification W inputs st =
    match read_approval inputs with
    | Some (approved, rest) => Returns (verified approved st, rest)
    | None => Hangs
    end.
Proof.
  intros Hlow Hwd. unfold get_human_verification, getitem, mbind, result_bind.
  rewrite Hlow.
  destruct (Hwd "weather") as [? ->]; [set_solver|].
  destruct (Hwd "temperature") as [? ->]; [set_solver|].
  destruct (Hwd "wind_speed") as [? ->]; [set_solver|].
  by destruct (read_approval inputs) as [[??]|].
Qed.

Lemma severity_at_department W init :
  severity (department (route_response (logged W init)) W (logged W init))
    = severity (classified W init).
Proof.
  pose proof (department_untouched (route_response (logged W init)) W (logged W init))
    as (_&_&_&->&_).
  apply logged_severity.
Qed.

(** The blocking run, case by case. *)
Lemma agents_run_outcomes W (inputs : Agents.Console) c :
  let s := logged W (Agents.initial_state c) in
  let dept := route_response s in
  let sev := PyStr.lower (PyStr.strip (severity (classified W (Agents.initial_state c)))) in
  if decide (dept = n_emergency_response) then
    ∃ final, send_email_alert W (emergency_response W s) = Ok final ∧
      Agents.app_invoke W inputs c = Finished final inputs severe_path
  else if PyStr.mem sev ["low"; "medium"] then
    match read_approval inputs with
    | None =>
        Agents.app_invoke W inputs c
          = Stalled (opening ++ [dept; n_get_human_verification])
    | Some (true, rest) =>
        ∃ final, send_email_alert W (verified true (department dept W s)) = Ok final ∧
          Agents.app_invoke W inputs c
            = Finished final rest
                (opening ++ [dept; n_get_human_verification; n_send_email_alert])
    | Some (false, rest) =>
        Agents.app_invoke W inputs c
          = Finished (handle_no_approval (verified false (department dept W s))) rest
              (opening ++ [dept; n_get_human_verification; n_handle_no_approval])
    end
  else
    ∃ final, send_email_alert W (auto_approved (department dept W s)) = Ok final ∧
      Agents.app_invoke W inputs c
        = Finished final inputs
            (opening ++ [dept; n_get_human_verification; n_send_email_alert]).
Proof.
  intros s dept sev. rewrite agents_run. cbv zeta. fold s dept.
  assert (Hs : reading_complete (weather_data s)) by apply logged_complete.
  assert (Hd : reading_complete (weather_data (department dept W s)))
    by by apply department_complete.
  assert (Hsev : PyStr.lower (PyStr.strip (severity (department dept W s))) = sev).
  { unfold dept, s, sev. by rewrite severity_at_department. }
  case_decide as Hdept.
  - rewrite Hdept.
    destruct (notify_finishes W inputs (emergency_response W s)
                (opening ++ [n_emergency_response])) as (final & Hsend & ->).
    { by apply (department_complete n_emergency_response). }
    exists final. split; [done|]. unfold severe_path. by rewrite <- app_assoc.
  - destruct (PyStr.mem sev ["low"; "medium"]) eqn:Hlow.
    + rewrite get_human_verification_asks by (by rewrite ?Hsev).
      destruct (read_approval inputs) as [[[|] rest]|]; [| |done].
      * change (truthy (human_approved (verified true (department dept W s))))
          with true. cbv iota.
        destruct (notify_finishes W rest (verified true (department dept W s))
                    (opening ++ [dept; n_get_human_verification]))
          as (final & Hsend & ->); [done|].
        exists final. split; [done|]. by rewrite <- app_assoc.
      * reflexivity.
    + assert (Hauto : get_human_verification W inputs (department dept W s)
                = Returns (auto_approved (department dept W s), inputs)).
      { unfold get_human_verification, auto_approved. by rewrite Hsev, Hlow. }
      rewrite Hauto. cbv beta iota.
      change (truthy (human_approved (auto_approved (department dept W s))))
        with true. cbv iota.
      destruct (notify_finishes (Env := list (result string)) W inputs
                  (auto_approved (department dept W s))
                  (opening ++ [dept; n_get_human_verification]))
        as (final & Hsend & ->); [done|].
      exists final. split; [done|]. by rewrite <- app_assoc.
Qed.

(** The suspend/resume run, case by case. *)
Lemma web_run_outcomes W (pending : AgentWeb.Store) c :
  let s := logged W (declared (AgentWeb.initial_state c)) in
  let dept := route_response s in
  let sev := PyStr.lower (PyStr.strip (severity (classified W (AgentWeb.initial_state c)))) in
  let tok := c +:+ "_" +:+ pretty (time_ms W) in
  if decide (dept = n_emergency_response) then
    ∃ final, send_email_alert W (emergency_response W s) = Ok final ∧
      AgentWeb.app_invoke W pending c = Finished final pending severe_path
  else if PyStr.mem sev ["low"; "medium"] then
    AgentWeb.app_invoke W pending c
      = Finished (handle_no_approval (declared (parked_state tok (department dept W s))))
          (<[tok := department dept W s]> pending)
          (opening ++ [dept; n_get_human_verification; n_handle_no_approval])
  else
    ∃ final,
      send_email_alert W (declared (auto_approved_web (department dept W s))) = Ok final ∧
      AgentWeb.app_invoke W pending c
        = Finished final pending
            (opening ++ [dept; n_get_human_verification; n_send_email_alert]).
Proof.
  intros s dept sev tok.
  assert (Hs : reading_complete (weather_data s)) by apply logged_complete.
  assert (Hd : reading_complete (weather_data (department dept W s)))
    by by apply department_complete.
  assert (Hsev : PyStr.lower (PyStr.strip (severity (department dept W s))) = sev).
  { unfold dept, s, sev.
    by rewrite severity_at_department, severity_classified_declared. }
  case_decide as Hdept.
  - rewrite web_run. cbv zeta. fold s dept. rewrite decide_True by done.
    rewrite Hdept.
    destruct (notify_finishes W pending (emergency_response W s)
                (opening ++ [n_emergency_response])) as (final & Hsend & ->).
    { by apply (department_complete n_emergency_response). }
    exists final. split; [done|]. unfold severe_path. by rewrite <- app_assoc.
  - destruct (PyStr.mem sev ["low"; "medium"]) eqn:Hlow.
    + apply mem_pair in Hlow.
      by destruct (web_run_low_medium W pending c Hlow) as (_ & _ & ->).
    + rewrite web_run. cbv zeta. fold s dept. rewrite decide_False by done.
      assert (Hauto : AgentWeb.get_human_verification_web W pending (department dept W s)
                = (auto_approved_web (department dept W s), pending)).
      { unfold AgentWeb.get_human_verification_web, auto_approved_web.
        by rewrite Hsev, Hlow. }
      rewrite Hauto. cbn [fst snd].
      change (truthy (human_approved
                (declared (auto_approved_web (department dept W s))))) with true.
      cbv iota.
      destruct (notify_finishes W pending
                  (declared (auto_approved_web (department dept W s)))
                  (opening ++ [dept; n_get_human_verification]))
        as (final & Hsend & ->); [done|].
      exists final. split; [done|]. by rewrite <- app_assoc.
Qed.

(** ** Low and medium severity, from suspension to resumption *)

Lemma department_is_not_terminal st :
  route_response st ≠ n_send_email_alert ∧
  route_response st ≠ n_handle_no_approval ∧
  route_response st ≠ n_wait_for_approval ∧
  route_response st ≠ n_get_human_verification.
Proof.
  destruct (route_response_cases st) as [->|[->| ->]]; repeat split; discriminate.
Qed.

Lemma low_medium_department W init :
  PyStr.mem (PyStr.lower (PyStr.strip (severity (classified W init)))) ["low"; "medium"] = true →
  route_response (logged W init) ≠ n_emergency_response.
Proof.
  intros Hlow%mem_pair He%route_emergency_iff.
  rewrite logged_severity in He. by apply (low_medium_not_severe _ Hlow).
Qed.

Lemma alerts_at_department W init n :
  alerts (department n W (logged W init)) = alerts init.
Proof.
  pose proof (department_untouched n W (logged W init)) as (_&_&_&_&->&_).
  by pose proof (logged_untouched W init) as (_&->&_).
Qed.

(** X7. In a blocking run whose assessed severity, stripped and
    lowercased, is "low" or "medium", the operator's answer decides.
    On [y] the run ends at the notify node with [human_approved] true.
    On [n] it ends at the rejection node: the notify node is not
    visited, [alerts] is empty and [human_approved] is false.  With no
    answer the run stays at the verification stage and the notify node
    is not visited. *)
Theorem operator_decides_low_medium (W : World) (inputs : Agents.Console) (c : string) :
  let sev := PyStr.lower (PyStr.strip (severity (classified W (Agents.initial_state c)))) in
  sev = "low" ∨ sev = "medium" →
  match read_approval inputs with
  | None =>
      ∃ visited, Agents.app_invoke W inputs c = Stalled visited ∧
                 (n_send_email_alert ∉ visited)
  | Some (true, rest) =>
      ∃ final visited,
        Agents.app_invoke W inputs c = Finished final rest visited ∧
        last visited = Some n_send_email_alert ∧
        human_approved final = Some true
  | Some (false, rest) =>
      ∃ final visited,
        Agents.app_invoke W inputs c = Finished final rest visited ∧
        last visited = Some n_handle_no_approval ∧
        (n_send_email_alert ∉ visited) ∧
        alerts final = [] ∧
        human_approved final = Some false
  end.
Proof.
  intros sev Hlow%mem_pair.
  pose proof (agents_run_outcomes W inputs c) as Hrun. cbv zeta in Hrun.
  pose proof (low_medium_department W _ Hlow) as Hdept.
  rewrite decide_False in Hrun by done. fold sev in Hrun. rewrite Hlow in Hrun.
  pose proof (alerts_at_department W (Agents.initial_state c)
                (route_response (logged W (Agents.initial_state c)))) as Halerts.
  destruct (route_response_cases (logged W (Agents.initial_state c)))
    as [Hd|[Hd|Hd]]; [done|..]; rewrite Hd in Hrun, Halerts;
    destruct (read_approval inputs) as [[[|] rest]|].
  all: try (destruct Hrun as (final & Hfinal & ->); eexists _, _;
            split; [done|]; split; [done|];
            by rewrite (send_email_alert_human_approved _ _ _ Hfinal)).
  all: rewrite Hrun; repeat eexists; try done; compute_done.
Qed.

Lemma operator_decides_low_medium_witness :
  ∃ final visited,
    Agents.app_invoke low_world [Ok "maybe"; Ok " N "] "London"
      = Finished final [] visited ∧
    last visited = Some n_handle_no_approval ∧
    (n_send_email_alert ∉ visited) ∧
    alerts final = [] ∧
    human_approved final = Some false.
Proof.
  assert (Hlow : PyStr.lower (PyStr.strip
            (severity (classified low_world (Agents.initial_state "London")))) = "low")
    by (vm_compute; reflexivity).
  exact (operator_decides_low_medium low_world [Ok "maybe"; Ok " N "] "London"
           (or_introl Hlow)).
Defined.

Lemma needs_approval_at_department W init n :
  needs_approval (department n W (logged W init)) = needs_approval init.
Proof.
  pose proof (department_untouched n W (logged W init)) as (_&_&_&_&_&_&->&_).
  by pose proof (logged_untouched W init) as (_&_&_&->&_).
Qed.

Lemma city_at_department W init n :
  city (department n W (logged W init)) = city init.
Proof.
  pose proof (department_untouched n W (logged W init)) as (->&_).
  by pose proof (logged_untouched W init) as (->&_).
Qed.

Lemma send_email_alert_keeps W st st' :
  send_email_alert W st = Ok st' →
  city st' = city st ∧ severity st' = severity st ∧ response st' = response st ∧
  disaster_type st' = disaster_type st ∧ weather_data st' = weather_data st ∧
  human_approved st' = human_approved st ∧ needs_approval st' = needs_approval st ∧
  verification_id st' = verification_id st.
Proof.
  intros H%send_email_alert_untouched.
  repeat split;
    [apply (f_equal city H) | apply (f_equal severity H) | apply (f_equal response H)
    | apply (f_equal disaster_type H) | apply (f_equal weather_data H)
    | apply (f_equal human_approved H) | apply (f_equal needs_approval H)
    | apply (f_equal verification_id H)].
Qed.

Lemma web_run_shape (W : World) (pending : AgentWeb.Store) (c : string) :
  let sev := PyStr.lower (PyStr.strip (severity (classified W (AgentWeb.initial_state c)))) in
  let tok := c +:+ "_" +:+ pretty (time_ms W) in
  ∃ final pending' visited,
    AgentWeb.app_invoke W pending c = Finished final pending' visited ∧
    (n_wait_for_approval ∉ visited) ∧
    city final = c ∧
    needs_approval final = None ∧
    verification_id final = None ∧
    (last visited = Some n_send_email_alert ∧
     (n_handle_no_approval ∉ visited) ∧
     ¬ (sev = "low" ∨ sev = "medium") ∧
     pending' = pending
     ∨
     last visited = Some n_handle_no_approval ∧
     (n_send_email_alert ∉ visited) ∧
     (sev = "low" ∨ sev = "medium") ∧
     alerts final = [] ∧
     human_approved final = None ∧
     ∃ snapshot,
       pending' = <[tok := snapshot]> pending ∧
       reading_complete (weather_data snapshot) ∧
       city snapshot = c ∧
       severity snapshot = severity final ∧
       response snapshot = response final ∧
       alerts snapshot = [] ∧
       verification_id snapshot = None).
Proof.
  intros sev tok.
  pose proof (web_run_outcomes W pending c) as Hrun. cbv zeta in Hrun.
  fold sev tok in Hrun.
  set (init := declared (AgentWeb.initial_state c)) in *.
  pose proof (city_at_department W init) as Hcity.
  pose proof (alerts_at_department W init) as Halerts.
  pose proof (λ n, department_complete n W _ (logged_complete W init)) as Hwd.
  assert (Hvid : ∀ n, verification_id (department n W (logged W init)) = None).
  { intros n.
    pose proof (department_untouched n W (logged W init)) as (_&_&_&_&_&_&_&->).
    by pose proof (logged_untouched W init) as (_&_&_&_&->). }
  assert (Hcarried : ∀ final pending' visited,
    AgentWeb.app_invoke W pending c = Finished final pending' visited →
    needs_approval final = None ∧ verification_id final = None).
  { intros final pending' visited Hfin. unfold AgentWeb.app_invoke, invoke in Hfin.
    by apply walk_carries, declared_fixed in Hfin. }
  assert (Hsevere : route_response (logged W init) = n_emergency_response →
                    ¬ (sev = "low" ∨ sev = "medium")).
  { intros He%route_emergency_iff Hlow.
    rewrite logged_severity in He. unfold init in He.
    rewrite severity_classified_declared in He.
    by apply (low_medium_not_severe sev). }
  destruct (route_response_cases (logged W init)) as [Hd|[Hd|Hd]];
    rewrite Hd in Hrun; simpl decide in Hrun; cbv iota in Hrun.
  1: { destruct Hrun as (final & Hfinal & Hfin).
       destruct (Hcarried _ _ _ Hfin) as [Hn Hv].
       apply send_email_alert_keeps in Hfinal as (Hc&_).
       exists final, pending, severe_path. split; [done|].
       split; [compute_done|]. split.
       { rewrite Hc. apply (Hcity n_emergency_response). }
       split; [done|]. split; [done|].
       left. split; [done|]. split; [compute_done|]. split; [by apply Hsevere | done]. }
  all: destruct (PyStr.mem sev ["low"; "medium"]) eqn:Hlow;
    [apply mem_pair in Hlow | apply mem_pair_false in Hlow].
  all: try (destruct Hrun as (final & Hfinal & Hfin);
            destruct (Hcarried _ _ _ Hfin) as [Hn Hv];
            apply send_email_alert_keeps in Hfinal as (Hc&_);
            eexists final, pending, _; split; [exact Hfin|];
            split; [compute_done|]; split; [rewrite Hc; apply Hcity|];
            split; [done|]; split; [done|];
            left; split; [done|]; split; [compute_done|];
            split; [tauto | done]).
  all: rewrite Hrun; eexists _, _, _; split; [done|]; split; [compute_done|];
    split; [apply Hcity|]; split; [done|]; split; [done|];
    right; split; [done|]; split; [compute_done|]; split; [done|];
    split; [apply Halerts|]; split; [done|];
    eexists; split; [done|]; split; [apply Hwd|];
    split; [apply Hcity|]; split; [done|]; split; [done|];
    split; [apply Halerts | apply Hvid].
Qed.

Lemma resume_pending W (pending : AgentWeb.Store) tok snapshot approved :
  pending !! tok = Some snapshot →
  reading_complete (weather_data snapshot) →
  ∃ final,
    AgentWeb.continue_with_approval W pending tok approved
      = (Ok final, delete tok pending) ∧
    city final = city snapshot ∧ severity final = severity snapshot ∧
    response final = response snapshot ∧
    disaster_type final = disaster_type snapshot ∧
    weather_data final = weather_data snapshot ∧
    verification_id final = verification_id snapshot ∧
    human_approved final = Some approved ∧
    needs_approval final = Some false ∧
    (approved = false → alerts final = alerts snapshot) ∧
    ∃ entry, messages final = messages snapshot ++ [SystemMessage entry].
Proof.
  intros Htok Hwd. unfold AgentWeb.continue_with_approval. rewrite Htok.
  fold (resumed approved snapshot). destruct approved.
  - destruct (send_email_alert_total W (resumed true snapshot) Hwd) as [final Hfinal].
    rewrite Hfinal. exists final. split; [done|].
    pose proof (send_email_alert_keeps _ _ _ Hfinal) as (->&->&->&->&->&->&->&->).
    repeat split; try done.
    unfold send_email_alert, mbind, result_bind in Hfinal.
    destruct (format_weather_email W (resumed true snapshot)); [|done].
    destruct (smtp_send _ _ _ _ _ _); injection Hfinal as <-; by eexists.
  - eexists. split; [done|]. repeat split; try done. by eexists.
Qed.

(** X10. What a low or medium run leaves in the store can be resumed,
    though the run does not report it.  When the assessed severity,
    stripped and lowercased, is "low" or "medium", [run_agent_web]
    answers with no request for approval and no token; the store it
    leaves holds an entry under the city, an underscore and the clock
    reading, every other entry as before.  Resuming with that token,
    approved or rejected, in any later world, succeeds: the final state
    is about the same city, severity and plan as the answer, carries
    the decision, and after a rejection has no alert.  The store is
    then the earlier one without the token, that is, the earlier one
    itself when the token was new. *)
Theorem unreported_entry_can_be_resumed (W W' : World) (pending : AgentWeb.Store)
    (c : string) :
  let sev := PyStr.lower (PyStr.strip (severity (classified W (AgentWeb.initial_state c)))) in
  let tok := c +:+ "_" +:+ pretty (time_ms W) in
  sev = "low" ∨ sev = "medium" →
  ∃ result pending',
    AgentWeb.run_agent_web W pending c = Some (result, pending') ∧
    AgentWeb.r_needs_approval result = false ∧
    AgentWeb.r_verification_id result = None ∧
    is_Some (pending' !! tok) ∧
    (∀ tok', tok' ≠ tok → pending' !! tok' = pending !! tok') ∧
    ∀ approved, ∃ final,
      AgentWeb.continue_with_approval W' pending' tok approved
        = (Ok final, delete tok pending) ∧
      city final = c ∧
      severity final = AgentWeb.r_severity result ∧
      response final = AgentWeb.r_response result ∧
      human_approved final = Some approved ∧
      needs_approval final = Some false ∧
      (approved = false → alerts final = []) ∧
      (pending !! tok = None → delete tok pending = pending).
Proof.
  intros sev tok Hlow.
  destruct (web_run_shape W pending c)
    as (final & stored & visited & Hrun & _ & Hcity & Hneeds & _ & Hcases).
  cbv zeta in Hcases. fold sev tok in Hcases.
  destruct Hcases as [(_&_&Hnot&_) | (_&_&_&_&_&snapshot&->&Hwd&Hc&Hsev&Hresp&Hnone&_)];
    [tauto|].
  unfold AgentWeb.run_agent_web. rewrite Hrun, Hneeds. simpl truthy. cbv iota.
  eexists _, _. split; [reflexivity|]. split; [reflexivity|]. split; [reflexivity|].
  split; [rewrite lookup_insert_eq; by eexists|].
  split; [intros tok' Hne; by rewrite lookup_insert_ne|].
  intros approved. simpl.
  destruct (resume_pending W' (<[tok := snapshot]> pending) tok snapshot approved)
    as (resumed_state & Hresume & Hc' & Hs' & Hr' & _ & _ & _ & Ha & Hn & Hrej & _);
    [apply lookup_insert_eq | done |].
  rewrite delete_insert_eq in Hresume.
  exists resumed_state. split; [done|]. rewrite Hc', Hs', Hr'.
  repeat split; try done.
  - intros Hfalse. by rewrite (Hrej Hfalse).
  - apply delete_id.
Qed.

Lemma unreported_entry_can_be_resumed_witness :
  ∃ result pending',
    AgentWeb.run_agent_web low_world ∅ "London" = Some (result, pending') ∧
    AgentWeb.r_needs_approval result = false ∧
    AgentWeb.r_verification_id result = None ∧
    is_Some (pending' !! london_token) ∧
    ∃ final,
      AgentWeb.continue_with_approval smtp_down_world pending' london_token false
        = (Ok final, delete london_token ∅) ∧
      city final = "London" ∧
      human_approved final = Some false.
Proof.
  assert (Hlow : PyStr.lower (PyStr.strip
            (severity (classified low_world (AgentWeb.initial_state "London"))))
          = "low") by (vm_compute; reflexivity).
  destruct (unreported_entry_can_be_resumed low_world smtp_down_world ∅ "London"
              (or_introl Hlow))
    as (result & pending' & Hweb & Hneeds & Hvid & Hin & _ & Hresume).
  destruct (Hresume false) as (final & Hfinal & Hcity & _ & _ & Happroved & _).
  exists result, pending'. split; [exact Hweb|]. split; [exact Hneeds|].
  split; [exact Hvid|]. split; [exact Hin|].
  exists final. split; [exact Hfinal|]. split; [exact Hcity | exact Happroved].
Defined.

Lemma format_weather_email_outcome W st :
  match first_missing (weather_data st) with
  | Some k => format_weather_email W st = Raise (KeyError k)
  | None => ∃ body, format_weather_email W st = Ok body
  end.
Proof.
  unfold first_missing, report_keys, format_weather_email, getitem, mbind, result_bind.
  cbn [List.find].
  destruct (weather_data st !! "weather"); cbn; [|done].
  destruct (weather_data st !! "temperature"); cbn; [|done].
  destruct (weather_data st !! "wind_speed"); cbn; [|done].
  destruct (weather_data st !! "humidity"); cbn; [|done].
  destruct (weather_data st !! "pressure"); cbn; [|done].
  destruct (weather_data st !! "cloud_cover"); cbn; [|done].
  by eexists.
Qed.

Lemma first_missing_None wd : first_missing wd = None ↔ reading_complete wd.
Proof.
  unfold first_missing. split.
  - intros Hnone k Hk%list_elem_of_In.
    apply (List.find_none _ _ Hnone k) in Hk.
    by apply negb_false_iff, bool_decide_eq_true in Hk.
  - intros Hwd. destruct (List.find _ _) as [k|] eqn:Hfind; [|done].
    apply List.find_some in Hfind as [Hin Hk]. apply list_elem_of_In in Hin.
    apply negb_true_iff, bool_decide_eq_false in Hk. destruct Hk. by apply Hwd.
Qed.

Lemma first_missing_Some wd k :
  first_missing wd = Some k → k ∈ report_keys ∧ wd !! k = None.
Proof.
  intros [Hin Hk]%List.find_some. split; [by apply list_elem_of_In|].
  apply negb_true_iff, bool_decide_eq_false in Hk.
  destruct (wd !! k); [|done]. destruct Hk. by eexists.
Qed.

(** X5. [format_weather_email] produces a report exactly when the
    reading holds the six keys weather, temperature, wind_speed,
    humidity, pressure and cloud_cover.  Otherwise it raises [KeyError]
    for the first of them, in that order, that the reading lacks.  The
    seventh key of a reading, sea_level, plays no part. *)
Theorem report_needs_six_keys (W : World) (st : WeatherState) :
  ((∃ body, format_weather_email W st = Ok body) ↔
   reading_complete (weather_data st)) ∧
  (∀ e, format_weather_email W st = Raise e →
        ∃ k, e = KeyError k ∧ first_missing (weather_data st) = Some k ∧
             k ∈ report_keys ∧ weather_data st !! k = None) ∧
  format_weather_email W
    (set_weather_data (delete "sea_level" (weather_data st)) st)
    = format_weather_email W st.
Proof.
  pose proof (format_weather_email_outcome W st) as Hout.
  split; [|split].
  - rewrite <- first_missing_None.
    destruct (first_missing (weather_data st)) as [k|].
    + rewrite Hout. split; [by intros [??] | done].
    + split; [done | by intros _].
  - intros e He. destruct (first_missing (weather_data st)) as [k|] eqn:Hk.
    + rewrite Hout in He. injection He as <-. exists k.
      apply first_missing_Some in Hk as [??]. done.
    + destruct Hout as [body Hbody]. congruence.
  - unfold format_weather_email, getitem. simpl.
    by rewrite !lookup_delete_ne.
Qed.

Lemma report_needs_six_keys_witness :
  format_weather_email low_world (probe "Low" "Flood") = Raise (KeyError "weather") ∧
  ∃ k, KeyError "weather" = KeyError k ∧
       first_missing (weather_data (probe "Low" "Flood")) = Some k ∧
       k ∈ report_keys ∧ weather_data (probe "Low" "Flood") !! k = None.
Proof.
  split; [reflexivity|].
  apply (proj1 (proj2 (report_needs_six_keys low_world (probe "Low" "Flood")))).
  reflexivity.
Defined.

(** X12. When the snapshot stored under a token lacks a key the report
    reads, an approved resumption raises [KeyError] for the first such
    key before anything is deleted: the entry stays pending and the
    endpoint answers 500.  A rejected resumption of the same entry
    formats no report, succeeds and removes the entry. *)
Theorem approved_resume_keeps_token_on_error (W : World)
    (pending : AgentWeb.Store) (tok : string) (snapshot : WeatherState) (k : string) :
  pending !! tok = Some snapshot →
  first_missing (weather_data snapshot) = Some k →
  AgentWeb.continue_with_approval W pending tok true
    = (Raise (KeyError k), pending) ∧
  Main.handle_approval true W pending tok true
    = (server_error_response (KeyError k), pending) ∧
  AgentWeb.continue_with_approval W pending tok false
    = (Ok (handle_no_approval (resumed false snapshot)), delete tok pending).
Proof.
  intros Htok Hk.
  pose proof (format_weather_email_outcome W (resumed true snapshot)) as Hout.
  simpl in Hout. rewrite Hk in Hout.
  assert (Hraise : AgentWeb.continue_with_approval W pending tok true
                   = (Raise (KeyError k), pending)).
  { unfold AgentWeb.continue_with_approval. rewrite Htok.
    fold (resumed true snapshot). unfold send_email_alert, mbind, result_bind.
    by rewrite Hout. }
  split; [done|]. split.
  - unfold Main.handle_approval. simpl negb. cbv iota. by rewrite Hraise.
  - unfold AgentWeb.continue_with_approval. by rewrite Htok.
Qed.

Lemma approved_resume_keeps_token_on_error_witness :
  AgentWeb.continue_with_approval low_world unread_store "Paris_1" true
    = (Raise (KeyError "weather"), unread_store) ∧
  Main.handle_approval true low_world unread_store "Paris_1" true
    = (server_error_response (KeyError "weather"), unread_store) ∧
  AgentWeb.continue_with_approval low_world unread_store "Paris_1" false
    = (Ok (handle_no_approval (resumed false (probe "Low" "Flood"))),
       delete "Paris_1" unread_store).
Proof.
  apply (approved_resume_keeps_token_on_error low_world unread_store "Paris_1"
           (probe "Low" "Flood") "weather").
  - vm_compute. reflexivity.
  - vm_compute. reflexivity.
Defined.

(** X11. A resumption, whatever its outcome, leaves every entry of the
    store under another token as it was; as for its own token, either
    the entry is gone or the whole store is unchanged. *)
Theorem resume_touches_one_entry (W : World) (pending : AgentWeb.Store)
    (tok : string) (approved : bool) :
  let after := (AgentWeb.continue_with_approval W pending tok approved).2 in
  (∀ tok', tok' ≠ tok → after !! tok' = pending !! tok') ∧
  (after !! tok = None ∨ after = pending).
Proof.
  unfold AgentWeb.continue_with_approval.
  destruct (pending !! tok) as [snapshot|] eqn:Htok; simpl.
  2: { split; [done | by left]. }
  destruct (if approved then _ else _); simpl.
  - split; [intros; by apply lookup_delete_ne | left; apply lookup_delete_eq].
  - split; [done | by right].
Qed.

Lemma resume_touches_one_entry_witness :
  (AgentWeb.continue_with_approval low_world
     (<["Paris_1" := london_snapshot]> parked) london_token true).2 !! "Paris_1"
    = (<["Paris_1" := london_snapshot]> parked) !! "Paris_1".
Proof.
  apply (proj1 (resume_touches_one_entry low_world
                  (<["Paris_1" := london_snapshot]> parked) london_token true)).
  vm_compute. discriminate.
Defined.

Lemma never_rendered W (l : list Message) :
  (∀ m, message_str W m ≠ "send_email_alert") →
  PyStr.mem "send_email_alert" (message_str W <$> l) = false.
Proof.
  intros Hstr. unfold PyStr.mem. apply bool_decide_eq_false.
  intros (m & Hm & _)%list_elem_of_fmap. by apply (Hstr m).
Qed.

(** X13. Provided no trace entry renders (by [str]) as exactly the
    text "send_email_alert", the [email_sent] flag computed by the
    approval endpoint and by [run_agent_web] is never true, and the
    approval endpoint never answers "Email alert sent successfully!",
    whether or not an alert was sent and recorded. *)
Theorem email_sent_flag_is_never_set (W : World) :
  (∀ m, message_str W m ≠ "send_email_alert") →
  (∀ (pending : AgentWeb.Store) tok approved,
     let answer := (Main.handle_approval true W pending tok approved).1 in
     Main.email_sent answer ≠ Some true ∧
     Main.message answer ≠ "Email alert sent successfully!") ∧
  (∀ (pending pending' : AgentWeb.Store) c result,
     AgentWeb.run_agent_web W pending c = Some (result, pending') →
     AgentWeb.r_email_sent result ≠ Some true).
Proof.
  intros Hstr. split.
  - intros pending tok approved. unfold Main.handle_approval. simpl negb. cbv iota.
    destruct (AgentWeb.continue_with_approval W pending tok approved) as [[final|e] after].
    + simpl. rewrite never_rendered by done. split; [done|].
      rewrite andb_false_r. by destruct approved.
    + assert (Hfirst : ∀ text : string,
                String.get 1 text ≠ Some "m"%char →
                text ≠ "Email alert sent successfully!").
      { intros text Hget ->. by apply Hget. }
      destruct e; simpl; (split; [done|]); by apply Hfirst.
  - intros pending pending' c result. unfold AgentWeb.run_agent_web.
    destruct (AgentWeb.app_invoke W pending c) as [final after visited| | |];
      [|by intros [= <- _]|done|by intros [= <- _]].
    destruct (truthy (needs_approval final)); intros [= <- _]; simpl; [done|].
    by rewrite never_rendered.
Qed.

Lemma email_sent_flag_is_never_set_witness :
  Main.email_sent (Main.handle_approval true rendering_world parked london_token true).1
    ≠ Some true ∧
  Main.message (Main.handle_approval true rendering_world parked london_token true).1
    ≠ "Email alert sent successfully!".
Proof.
  apply (proj1 (email_sent_flag_is_never_set rendering_world
                  ltac:(intros m Hm; apply (f_equal (String.get 0)) in Hm;
                        vm_compute in Hm; discriminate))
           parked london_token true).
Defined.

(** X8. A run of the suspend/resume workflow always finishes, about
    the city asked for, and never visits the park node; its final state
    holds neither [needs_approval] nor [verification_id].  When the
    assessed severity, stripped and lowercased, is neither "low" nor
    "medium" it ends at the notify node, the rejection node not
    visited, the store as it was.  When it is "low" or "medium" it ends
    at the rejection node, the notify node not visited, [alerts] empty
    and [human_approved] pending, and the store extended by one
    snapshot under the city, an underscore and the clock reading, a
    snapshot with a complete reading, no token, and the city, severity
    and plan of the run. *)
Theorem web_run_never_parks (W : World) (pending : AgentWeb.Store) (c : string) :
  let sev := PyStr.lower (PyStr.strip (severity (classified W (AgentWeb.initial_state c)))) in
  let tok := c +:+ "_" +:+ pretty (time_ms W) in
  ∃ final pending' visited,
    AgentWeb.app_invoke W pending c = Finished final pending' visited ∧
    (n_wait_for_approval ∉ visited) ∧
    city final = c ∧
    needs_approval final = None ∧
    verification_id final = None ∧
    (last visited = Some n_send_email_alert ∧
     (n_handle_no_approval ∉ visited) ∧
     ¬ (sev = "low" ∨ sev = "medium") ∧
     pending' = pending
     ∨
     last visited = Some n_handle_no_approval ∧
     (n_send_email_alert ∉ visited) ∧
     (sev = "low" ∨ sev = "medium") ∧
     alerts final = [] ∧
     human_approved final = None ∧
     ∃ snapshot,
       pending' = <[tok := snapshot]> pending ∧
       reading_complete (weather_data snapshot) ∧
       city snapshot = c ∧
       severity snapshot = severity final ∧
       response snapshot = response final ∧
       alerts snapshot = [] ∧
       verification_id snapshot = None).
Proof. apply web_run_shape. Qed.

(** ** Readings, traces and the callers of the blocking workflow *)

Lemma error_data_keys : dom error_data = reading_keys.
Proof. unfold error_data, reading_keys. rewrite !dom_insert_L, dom_empty_L. set_solver. Qed.

Lemma build_weather_data_keys W data wd :
  build_weather_data W data = Ok wd → dom wd = reading_keys.
Proof.
  unfold build_weather_data, mbind, result_bind.
  destruct (default [∅] (pd_weather data)); [done|].
  destruct (get_default _ "temp" _); [done|].
  intros [= <-]. unfold reading_keys. rewrite !dom_insert_L, dom_empty_L. set_solver.
Qed.

Lemma get_weather_data_keys W st :
  dom (weather_data (get_weather_data W st)) = reading_keys.
Proof.
  unfold get_weather_data, fetch_weather, mbind, result_bind.
  destruct (requests_get_json W _) as [data|e]; simpl; [|apply error_data_keys].
  destruct (build_weather_data W data) eqn:Hwd; simpl;
    [by eapply build_weather_data_keys | apply error_data_keys].
Qed.

(** X3. Whatever the provider answers, the fetch stage leaves a reading
    with exactly the seven keys weather, wind_speed, cloud_cover,
    sea_level, temperature, humidity and pressure, and so does every
    finished run of either workflow. *)
Theorem reading_has_seven_keys (W : World) :
  (∀ st, dom (weather_data (get_weather_data W st)) = reading_keys) ∧
  (∀ (inputs rest : Agents.Console) c final visited,
     Agents.app_invoke W inputs c = Finished final rest visited →
     dom (weather_data final) = reading_keys) ∧
  (∀ (pending pending' : AgentWeb.Store) c final visited,
     AgentWeb.app_invoke W pending c = Finished final pending' visited →
     dom (weather_data final) = reading_keys).
Proof.
  split; [apply get_weather_data_keys|]. split.
  - intros inputs rest c final visited.
    apply (walk_establishes Agents.workflow W
             (λ st, dom (weather_data st) = reading_keys) n_get_weather);
      [by intros ?| |by left].
    intros n f env st st' env' Hf Hrun [->|Hdom].
    + simpl in Hf. injection Hf as <-. unfold plain in Hrun. injection Hrun as <- <-.
      apply get_weather_data_keys.
    + destruct (decide (n = n_get_weather)) as [->|Hn].
      * simpl in Hf. injection Hf as <-. unfold plain in Hrun.
        injection Hrun as <- <-. apply get_weather_data_keys.
      * destruct (blocking_stage_frame n f W env env' st st' Hf Hrun) as [Hblank _].
        apply (f_equal weather_data) in Hblank.
        destruct n; try done; simpl in Hblank; by rewrite Hblank.
  - intros pending pending' c final visited.
    apply (walk_establishes AgentWeb.workflow W
             (λ st, dom (weather_data st) = reading_keys) n_get_weather);
      [by intros ?| |by left].
    intros n f env st st' env' Hf Hrun [->|Hdom].
    + simpl in Hf. injection Hf as <-. unfold plain in Hrun. injection Hrun as <- <-.
      apply get_weather_data_keys.
    + destruct (decide (n = n_get_weather)) as [->|Hn].
      * simpl in Hf. injection Hf as <-. unfold plain in Hrun.
        injection Hrun as <- <-. apply get_weather_data_keys.
      * destruct (web_stage_frame n f W env env' st st' Hf Hrun) as [Hblank _].
        apply (f_equal weather_data) in Hblank.
        destruct n; try done; simpl in Hblank; by rewrite Hblank.
Qed.

Lemma reading_has_seven_keys_witness :
  ∃ final (pending' : AgentWeb.Store) visited,
    AgentWeb.app_invoke dead_world ∅ "London" = Finished final pending' visited ∧
    dom (weather_data final) = reading_keys.
Proof.
  finished (AgentWeb.app_invoke dead_world ∅ "London") final pending' visited Hrun.
  exists final, pending', visited. split; [done|].
  by apply (proj2 (proj2 (reading_has_seven_keys dead_world)) ∅ pending' "London"
              final visited).
Defined.

(** X4. Three answers of the provider that the HTTP layer accepts.  An
    answer with none of the keys weather, wind, clouds, main is a
    success: every field of the reading is "N/A" except the temperature,
    which is the conversion of the default 273.15.  An answer whose
    weather list is empty takes the failure path ("list index out of
    range", all-"N/A" reading), and so does an answer whose temperature
    is a string. *)
Theorem provider_answer_edge_cases (W : World) (st : WeatherState) (data : ProviderData) :
  requests_get_json W (request_url W st) = Ok data →
  (data = empty_answer →
   get_weather_data W st =
     log_message ("Weather data fetched successfully for " +:+ city st)
       (set_weather_data
          (<["temperature" := PNum (kelvin_to_celsius W "273.15")]> error_data) st)) ∧
  (pd_weather data = Some [] →
   get_weather_data W st =
     log_message ("Failed to fetch weather data for " +:+ city st +:+
                  ": list index out of range")
       (set_weather_data error_data st)) ∧
  (∀ main text, pd_main data = Some main → main !! "temp" = Some (PStr text) →
   ∃ e, get_weather_data W st =
     log_message ("Failed to fetch weather data for " +:+ city st +:+ ": " +:+ str_exn e)
       (set_weather_data error_data st)).
Proof.
  intros Hget. unfold get_weather_data, fetch_weather, mbind, result_bind.
  rewrite Hget. split; [|split].
  - intros ->. unfold build_weather_data, mbind, result_bind. simpl.
    reflexivity.
  - intros Hlist. unfold build_weather_data, mbind, result_bind. by rewrite Hlist.
  - intros main text Hmain Htemp. unfold build_weather_data, mbind, result_bind.
    unfold get_default at 2. rewrite Hmain. simpl. rewrite Htemp. simpl.
    destruct (default [∅] (pd_weather data)); by eexists.
Qed.

Lemma provider_answer_edge_cases_witness :
  get_weather_data empty_answer_world (probe "" "") =
    log_message "Weather data fetched successfully for London"
      (set_weather_data (<["temperature" := PNum "273.15"]> error_data) (probe "" "")).
Proof.
  apply (proj1 (provider_answer_edge_cases empty_answer_world (probe "" "")
                  empty_answer eq_refl)).
  reflexivity.
Defined.

(** X1. Each stage of either workflow, whenever it returns, changes
    only its own fields: the trace, and besides it the reading for the
    fetch stage, the disaster type for the classification, the severity
    for the assessment, the plan for the three generators, the approval
    fields for the verification stage, [alerts] for the notify stage,
    nothing for the audit log, the rejection and the park node.  No
    stage changes the city. *)
Theorem stage_writes_only_its_fields (W : World) (n : Node) (st st' : WeatherState) :
  (∃ f (inputs rest : Agents.Console),
     node_fn Agents.workflow n = Some f ∧ f W inputs st = Returns (st', rest)) ∨
  (∃ f (pending pending' : AgentWeb.Store),
     node_fn AgentWeb.workflow n = Some f ∧ f W pending st = Returns (st', pending')) →
  blank n st' = blank n st ∧ city st' = city st.
Proof.
  intros Hstage.
  assert (Hblank : blank n st' = blank n st).
  { destruct Hstage as [(f & inputs & rest & Hf & Hrun) | (f & pending & pending' & Hf & Hrun)].
    - by destruct (blocking_stage_frame n f W inputs rest st st' Hf Hrun).
    - by destruct (web_stage_frame n f W pending pending' st st' Hf Hrun). }
  split; [done|]. apply (f_equal city) in Hblank. by destruct n.
Qed.

Lemma stage_writes_only_its_fields_witness :
  blank n_assess_severity (assess_severity dead_world (probe "Low" "Flood"))
    = blank n_assess_severity (probe "Low" "Flood") ∧
  city (assess_severity dead_world (probe "Low" "Flood")) = city (probe "Low" "Flood").
Proof.
  apply (stage_writes_only_its_fields dead_world n_assess_severity).
  left. exists (plain assess_severity), [], []. split; reflexivity.
Defined.

Lemma sum_entries (visited : list Node) :
  sum_list (entries <$> visited)
    = length (filter (λ n, n ≠ n_wait_for_approval) visited).
Proof.
  induction visited as [|n visited IH]; [done|].
  rewrite fmap_cons, filter_cons. simpl sum_list. rewrite IH.
  destruct (decide (n ≠ n_wait_for_approval)) as [Hn|Hn].
  - simpl. by destruct n.
  - apply dec_stable in Hn as ->. done.
Qed.

Lemma blocking_run_counts W (inputs rest : Agents.Console) c final visited :
  Agents.app_invoke W inputs c = Finished final rest visited →
  length (messages final) = length visited.
Proof.
  intros Hrun. unfold Agents.app_invoke, invoke in Hrun.
  assert (Hw : ∀ n f (env : Agents.Console) st st' env',
    node_fn Agents.workflow n = Some f → f W env st = Returns (st', env') →
    length (messages st') = (length (messages st) + 1)%nat).
  { intros n f env st st' env' Hf Hstage.
    destruct (blocking_stage_frame n f W env env' st st' Hf Hstage) as [_ ->].
    by destruct n. }
  destruct (walk_counts Agents.workflow W (λ _, 1%nat) Hw _ _ _ _ _ _ _ _ Hrun)
    as (more & -> & ->).
  simpl. clear. induction more as [|? ? IH]; [done|].
  rewrite fmap_cons. simpl. by rewrite IH.
Qed.

Lemma web_run_counts W (pending pending' : AgentWeb.Store) c final visited :
  AgentWeb.app_invoke W pending c = Finished final pending' visited →
  length (messages final) = length (filter (λ n, n ≠ n_wait_for_approval) visited).
Proof.
  intros Hrun. unfold AgentWeb.app_invoke, invoke in Hrun.
  assert (Hw : ∀ n f (env : AgentWeb.Store) st st' env',
    node_fn AgentWeb.workflow n = Some f → f W env st = Returns (st', env') →
    length (messages st') = (length (messages st) + entries n)%nat).
  { intros n f env st st' env' Hf Hstage.
    by destruct (web_stage_frame n f W env env' st st' Hf Hstage) as [_ ->]. }
  destruct (walk_counts AgentWeb.workflow W entries Hw _ _ _ _ _ _ _ _ Hrun)
    as (more & -> & ->).
  simpl. apply sum_entries.
Qed.

(** X2. A finished run has one trace entry for each stage it ran: the
    trace of a blocking run is as long as the list of nodes visited,
    that of a suspend/resume run as long as the nodes visited other
    than the park node, which adds none. *)
Theorem trace_has_one_entry_per_stage (W : World) (c : string) :
  (∀ (inputs rest : Agents.Console) final visited,
     Agents.app_invoke W inputs c = Finished final rest visited →
     length (messages final) = length visited) ∧
  (∀ (pending pending' : AgentWeb.Store) final visited,
     AgentWeb.app_invoke W pending c = Finished final pending' visited →
     length (messages final)
       = length (filter (λ n, n ≠ n_wait_for_approval) visited)).
Proof.
  split; intros ????; [apply blocking_run_counts | apply web_run_counts].
Qed.

Lemma trace_has_one_entry_per_stage_witness :
  ∃ final rest visited,
    Agents.app_invoke midnight_world [] "London" = Finished final rest visited ∧
    length (messages final) = length visited.
Proof.
  finished (Agents.app_invoke midnight_world [] "London") final rest visited Hrun.
  exists final, rest, visited. split; [done|].
  by apply (proj1 (trace_has_one_entry_per_stage midnight_world "London") [] rest).
Defined.

Lemma blocking_run_city W (inputs rest : Agents.Console) c final visited :
  Agents.app_invoke W inputs c = Finished final rest visited → city final = c.
Proof.
  intros Hrun. unfold Agents.app_invoke, invoke in Hrun.
  apply (walk_preserves Agents.workflow W city) in Hrun; [done|done|].
  intros n f env st st' env' Hf Hstage.
  destruct (blocking_stage_frame n f W env env' st st' Hf Hstage) as [Hblank _].
  apply (f_equal city) in Hblank. by destruct n.
Qed.

Lemma run_and_rest_returns W (inputs : Agents.Console) c returned rest :
  Monitor.run_and_rest W inputs c = Some (returned, rest) →
  ∃ final, returned = Some final ∧ city final = c.
Proof.
  unfold Monitor.run_and_rest.
  pose proof (agents_run_never_aborts W inputs c) as Hnever.
  destruct (Agents.app_invoke W inputs c) as [final rest' visited| | |] eqn:Hrun;
    try done.
  intros [= <- <-]. exists final. split; [done|]. by eapply blocking_run_city.
Qed.

Lemma check_cities_runs W cities (inputs : Agents.Console) runs unread :
  Monitor.check_cities W cities inputs = Some (runs, unread) →
  runs.*1 = (λ ch, String ch "") <$> String.list_ascii_of_string cities ∧
  Forall (λ run, ∃ final, run.2 = Some final ∧ city final = run.1) runs.
Proof.
  revert inputs runs unread.
  induction cities as [|ch later IH]; intros inputs runs unread; simpl.
  - intros [= <- <-]. by split.
  - destruct (Monitor.run_and_rest W inputs (String ch "")) as [[returned rest]|] eqn:Hrun;
      [|done].
    destruct (Monitor.check_cities W later rest) as [[runs' unread']|] eqn:Hlater; [|done].
    intros [= <- <-]. destruct (IH _ _ _ Hlater) as [Hnames Hall].
    split; [cbn [String.list_ascii_of_string]; by rewrite !fmap_cons, Hnames|].
    constructor; [|done]. by apply run_and_rest_returns in Hrun.
Qed.

(** X15. The scheduled check iterates over the line it read, not over
    comma-separated names: whenever it returns, it has run the workflow
    once for each character of the line, in order, with that one
    character as the city; there are as many runs as characters, and
    each returned the final state of a run for its character. *)
Theorem scheduled_check_runs_once_per_character (W : World) (line : string)
    (rest unread : Agents.Console) (runs : list Monitor.Run) :
  Monitor.scheduled_check W (Ok line :: rest) = Returns (runs, unread) →
  runs.*1 = (λ ch, String ch "") <$> String.list_ascii_of_string line ∧
  length runs = String.length line ∧
  Forall (λ run, ∃ final, run.2 = Some final ∧ city final = run.1) runs.
Proof.
  unfold Monitor.scheduled_check.
  destruct (Monitor.check_cities W line rest) as [[runs' unread']|] eqn:Hcheck; [|done].
  intros [= <- <-]. destruct (check_cities_runs _ _ _ _ _ Hcheck) as [Hnames Hall].
  split; [done|]. split; [|done].
  transitivity (length (runs'.*1)); [by rewrite length_fmap|].
  rewrite Hnames, length_fmap.
  clear. induction line; simpl; congruence.
Qed.

Lemma scheduled_check_runs_once_per_character_witness :
  ∃ runs unread,
    Monitor.scheduled_check midnight_world [Ok "NY"] = Returns (runs, unread) ∧
    runs.*1 = ["N"; "Y"] ∧
    length runs = 2%nat.
Proof.
  assert (Hreturns : match Monitor.scheduled_check midnight_world [Ok "NY"] with
                     | Returns _ => True
                     | _ => False
                     end) by (vm_compute; exact I).
  destruct (Monitor.scheduled_check midnight_world [Ok "NY"])
    as [[runs unread]| |] eqn:Hcheck; [|done..].
  apply scheduled_check_runs_once_per_character in Hcheck as Hruns.
  destruct Hruns as (Hnames & Hlength & _).
  exists runs, unread. split; [done|]. split; [exact Hnames | exact Hlength].
Defined.

(** X14. [run_agent], the import of [Agents] having succeeded, never
    answers through its [except] branch.  When it returns, the run
    finished and the answer carries the fields of the final state: the
    city asked for, and one rendered message for each node visited.
    It fails to return only when the run is waiting for an operator who
    gives no answer. *)
Theorem run_agent_never_answers_error (W : World) (inputs : Agents.Console) (c : string) :
  match Agent.run_agent true W inputs c with
  | Some result =>
      ∃ final rest visited,
        Agents.app_invoke W inputs c = Finished final rest visited ∧
        result = Agent.of_state W final ∧
        Agent.a_city result = c ∧
        length (Agent.a_messages result) = length visited
  | None =>
      read_approval inputs = None ∧
      ∃ visited, Agents.app_invoke W inputs c = Stalled visited
  end.
Proof.
  unfold Agent.run_agent, Agents.run_weather_emergency_system.
  pose proof (agents_run_never_aborts W inputs c) as Hnever.
  destruct (Agents.app_invoke W inputs c) as [final rest visited| |visited|] eqn:Hrun;
    try done.
  - exists final, rest, visited. split; [done|]. split; [done|].
    split; [by eapply blocking_run_city|].
    simpl. rewrite length_fmap. by eapply blocking_run_counts.
  - split; [done|]. by exists visited.
Qed.

(** ** Tokens and the analysis endpoint *)

Lemma append_cons ch (a b : string) : String ch a +:+ b = String ch (a +:+ b).
Proof. reflexivity. Qed.

Lemma append_nil (b : string) : "" +:+ b = b.
Proof. reflexivity. Qed.

Lemma pretty_N_char_clean x : pretty_N_char x ≠ "_"%char.
Proof. unfold pretty_N_char. repeat case_match; discriminate. Qed.

Lemma pretty_N_go_clean x s : underscore_free s → underscore_free (pretty_N_go x s).
Proof.
  revert s. induction (N.lt_wf_0 x) as [x _ IH]. intros s Hs.
  destruct (decide (0 < x)%N) as [Hx|Hx].
  - rewrite pretty_N_go_step by done. apply IH.
    + by apply N.div_lt.
    + split; [apply pretty_N_char_clean | done].
  - assert (x = 0%N) as -> by lia. by rewrite pretty_N_go_0.
Qed.

Lemma pretty_N_clean (x : N) : underscore_free (pretty x).
Proof.
  unfold pretty, pretty_N. case_decide.
  - by split.
  - by apply pretty_N_go_clean.
Qed.

Lemma pretty_Z_clean (z : Z) : underscore_free (pretty z).
Proof.
  destruct z as [|p|p]; unfold pretty, pretty_Z.
  - by split.
  - apply (pretty_N_clean (Npos p)).
  - rewrite append_cons, append_nil. split; [discriminate|].
    apply (pretty_N_clean (Npos p)).
Qed.

Lemma underscore_inside (a b : string) : ¬ underscore_free (a +:+ "_" +:+ b).
Proof.
  induction a as [|ch a IH]; [by intros [? _]|].
  rewrite append_cons. by intros [_ ?].
Qed.

Lemma split_at_last_underscore (a b d1 d2 : string) :
  underscore_free d1 → underscore_free d2 →
  a +:+ "_" +:+ d1 = b +:+ "_" +:+ d2 → a = b ∧ d1 = d2.
Proof.
  intros H1 H2. revert b.
  induction a as [|ch a IH]; intros [|ch' b]; rewrite ?append_cons, ?append_nil.
  - by intros [= ->].
  - intros [= <- ->]. by apply underscore_inside in H1.
  - intros [= -> <-]. by apply underscore_inside in H2.
  - intros [= -> [-> ->]%IH]. done.
Qed.

(** X9. Two minted tokens are equal exactly when the cities are equal
    and the clock readings are equal: a city that itself contains
    underscores or digits cannot make two different pairs collide. *)
Theorem tokens_differ_unless_city_and_time_agree (W1 W2 : World)
    (st1 st2 : WeatherState) :
  AgentWeb.mint_verification_id W1 st1 = AgentWeb.mint_verification_id W2 st2 ↔
  city st1 = city st2 ∧ time_ms W1 = time_ms W2.
Proof.
  unfold AgentWeb.mint_verification_id. split.
  - intros [Hc Ht]%split_at_last_underscore; [|apply pretty_Z_clean..].
    split; [done|]. by apply (inj pretty).
  - by intros [-> ->].
Qed.

Lemma run_agent_web_answers W (pending : AgentWeb.Store) c :
  ∃ result pending',
    AgentWeb.run_agent_web W pending c = Some (result, pending') ∧
    AgentWeb.r_city result = c ∧
    AgentWeb.r_needs_approval result = false ∧
    AgentWeb.r_verification_id result = None ∧
    (pending' = pending ∨
     ∃ snapshot,
       pending' = <[c +:+ "_" +:+ pretty (time_ms W) := snapshot]> pending ∧
       city snapshot = c).
Proof.
  destruct (web_run_shape W pending c)
    as (final & stored & visited & Hrun & _ & Hcity & Hneeds & _ & Hcases).
  unfold AgentWeb.run_agent_web. rewrite Hrun, Hneeds. simpl truthy. cbv iota.
  eexists _, _. split; [reflexivity|]. split; [exact Hcity|].
  split; [reflexivity|]. split; [reflexivity|].
  destruct Hcases as [(_&_&_&->) | (_&_&_&_&_&snapshot&->&_&Hc&_)].
  - by left.
  - right. by exists snapshot.
Qed.

(** X16. The analysis endpoint over the web agent always answers, and
    never asks for approval: the answer carries [needs_approval] false
    and no token.  For a city that is empty or blank the answer reports
    failure, names the city as sent, and the store is untouched: no
    stage has run.  Otherwise the answer reports success for the
    stripped city with the message of a completed analysis, and the
    store is as before or has gained one snapshot of that city under
    the city, an underscore and the clock reading. *)
Theorem analyze_weather_answers (agents_imported : bool) (W : World)
    (pending : AgentWeb.Store) (inputs : Agents.Console) (request_city : string) :
  ∃ answer pending',
    Api.analyze_weather true agents_imported W pending inputs request_city
      = Some (answer, pending') ∧
    Api.ar_needs_approval answer = Some false ∧
    Api.ar_verification_id answer = None ∧
    if decide (PyStr.strip request_city = "") then
      Api.ar_success answer = false ∧ Api.ar_city answer = request_city ∧
      pending' = pending
    else
      let c := PyStr.strip request_city in
      Api.ar_success answer = true ∧
      Api.ar_city answer = c ∧
      Api.ar_message answer = Some ("Weather analysis completed for " +:+ c) ∧
      (pending' = pending ∨
       ∃ snapshot,
         pending' = <[c +:+ "_" +:+ pretty (time_ms W) := snapshot]> pending ∧
         city snapshot = c).
Proof.
  unfold Api.analyze_weather.
  assert (Hblank : bool_decide (request_city = "")
                   || bool_decide (PyStr.strip request_city = "")
                   = bool_decide (PyStr.strip request_city = "")).
  { destruct (bool_decide (request_city = "")) eqn:Hempty; [|reflexivity].
    apply bool_decide_eq_true in Hempty as ->. vm_compute. reflexivity. }
  rewrite Hblank.
  destruct (bool_decide_reflect (PyStr.strip request_city = "")) as [Hstrip|Hstrip].
  - eexists _, _. split; [reflexivity|]. split; [reflexivity|].
    split; [reflexivity|]. by rewrite decide_True.
  - destruct (run_agent_web_answers W pending (PyStr.strip request_city))
      as (result & pending' & -> & Hcity & Hneeds & Hvid & Hstore).
    eexists _, _. split; [reflexivity|]. simpl. rewrite Hneeds, Hvid.
    split; [reflexivity|]. split; [reflexivity|].
    rewrite decide_False by done. cbv zeta.
    split; [done|]. split; [done|]. split; [done|]. exact Hstore.
Qed.

(** X17. The analysis endpoint without the web agent, for a city that
    is not blank.  Whenever it answers, the answer reports success for
    the stripped city, asks for no approval, carries no token, and the
    store is as before.  With the placeholder in place of the workflow
    it always answers, a "Low" severity whatever the city.  With the
    workflow it answers with the fields of the final state of a
    blocking run, and fails to answer only while that run waits for an
    operator who gives no answer. *)
Theorem analyze_weather_without_web_agent (agents_imported : bool) (W : World)
    (pending : AgentWeb.Store) (inputs : Agents.Console) (request_city : string) :
  PyStr.strip request_city ≠ "" →
  match Api.analyze_weather false agents_imported W pending inputs request_city with
  | Some (answer, pending') =>
      pending' = pending ∧
      Api.ar_success answer = true ∧
      Api.ar_city answer = PyStr.strip request_city ∧
      Api.ar_needs_approval answer = Some false ∧
      Api.ar_verification_id answer = None ∧
      if agents_imported then
        ∃ final rest visited,
          Agents.app_invoke W inputs (PyStr.strip request_city)
            = Finished final rest visited ∧
          Api.ar_severity answer = severity final ∧
          Api.ar_response answer = response final ∧
          Api.ar_weather_data answer = weather_data final
      else Api.ar_severity answer = "Low"
  | None =>
      agents_imported = true ∧ read_approval inputs = None ∧
      ∃ visited,
        Agents.app_invoke W inputs (PyStr.strip request_city) = Stalled visited
  end.
Proof.
  intros Hcity. unfold Api.analyze_weather.
  assert (Hne : request_city ≠ "") by (intros ->; by apply Hcity).
  rewrite (bool_decide_eq_false_2 _ Hne), (bool_decide_eq_false_2 _ Hcity).
  cbn [orb]. cbv iota zeta.
  destruct agents_imported; [|by repeat split].
  unfold Agent.run_agent, Agents.run_weather_emergency_system.
  pose proof (agents_run_never_aborts W inputs (PyStr.strip request_city)) as Hnever.
  destruct (Agents.app_invoke W inputs (PyStr.strip request_city))
    as [final rest visited| |visited|]; try done.
  - simpl. do 5 (split; [done|]). by exists final, rest, visited.
  - split; [done|]. split; [done|]. by exists visited.
Qed.

Lemma analyze_weather_without_web_agent_witness :
  Api.analyze_weather false true low_world ∅ [Ok "maybe"] " London " = None ∧
  ∃ visited, Agents.app_invoke low_world [Ok "maybe"] "London" = Stalled visited.
Proof.
  assert (Hnone : Api.analyze_weather false true low_world ∅ [Ok "maybe"] " London "
                  = None) by (vm_compute; reflexivity).
  split; [exact Hnone|].
  pose proof (analyze_weather_without_web_agent true low_world ∅ [Ok "maybe"]
                " London " ltac:(vm_compute; discriminate)) as Hanswer.
  rewrite Hnone in Hanswer. destruct Hanswer as (_ & _ & Hrun). exact Hrun.
Defined.
